(** * Jupyter wire protocol client: message codec and kernel session manager

    Shallow embedding of [src/kernel/JupyterProtocol.ts] and
    [src/kernel/KernelManager.ts].

    Conventions.
    - A JavaScript string and a [Buffer] are both a [string] here: the
      sequence of bytes of the UTF-8 encoding.  [Buffer.from(s)] and
      [buf.toString()] are then the identity.  Every comparison the code makes
      on a decoded frame is against an ASCII literal, an empty string or a
      hexadecimal digest, for which decoding with replacement characters and
      the identity agree.
    - A value produced by [JSON.parse] is a [json]; [undefined] is [None] in
      [jsval].  Numbers are the integers ([Z]).
    - [JSON.stringify], [JSON.parse] and the keyed SHA-256 digest are platform
      primitives: fields of the class [Platform].  Theorems hold for every
      platform; [reference_platform] is a small executable one used to run
      the code on concrete inputs.
    - An [async] method is cut at its [await]s into segments that run without
      interruption; the environment decides the order of the segments and
      supplies what the awaited operation delivers (a reply, the connection
      file, a fresh uuid, the time).  The waits on timers and on [connect]
      are not cut.
    - Subscribers of the [EventEmitter] are outside: an emission is recorded
      in the trace of effects. *)

From Stdlib Require Import ZArith String List Bool Ascii Lia DecimalString.
Import ListNotations.
Open Scope string_scope.
Open Scope Z_scope.

(** ** JavaScript values *)

#[warnings="-register-all"]
Inductive json : Type :=
| JNull
| JBool (b : bool)
| JNum (n : Z)
| JStr (s : string)
| JArr (xs : list json)
| JObj (fields : list (string * json)).

(** A value or [undefined]. *)
Definition jsval : Type := option json.
Definition undefined : jsval := None.

Inductive JsError : Type :=
| TypeError (m : string)
| SyntaxError (m : string)
| Error (m : string).

(** Result of evaluating a piece of code: a value, or a thrown exception. *)
Inductive completion (A : Type) : Type :=
| Normal (a : A)
| Throw (e : JsError).
Arguments Normal {A} a.
Arguments Throw {A} e.

Definition cbind {A B : Type} (c : completion A) (k : A -> completion B) : completion B :=
  match c with
  | Normal a => k a
  | Throw e => Throw e
  end.

Declare Scope completion_scope.
Delimit Scope completion_scope with completion.
Notation "x <-! c ;; k" := (cbind c (fun x => k))
  (at level 61, c at next level, right associativity) : completion_scope.

(** Own property of an object, by key. *)
Fixpoint assoc {V : Type} (k : string) (l : list (string * V)) : option V :=
  match l with
  | [] => None
  | (k', v) :: rest => if String.eqb k k' then Some v else assoc k rest
  end.

(** [v[k]] for the keys this program reads (message fields and MIME types,
    none of them inherited or an index): reading from [null] or [undefined]
    throws, a primitive or an array has no such property. *)
Definition js_get (v : jsval) (k : string) : completion jsval :=
  match v with
  | None => Throw (TypeError "Cannot read properties of undefined")
  | Some JNull => Throw (TypeError "Cannot read properties of null")
  | Some (JObj fields) => Normal (assoc k fields)
  | Some _ => Normal undefined
  end.

(** Truthiness, as tested by [if (v)], [!v] and [a && b]. *)
Definition truthy (v : jsval) : bool :=
  match v with
  | None => false
  | Some JNull => false
  | Some (JBool b) => b
  | Some (JNum n) => negb (n =? 0)
  | Some (JStr s) => negb (String.eqb s "")
  | Some (JArr _) => true
  | Some (JObj _) => true
  end.

(** [v === 'literal'] *)
Definition strict_eq_str (v : jsval) (lit : string) : bool :=
  match v with
  | Some (JStr s) => String.eqb s lit
  | _ => false
  end.

Definition string_of_Z (n : Z) : string := NilZero.string_of_int (Z.to_int n).

(** [String(v)], the coercion applied by [Array.prototype.join] and by
    [JSON.parse] to its argument. *)
Fixpoint js_ToString (v : json) : string :=
  match v with
  | JNull => "null"
  | JBool true => "true"
  | JBool false => "false"
  | JNum n => string_of_Z n
  | JStr s => s
  | JArr xs =>
      String.concat ","
        (map (fun x => match x with JNull => "" | _ => js_ToString x end) xs)
  | JObj _ => "[object Object]"
  end.

(** [xs.join(sep)]: [null] elements print as the empty string. *)
Definition js_join (sep : string) (xs : list json) : string :=
  String.concat sep
    (map (fun x => match x with JNull => "" | _ => js_ToString x end) xs).

(** ** Platform primitives *)

(** A [Buffer] is its bytes. *)
Abbreviation Buffer := string.

Class Platform : Type := {
  (** [JSON.stringify(v)] *)
  JSON_stringify : json -> string;
  (** [JSON.stringify(v, null, 2)] *)
  JSON_stringify_indent2 : json -> string;
  (** [JSON.parse(text)]; [None] when it throws a [SyntaxError] *)
  JSON_parse : string -> option json;
  (** [crypto.createHmac('sha256', key)], updated with each part in turn,
      then [digest('hex')] *)
  hmac_sha256_hex : string -> list Buffer -> string
}.

(** ** JupyterProtocol.ts *)

Inductive MessageType : Type :=
| execute_request | execute_reply | stream | display_data | execute_result
| error | status | kernel_info_request | kernel_info_reply
| shutdown_request | shutdown_reply | interrupt_request | interrupt_reply.

Definition MessageType_string (t : MessageType) : string :=
  match t with
  | execute_request => "execute_request"
  | execute_reply => "execute_reply"
  | stream => "stream"
  | display_data => "display_data"
  | execute_result => "execute_result"
  | error => "error"
  | status => "status"
  | kernel_info_request => "kernel_info_request"
  | kernel_info_reply => "kernel_info_reply"
  | shutdown_request => "shutdown_request"
  | shutdown_reply => "shutdown_reply"
  | interrupt_request => "interrupt_request"
  | interrupt_reply => "interrupt_reply"
  end.

(** [interface JupyterMessage].  The four parts are plain objects: what
    [parseMessage] returns is the output of [JSON.parse], cast unchecked. *)
Record JupyterMessage : Type := {
  header : json;
  parent_header : json;
  metadata : json;
  content : json;
  buffers : option (list Buffer)
}.

Record JupyterProtocol : Type := {
  sessionId : string;
  username : string;
  key : string
}.

(** [new JupyterProtocol(key)]; [uuid] is the value drawn by [uuidv4()]. *)
Definition new_JupyterProtocol (uuid : string) (k : string) : JupyterProtocol :=
  {| sessionId := uuid; username := "promptbook"; key := k |}.

Definition delimiter : string := "<IDS|MSG>".

Section Protocol.
Context {P : Platform}.

(** [uuid] and [date] are the values of [uuidv4()] and
    [new Date().toISOString()] at the call. *)
Definition createHeader (p : JupyterProtocol) (uuid date : string)
    (msgType : MessageType) : json :=
  JObj [ ("msg_id", JStr uuid);
         ("msg_type", JStr (MessageType_string msgType));
         ("username", JStr (username p));
         ("session", JStr (sessionId p));
         ("date", JStr date);
         ("version", JStr "5.3") ].

Definition createMessage (p : JupyterProtocol) (uuid date : string)
    (msgType : MessageType) (c : json) (parentHeader : jsval) : JupyterMessage :=
  {| header := createHeader p uuid date msgType;
     parent_header := if truthy parentHeader
                      then match parentHeader with Some h => h | None => JObj [] end
                      else JObj [];
     metadata := JObj [];
     content := c;
     buffers := None |}.

Definition createExecuteRequest (p : JupyterProtocol) (uuid date : string)
    (code : string) (silent : bool) : JupyterMessage :=
  createMessage p uuid date execute_request
    (JObj [ ("code", JStr code);
            ("silent", JBool silent);
            ("store_history", JBool (negb silent));
            ("user_expressions", JObj []);
            ("allow_stdin", JBool false);
            ("stop_on_error", JBool true) ])
    undefined.

Definition createKernelInfoRequest (p : JupyterProtocol) (uuid date : string)
    : JupyterMessage :=
  createMessage p uuid date kernel_info_request (JObj []) undefined.

Definition createShutdownRequest (p : JupyterProtocol) (uuid date : string)
    (restart : bool) : JupyterMessage :=
  createMessage p uuid date shutdown_request (JObj [("restart", JBool restart)]) undefined.

Definition createInterruptRequest (p : JupyterProtocol) (uuid date : string)
    : JupyterMessage :=
  createMessage p uuid date interrupt_request (JObj []) undefined.

Definition sign (p : JupyterProtocol) (parts : list Buffer) : string :=
  if String.eqb (key p) "" then "" else hmac_sha256_hex (key p) parts.

Definition serializeMessage (p : JupyterProtocol) (msg : JupyterMessage) : list Buffer :=
  let header := JSON_stringify (header msg) in
  let parentHeader := JSON_stringify (parent_header msg) in
  let metadata := JSON_stringify (metadata msg) in
  let content := JSON_stringify (content msg) in
  let signature := sign p [header; parentHeader; metadata; content] in
  [ delimiter; signature; header; parentHeader; metadata; content ].

(** The loop [for (i = 0; i < frames.length; i++)] that looks for the
    delimiter, from index [i] on: the index of the first delimiter frame, or
    [-1]. *)
Fixpoint findDelimiter (frames : list Buffer) (i : Z) : Z :=
  match frames with
  | [] => -1
  | f :: rest => if String.eqb f delimiter then i else findDelimiter rest (i + 1)
  end.

(** [frames[i]]; the access is guarded by the length test, past the end it
    would yield [undefined] and the method call on it would throw. *)
Definition frame (frames : list Buffer) (i : Z) : completion Buffer :=
  match nth_error frames (Z.to_nat i) with
  | Some f => Normal f
  | None => Throw (TypeError "Cannot read properties of undefined")
  end.

(** [JSON.parse(frames[i].toString())], together with the frame itself. *)
Definition JSON_parse_frame (frames : list Buffer) (i : Z) : completion (Buffer * json) :=
  (f <-! frame frames i ;;
   match JSON_parse f with
   | Some v => Normal (f, v)
   | None => Throw (SyntaxError "Unexpected token in JSON")
   end)%completion.

Definition signature_warning : string := "Message signature mismatch".

(** [parseMessage(frames)]: the lines written with [console.warn], and the
    result ([None] is [null]). *)
Definition parseMessage (p : JupyterProtocol) (frames : list Buffer)
    : list string * completion (option JupyterMessage) :=
  let delimiterIndex := findDelimiter frames 0 in
  if (delimiterIndex =? -1) || (Z.of_nat (length frames) <? delimiterIndex + 6)
  then ([], Normal None)
  else
    match
      (signature <-! frame frames (delimiterIndex + 1) ;;
       header <-! JSON_parse_frame frames (delimiterIndex + 2) ;;
       parentHeader <-! JSON_parse_frame frames (delimiterIndex + 3) ;;
       metadata <-! JSON_parse_frame frames (delimiterIndex + 4) ;;
       content <-! JSON_parse_frame frames (delimiterIndex + 5) ;;
       Normal (signature, header, parentHeader, metadata, content))%completion
    with
    | Throw e => ([], Throw e)
    | Normal (signature, (frame2, header), (frame3, parentHeader),
              (frame4, metadata), (frame5, content)) =>
        let warnings :=
          if negb (String.eqb (key p) "") && negb (String.eqb signature "")
          then
            let parts := [frame2; frame3; frame4; frame5] in
            let expectedSig := sign p parts in
            if negb (String.eqb signature expectedSig)
            then [signature_warning] else []
          else [] in
        (warnings,
         Normal (Some {| header := header;
                         parent_header := parentHeader;
                         metadata := metadata;
                         content := content;
                         buffers := Some (skipn (Z.to_nat (delimiterIndex + 6)) frames) |}))
    end.

Definition msg_type_is (msg : JupyterMessage) (t : MessageType) : completion bool :=
  (ty <-! js_get (Some (header msg)) "msg_type" ;;
   Normal (strict_eq_str ty (MessageType_string t)))%completion.

Definition isExecuteReply (msg : JupyterMessage) := msg_type_is msg execute_reply.
Definition isStream (msg : JupyterMessage) := msg_type_is msg stream.
Definition isDisplayData (msg : JupyterMessage) : completion bool :=
  (a <-! msg_type_is msg display_data ;;
   if a then Normal true else msg_type_is msg execute_result)%completion.
Definition isError (msg : JupyterMessage) := msg_type_is msg error.
Definition isStatus (msg : JupyterMessage) := msg_type_is msg status.
Definition isKernelInfoReply (msg : JupyterMessage) := msg_type_is msg kernel_info_reply.

End Protocol.

(** ** KernelManager.ts: data *)

Inductive KernelState : Type := idle | busy | starting | dead | disconnected.

Definition KernelState_eqb (a b : KernelState) : bool :=
  match a, b with
  | idle, idle | busy, busy | starting, starting
  | dead, dead | disconnected, disconnected => true
  | _, _ => false
  end.

(** [interface KernelOutput].  [content] is declared a string; it holds
    whatever the message carried. *)
Module KernelOutput.
Inductive kind : Type := stdout | stderr | result | display | error | status.
Record t : Type := {
  type : kind;
  content : jsval;
  mimeType : option string;
  executionCount : option Z
}.
End KernelOutput.

(** [interface ConnectionInfo], the connection file written by the kernel. *)
Module ConnectionInfo.
Record t : Type := {
  shell_port : Z;
  iopub_port : Z;
  stdin_port : Z;
  control_port : Z;
  hb_port : Z;
  ip : string;
  key : string;
  transport : string;
  signature_scheme : string;
  kernel_name : string
}.
End ConnectionInfo.

(** A [ChildProcess]; [pid] is [undefined] when the spawn failed. *)
Record ChildProcess : Type := { pid : option Z }.

Inductive Channel : Type := shell | iopub | control.

(** A connected [zmq.Dealer] or [zmq.Subscriber]. *)
Record Socket : Type := {
  routingId : option string;
  endpoint : string
}.

(** Events published through the [EventEmitter]. *)
Inductive Event : Type :=
| ev_stateChange (newState : KernelState)
| ev_output (o : KernelOutput.t) (parentMsgId : jsval)
| ev_error (err : JsError)
| ev_kernelInfo (c : json).

(** What the manager does to the outside, in order. *)
Inductive Effect : Type :=
| Emit (e : Event)
| ConsoleWarn (line : string)
| Spawn (command : string) (args : list string)
| Kill
| Signal (pid : Z) (sig : string)
| Connect (ch : Channel) (s : Socket)
| Close (ch : Channel)
| Send (ch : Channel) (frames : list Buffer)
| Unlink (path : string).

(** The two objects one [execute] call allocates and shares with the
    listener through [pendingExecutions]: the [outputs] array and the promise
    ([resolved] once its [resolve] has been called). *)
Record Execution : Type := {
  outputs : list KernelOutput.t;
  resolved : bool
}.

(** A JavaScript [Map], in insertion order.  Keys are compared as [Map]
    does; two arrays or objects are the same key only when they are the same
    object, which a freshly parsed value never is. *)
Definition JsMap (V : Type) : Type := list (jsval * V).

Definition sameValueZero (a b : jsval) : bool :=
  match a, b with
  | None, None => true
  | Some JNull, Some JNull => true
  | Some (JBool x), Some (JBool y) => Bool.eqb x y
  | Some (JNum x), Some (JNum y) => x =? y
  | Some (JStr x), Some (JStr y) => String.eqb x y
  | _, _ => false
  end.

Fixpoint Map_get {V : Type} (k : jsval) (m : JsMap V) : option V :=
  match m with
  | [] => None
  | (k', v) :: rest => if sameValueZero k k' then Some v else Map_get k rest
  end.

Definition Map_has {V : Type} (k : jsval) (m : JsMap V) : bool :=
  match Map_get k m with Some _ => true | None => false end.

Fixpoint Map_set {V : Type} (k : jsval) (v : V) (m : JsMap V) : JsMap V :=
  match m with
  | [] => [(k, v)]
  | (k', v') :: rest =>
      if sameValueZero k k' then (k', v) :: rest else (k', v') :: Map_set k v rest
  end.

Fixpoint Map_delete {V : Type} (k : jsval) (m : JsMap V) : JsMap V :=
  match m with
  | [] => []
  | (k', v') :: rest =>
      if sameValueZero k k' then rest else (k', v') :: Map_delete k rest
  end.

Definition Map_clear {V : Type} (m : JsMap V) : JsMap V := [].

(** The fields of [class KernelManager], followed by the part of the run-time
    state they refer to: the objects allocated by [execute] calls ([heap],
    addressed by position), whether the iopub listener loop is running, and
    the effects so far. *)
Record KernelManager : Type := {
  process : option ChildProcess;
  protocol : option JupyterProtocol;
  connectionFile : option string;
  connectionInfo : option ConnectionInfo.t;
  shellSocket : option Socket;
  iopubSocket : option Socket;
  controlSocket : option Socket;
  state : KernelState;
  executionCount : json;
  pythonPath : string;
  pendingExecutions : JsMap nat;
  heap : list Execution;
  listening : bool;
  trace : list Effect
}.

(** [new KernelManager(pythonPath)] *)
Definition new_KernelManager (python : string) : KernelManager :=
  {| process := None; protocol := None; connectionFile := None;
     connectionInfo := None; shellSocket := None; iopubSocket := None;
     controlSocket := None; state := disconnected; executionCount := JNum 0;
     pythonPath := python; pendingExecutions := []; heap := [];
     listening := false; trace := [] |}.

(** Assignment to one field. *)
Definition set_process (v : option ChildProcess) (km : KernelManager) : KernelManager :=
  {| process := v; protocol := protocol km; connectionFile := connectionFile km;
     connectionInfo := connectionInfo km; shellSocket := shellSocket km;
     iopubSocket := iopubSocket km; controlSocket := controlSocket km;
     state := state km; executionCount := executionCount km;
     pythonPath := pythonPath km; pendingExecutions := pendingExecutions km;
     heap := heap km; listening := listening km; trace := trace km |}.

Definition set_protocol (v : option JupyterProtocol) (km : KernelManager) : KernelManager :=
  {| process := process km; protocol := v; connectionFile := connectionFile km;
     connectionInfo := connectionInfo km; shellSocket := shellSocket km;
     iopubSocket := iopubSocket km; controlSocket := controlSocket km;
     state := state km; executionCount := executionCount km;
     pythonPath := pythonPath km; pendingExecutions := pendingExecutions km;
     heap := heap km; listening := listening km; trace := trace km |}.

Definition set_connectionFile (v : option string) (km : KernelManager) : KernelManager :=
  {| process := process km; protocol := protocol km; connectionFile := v;
     connectionInfo := connectionInfo km; shellSocket := shellSocket km;
     iopubSocket := iopubSocket km; controlSocket := controlSocket km;
     state := state km; executionCount := executionCount km;
     pythonPath := pythonPath km; pendingExecutions := pendingExecutions km;
     heap := heap km; listening := listening km; trace := trace km |}.

Definition set_connectionInfo (v : option ConnectionInfo.t) (km : KernelManager) : KernelManager :=
  {| process := process km; protocol := protocol km;
     connectionFile := connectionFile km; connectionInfo := v;
     shellSocket := shellSocket km; iopubSocket := iopubSocket km;
     controlSocket := controlSocket km; state := state km;
     executionCount := executionCount km; pythonPath := pythonPath km;
     pendingExecutions := pendingExecutions km; heap := heap km;
     listening := listening km; trace := trace km |}.

Definition set_shellSocket (v : option Socket) (km : KernelManager) : KernelManager :=
  {| process := process km; protocol := protocol km;
     connectionFile := connectionFile km; connectionInfo := connectionInfo km;
     shellSocket := v; iopubSocket := iopubSocket km;
     controlSocket := controlSocket km; state := state km;
     executionCount := executionCount km; pythonPath := pythonPath km;
     pendingExecutions := pendingExecutions km; heap := heap km;
     listening := listening km; trace := trace km |}.

Definition set_iopubSocket (v : option Socket) (km : KernelManager) : KernelManager :=
  {| process := process km; protocol := protocol km;
     connectionFile := connectionFile km; connectionInfo := connectionInfo km;
     shellSocket := shellSocket km; iopubSocket := v;
     controlSocket := controlSocket km; state := state km;
     executionCount := executionCount km; pythonPath := pythonPath km;
     pendingExecutions := pendingExecutions km; heap := heap km;
     listening := listening km; trace := trace km |}.

Definition set_controlSocket (v : option Socket) (km : KernelManager) : KernelManager :=
  {| process := process km; protocol := protocol km;
     connectionFile := connectionFile km; connectionInfo := connectionInfo km;
     shellSocket := shellSocket km; iopubSocket := iopubSocket km; controlSocket := v;
     state := state km; executionCount := executionCount km;
     pythonPath := pythonPath km; pendingExecutions := pendingExecutions km;
     heap := heap km; listening := listening km; trace := trace km |}.

Definition set_state (v : KernelState) (km : KernelManager) : KernelManager :=
  {| process := process km; protocol := protocol km;
     connectionFile := connectionFile km; connectionInfo := connectionInfo km;
     shellSocket := shellSocket km; iopubSocket := iopubSocket km;
     controlSocket := controlSocket km; state := v;
     executionCount := executionCount km; pythonPath := pythonPath km;
     pendingExecutions := pendingExecutions km; heap := heap km;
     listening := listening km; trace := trace km |}.

Definition set_executionCount (v : json) (km : KernelManager) : KernelManager :=
  {| process := process km; protocol := protocol km;
     connectionFile := connectionFile km; connectionInfo := connectionInfo km;
     shellSocket := shellSocket km; iopubSocket := iopubSocket km;
     controlSocket := controlSocket km; state := state km; executionCount := v;
     pythonPath := pythonPath km; pendingExecutions := pendingExecutions km;
     heap := heap km; listening := listening km; trace := trace km |}.

Definition set_pendingExecutions (v : JsMap nat) (km : KernelManager) : KernelManager :=
  {| process := process km; protocol := protocol km;
     connectionFile := connectionFile km; connectionInfo := connectionInfo km;
     shellSocket := shellSocket km; iopubSocket := iopubSocket km;
     controlSocket := controlSocket km; state := state km;
     executionCount := executionCount km; pythonPath := pythonPath km;
     pendingExecutions := v; heap := heap km; listening := listening km;
     trace := trace km |}.

Definition set_heap (v : list Execution) (km : KernelManager) : KernelManager :=
  {| process := process km; protocol := protocol km;
     connectionFile := connectionFile km; connectionInfo := connectionInfo km;
     shellSocket := shellSocket km; iopubSocket := iopubSocket km;
     controlSocket := controlSocket km; state := state km;
     executionCount := executionCount km; pythonPath := pythonPath km;
     pendingExecutions := pendingExecutions km; heap := v; listening := listening km;
     trace := trace km |}.

Definition set_listening (v : bool) (km : KernelManager) : KernelManager :=
  {| process := process km; protocol := protocol km;
     connectionFile := connectionFile km; connectionInfo := connectionInfo km;
     shellSocket := shellSocket km; iopubSocket := iopubSocket km;
     controlSocket := controlSocket km; state := state km;
     executionCount := executionCount km; pythonPath := pythonPath km;
     pendingExecutions := pendingExecutions km; heap := heap km; listening := v;
     trace := trace km |}.

Definition set_trace (v : list Effect) (km : KernelManager) : KernelManager :=
  {| process := process km; protocol := protocol km;
     connectionFile := connectionFile km; connectionInfo := connectionInfo km;
     shellSocket := shellSocket km; iopubSocket := iopubSocket km;
     controlSocket := controlSocket km; state := state km;
     executionCount := executionCount km; pythonPath := pythonPath km;
     pendingExecutions := pendingExecutions km; heap := heap km;
     listening := listening km; trace := v |}.

(** ** KernelManager.ts: methods

    A method body is a computation on the manager that returns a value or
    throws; what it changed before throwing stays changed. *)

Definition M (A : Type) : Type := KernelManager -> completion A * KernelManager.

Definition ret {A : Type} (a : A) : M A := fun km => (Normal a, km).
Definition throw {A : Type} (e : JsError) : M A := fun km => (Throw e, km).
Definition lift {A : Type} (c : completion A) : M A := fun km => (c, km).
Definition this : M KernelManager := fun km => (Normal km, km).
Definition modify (f : KernelManager -> KernelManager) : M unit :=
  fun km => (Normal tt, f km).

Definition bind {A B : Type} (m : M A) (k : A -> M B) : M B :=
  fun km =>
    match m km with
    | (Normal a, km') => k a km'
    | (Throw e, km') => (Throw e, km')
    end.

(** [try { body } catch (err) { handler }] *)
Definition try_catch {A : Type} (body : M A) (handler : JsError -> M A) : M A :=
  fun km =>
    match body km with
    | (Normal a, km') => (Normal a, km')
    | (Throw e, km') => handler e km'
    end.

Declare Scope manager_scope.
Delimit Scope manager_scope with manager.
Notation "x <- m ;; k" := (bind m (fun x => k))
  (at level 61, m at next level, right associativity) : manager_scope.
Notation "m ;; k" := (bind m (fun _ => k))
  (at level 61, right associativity) : manager_scope.
Open Scope manager_scope.

Definition log (eff : Effect) : M unit :=
  modify (fun km => set_trace (trace km ++ [eff]) km).

(** [this.emit(...)] *)
Definition emit (e : Event) : M unit := log (Emit e).

Fixpoint update_at {A : Type} (n : nat) (f : A -> A) (l : list A) : list A :=
  match l, n with
  | [], _ => []
  | x :: rest, O => f x :: rest
  | x :: rest, S n' => x :: update_at n' f rest
  end.

(** [outputs.push(o)] on the array of execution [r]. *)
Definition push_output (r : nat) (o : KernelOutput.t) (h : list Execution)
    : list Execution :=
  update_at r (fun e => {| outputs := outputs e ++ [o]; resolved := resolved e |}) h.

(** [resolve()] of the promise of execution [r]. *)
Definition resolve (r : nat) (h : list Execution) : list Execution :=
  update_at r (fun e => {| outputs := outputs e; resolved := true |}) h.

Definition newline : string := String "010"%char EmptyString.

Definition mkOutput (ty : KernelOutput.kind) (c : jsval) (mime : option string)
    : KernelOutput.t :=
  {| KernelOutput.type := ty; KernelOutput.content := c;
     KernelOutput.mimeType := mime; KernelOutput.executionCount := None |}.

Section Manager.
Context {P : Platform}.

Definition getState : M KernelState := km <- this ;; ret (state km).
Definition getExecutionCount : M json := km <- this ;; ret (executionCount km).

Definition setState (newState : KernelState) : M unit :=
  km <- this ;;
  if negb (KernelState_eqb (state km) newState)
  then modify (set_state newState) ;; emit (ev_stateChange newState)
  else ret tt.

(** [this.protocol!]: the method call on it throws when it is [null]. *)
Definition the_protocol : M JupyterProtocol :=
  km <- this ;;
  match protocol km with
  | Some p => ret p
  | None => throw (TypeError "Cannot read properties of null")
  end.

(** The closure [emitOutput] of [handleIopubMessage]. *)
Definition emitOutput (parentMsgId : jsval) (o : KernelOutput.t) : M unit :=
  km <- this ;;
  (if truthy parentMsgId && Map_has parentMsgId (pendingExecutions km)
   then match Map_get parentMsgId (pendingExecutions km) with
        | Some r => modify (fun km => set_heap (push_output r o (heap km)) km)
        | None => ret tt
        end
   else ret tt) ;;
  emit (ev_output o parentMsgId).

Definition handleIopubMessage (msg : JupyterMessage) : M unit :=
  parentMsgId <- lift (js_get (Some (parent_header msg)) "msg_id") ;;
  _ <- the_protocol ;;
  is_status <- lift (isStatus msg) ;;
  if is_status then
    execution_state <- lift (js_get (Some (content msg)) "execution_state") ;;
    if strict_eq_str execution_state "busy" then setState busy
    else if strict_eq_str execution_state "idle" then
      setState idle ;;
      (* Complete any pending execution *)
      km <- this ;;
      if truthy parentMsgId && Map_has parentMsgId (pendingExecutions km)
      then match Map_get parentMsgId (pendingExecutions km) with
           | Some r =>
               modify (fun km => set_heap (resolve r (heap km)) km) ;;
               modify (fun km =>
                 set_pendingExecutions (Map_delete parentMsgId (pendingExecutions km)) km)
           | None => ret tt
           end
      else ret tt
    else ret tt
  else
    _ <- the_protocol ;;
    is_stream <- lift (isStream msg) ;;
    if is_stream then
      name <- lift (js_get (Some (content msg)) "name") ;;
      text <- lift (js_get (Some (content msg)) "text") ;;
      emitOutput parentMsgId
        (mkOutput (if strict_eq_str name "stdout"
                   then KernelOutput.stdout else KernelOutput.stderr)
                  text None)
    else
      _ <- the_protocol ;;
      is_display <- lift (isDisplayData msg) ;;
      if is_display then
        data <- lift (js_get (Some (content msg)) "data") ;;
        (* Prioritize rich formats *)
        png <- lift (js_get data "image/png") ;;
        if truthy png
        then emitOutput parentMsgId (mkOutput KernelOutput.display png (Some "image/png"))
        else
        jpeg <- lift (js_get data "image/jpeg") ;;
        if truthy jpeg
        then emitOutput parentMsgId (mkOutput KernelOutput.display jpeg (Some "image/jpeg"))
        else
        html <- lift (js_get data "text/html") ;;
        if truthy html
        then emitOutput parentMsgId (mkOutput KernelOutput.display html (Some "text/html"))
        else
        app_json <- lift (js_get data "application/json") ;;
        if truthy app_json
        then
          match app_json with
          | Some v =>
              match JSON_parse (js_ToString v) with
              | Some parsed =>
                  emitOutput parentMsgId
                    (mkOutput KernelOutput.display
                       (Some (JStr (JSON_stringify_indent2 parsed)))
                       (Some "application/json"))
              | None => throw (SyntaxError "Unexpected token in JSON")
              end
          | None => ret tt
          end
        else
        plain <- lift (js_get data "text/plain") ;;
        if truthy plain
        then emitOutput parentMsgId (mkOutput KernelOutput.result plain None)
        else ret tt
      else
        _ <- the_protocol ;;
        is_error <- lift (isError msg) ;;
        if is_error then
          tb <- lift (js_get (Some (content msg)) "traceback") ;;
          match tb with
          | Some (JArr lines) =>
              emitOutput parentMsgId
                (mkOutput KernelOutput.error (Some (JStr (js_join newline lines))) None)
          | None | Some JNull => throw (TypeError "Cannot read properties of undefined")
          | Some _ => throw (TypeError "content.traceback.join is not a function")
          end
        else
          _ <- the_protocol ;;
          is_reply <- lift (isExecuteReply msg) ;;
          if is_reply then
            execution_count <- lift (js_get (Some (content msg)) "execution_count") ;;
            if truthy execution_count
            then match execution_count with
                 | Some n => modify (set_executionCount n)
                 | None => ret tt
                 end
            else ret tt
          else ret tt.

(** The [catch] block of the listener; the loop is then over. *)
Definition listener_catch (err : JsError) : M unit :=
  km <- this ;;
  (if negb (KernelState_eqb (state km) dead)
      && negb (KernelState_eqb (state km) disconnected)
   then emit (ev_error err)
   else ret tt) ;;
  modify (set_listening false).

(** One turn of [for await (const frames of this.iopubSocket!)], inside the
    [try]. *)
Definition listener_frames (frames : list Buffer) : M unit :=
  try_catch
    (p <- the_protocol ;;
     let (warnings, parsed) := parseMessage p frames in
     modify (fun km => set_trace (trace km ++ map ConsoleWarn warnings) km) ;;
     msg <- lift parsed ;;
     match msg with
     | Some m => handleIopubMessage m
     | None => ret tt
     end)
    listener_catch.

(** [startIopubListener()]; the loop itself runs as [listener_frames]. *)
Definition startIopubListener : M unit :=
  km <- this ;;
  match iopubSocket km, protocol km with
  | Some _, Some _ => modify (set_listening true)
  | _, _ => ret tt
  end.

(** [cleanup()] from the assignments after the connection-file block on. *)
Definition cleanup_rest : M unit :=
  modify (set_connectionInfo None) ;;
  modify (set_protocol None) ;;
  modify (fun km => set_pendingExecutions (Map_clear (pendingExecutions km)) km).

(** [cleanup()] resumed after [await fs.unlink(...)], whether it failed or
    not. *)
Definition cleanup_resume : M unit :=
  modify (set_connectionFile None) ;;
  cleanup_rest.

(** [cleanup()] up to its first suspension; [true] when it is suspended at
    [await fs.unlink(...)] and goes on as [cleanup_resume]. *)
Definition cleanup : M bool :=
  km <- this ;;
  match connectionFile km with
  | Some file =>
      if negb (String.eqb file "")
      then log (Unlink file) ;; ret true
      else cleanup_rest ;; ret false
  | None => cleanup_rest ;; ret false
  end.

(** [shutdown()] up to its first suspension, in [cleanup]. *)
Definition shutdown : M bool :=
  setState dead ;;
  (* Close ZeroMQ sockets *)
  km <- this ;;
  (match shellSocket km with
   | Some _ => log (Close shell) ;; modify (set_shellSocket None)
   | None => ret tt
   end) ;;
  km <- this ;;
  (match iopubSocket km with
   | Some _ => log (Close iopub) ;; modify (set_iopubSocket None)
   | None => ret tt
   end) ;;
  km <- this ;;
  (match controlSocket km with
   | Some _ => log (Close control) ;; modify (set_controlSocket None)
   | None => ret tt
   end) ;;
  (* Kill the kernel process *)
  km <- this ;;
  (match process km with
   | Some _ => log Kill ;; modify (set_process None)
   | None => ret tt
   end) ;;
  cleanup.

(** The handler of the process event ['exit']; [cleanup()] is not awaited. *)
Definition on_exit : M unit :=
  setState dead ;;
  _ <- cleanup ;;
  ret tt.

(** The handler of the process event ['error']. *)
Definition on_error (err : JsError) : M unit :=
  setState dead ;;
  emit (ev_error err).

(** [start()] from [this.setState('starting')] to the suspension at
    [await this.waitForConnectionFile()].  [file] is the path chosen for the
    connection file and [child] the spawned process. *)
Definition start_spawn (file : string) (child : ChildProcess) : M unit :=
  setState starting ;;
  modify (set_connectionFile (Some file)) ;;
  km <- this ;;
  log (Spawn (pythonPath km) ["-m"; "ipykernel_launcher"; "-f"; file]) ;;
  modify (set_process (Some child)).

(** [start()] from its call: an existing process is shut down first, and
    [start_spawn] follows once that has completed. *)
Definition start (file : string) (child : ChildProcess) : M unit :=
  km <- this ;;
  match process km with
  | Some _ => _ <- shutdown ;; ret tt
  | None => start_spawn file child
  end.

(** [connectSockets()]; [now] is [Date.now()]. *)
Definition connectSockets (now : Z) : M unit :=
  km <- this ;;
  match connectionInfo km with
  | None => throw (Error "No connection info")
  | Some info =>
      let baseUrl := (ConnectionInfo.transport info ++ "://" ++ ConnectionInfo.ip info)%string in
      let url (port : Z) := (baseUrl ++ ":" ++ string_of_Z port)%string in
      let shellSock := {| routingId := Some ("shell-" ++ string_of_Z now)%string;
                          endpoint := url (ConnectionInfo.shell_port info) |} in
      let iopubSock := {| routingId := None;
                          endpoint := url (ConnectionInfo.iopub_port info) |} in
      let controlSock := {| routingId := Some ("control-" ++ string_of_Z now)%string;
                            endpoint := url (ConnectionInfo.control_port info) |} in
      modify (set_shellSocket (Some shellSock)) ;;
      log (Connect shell shellSock) ;;
      modify (set_iopubSocket (Some iopubSock)) ;;
      log (Connect iopub iopubSock) ;;
      modify (set_controlSocket (Some controlSock)) ;;
      log (Connect control controlSock)
  end.

(** [requestKernelInfo()] up to its suspension waiting for the reply;
    [false] when it returned at once. *)
Definition requestKernelInfo (uuid date : string) : M bool :=
  km <- this ;;
  match shellSocket km, protocol km with
  | Some _, Some p =>
      let msg := createKernelInfoRequest p uuid date in
      let frames := serializeMessage p msg in
      log (Send shell frames) ;;
      ret true
  | _, _ => ret false
  end.

(** [start()] resumed with the connection file read: [info] is its content
    parsed, [session] the session id drawn for the codec.  Up to the end of
    [connectSockets], whose three [connect] calls are taken as one. *)
Definition start_connect (info : ConnectionInfo.t) (session : string) (now : Z)
    : M unit :=
  modify (set_connectionInfo (Some info)) ;;
  modify (set_protocol (Some (new_JupyterProtocol session (ConnectionInfo.key info)))) ;;
  connectSockets now.

(** [start()] resumed after [connectSockets]: the listener is started and
    the kernel-info request sent; when [requestKernelInfo] returned at once,
    [start()] goes on to [setState('idle')]. *)
Definition start_listen (uuid date : string) : M unit :=
  startIopubListener ;;
  waiting <- requestKernelInfo uuid date ;;
  if waiting then ret tt else setState idle.

(** [start()] resumed with the reply to the kernel-info request. *)
Definition start_handshake (reply : list Buffer) : M unit :=
  p <- the_protocol ;;
  let (warnings, parsed) := parseMessage p reply in
  modify (fun km => set_trace (trace km ++ map ConsoleWarn warnings) km) ;;
  replyMsg <- lift parsed ;;
  (match replyMsg with
   | Some m =>
       is_info <- lift (isKernelInfoReply m) ;;
       if is_info then emit (ev_kernelInfo (content m)) else ret tt
   | None => ret tt
   end) ;;
  setState idle.

(** [execute(code)] up to its suspension waiting for the shell reply: the
    message id and the place of the allocated [outputs] array and promise. *)
Definition execute (code uuid date : string) : M (jsval * nat) :=
  km <- this ;;
  match shellSocket km, protocol km with
  | Some _, Some p =>
      let msg := createExecuteRequest p uuid date code false in
      msgId <- lift (js_get (Some (header msg)) "msg_id") ;;
      let frames := serializeMessage p msg in
      (* Set up pending execution tracking *)
      let r := length (heap km) in
      modify (fun km => set_heap (heap km ++ [{| outputs := []; resolved := false |}]) km) ;;
      modify (fun km => set_pendingExecutions (Map_set msgId r (pendingExecutions km)) km) ;;
      (* Send the execute request *)
      log (Send shell frames) ;;
      ret (msgId, r)
  | _, _ => throw (Error "Kernel not started")
  end.

(** [execute(code)] resumed with the shell reply, up to [await promise]. *)
Definition execute_reply_received (reply : list Buffer) : M unit :=
  p <- the_protocol ;;
  let (warnings, parsed) := parseMessage p reply in
  modify (fun km => set_trace (trace km ++ map ConsoleWarn warnings) km) ;;
  _ <- lift parsed ;;
  ret tt.

(** What the promise of [execute(code)] gives the call: the result that
    [execute] returns when it is at [await promise], that is once the shell
    reply has been received and parsed; [None] while the promise is
    pending. *)
Definition execute_returns (call : jsval * nat) (km : KernelManager)
    : option (jsval * list KernelOutput.t) :=
  match nth_error (heap km) (snd call) with
  | Some e => if resolved e then Some (fst call, outputs e) else None
  | None => None
  end.

Definition interrupt (uuid date : string) : M unit :=
  km <- this ;;
  match process km with
  | Some proc =>
      match pid proc with
      | Some n =>
          if negb (n =? 0) then
            (* Send SIGINT to the kernel process *)
            log (Signal n "SIGINT") ;;
            (* Also try via control channel *)
            km <- this ;;
            match controlSocket km, protocol km with
            | Some _, Some p =>
                let msg := createInterruptRequest p uuid date in
                let frames := serializeMessage p msg in
                log (Send control frames)
            | _, _ => ret tt
            end
          else ret tt
      | None => ret tt
      end
  | None => ret tt
  end.

(** [restart()] from its call: [shutdown()], then [start()] follows. *)
Definition restart : M bool := shutdown.

(** ** The session as a transition system

    One action is one uninterrupted segment: a method called by the host, a
    method resumed by the result it awaited, or a handler run for a process
    or socket event. *)
Inductive Action : Type :=
| Start (file : string) (child : ChildProcess)
| Start_spawn (file : string) (child : ChildProcess)
| Start_connect (info : ConnectionInfo.t) (session : string) (now : Z)
| Start_listen (uuid date : string)
| Start_handshake (reply : list Buffer)
| Process_exit
| Process_error (err : JsError)
| Iopub_frames (frames : list Buffer)
| Iopub_failure (err : JsError)
| Execute (code uuid date : string)
| Execute_reply (reply : list Buffer)
| Interrupt (uuid date : string)
| Shutdown
| Cleanup_resume.

Definition exec {A : Type} (m : M A) (km : KernelManager) : KernelManager := snd (m km).

Definition step (a : Action) (km : KernelManager) : KernelManager :=
  match a with
  | Start file child => exec (start file child) km
  | Start_spawn file child => exec (start_spawn file child) km
  | Start_connect info session now => exec (start_connect info session now) km
  | Start_listen uuid date => exec (start_listen uuid date) km
  | Start_handshake reply => exec (start_handshake reply) km
  | Process_exit => exec on_exit km
  | Process_error err => exec (on_error err) km
  | Iopub_frames frames => if listening km then exec (listener_frames frames) km else km
  | Iopub_failure err => if listening km then exec (listener_catch err) km else km
  | Execute code uuid date => exec (execute code uuid date) km
  | Execute_reply reply => exec (execute_reply_received reply) km
  | Interrupt uuid date => exec (interrupt uuid date) km
  | Shutdown => exec shutdown km
  | Cleanup_resume => exec cleanup_resume km
  end.

Definition run (acts : list Action) (km : KernelManager) : KernelManager :=
  fold_left (fun km a => step a km) acts km.

(** The states carried by the ['stateChange'] events, in order. *)
Fixpoint stateChanges (t : list Effect) : list KernelState :=
  match t with
  | [] => []
  | Emit (ev_stateChange s) :: rest => s :: stateChanges rest
  | _ :: rest => stateChanges rest
  end.

End Manager.

(** ** A reference platform

    A small JSON printer and parser (integers; the escapes of the quote, the
    backslash and the newline) and a keyed checksum in the place of the
    SHA-256 digest, to run the code on concrete messages. *)
Module Reference.

Definition quote : ascii := "034"%char.
Definition backslash : ascii := "\"%char.

Fixpoint escape (s : string) : string :=
  match s with
  | EmptyString => EmptyString
  | String c rest =>
      if Ascii.eqb c quote then String backslash (String quote (escape rest))
      else if Ascii.eqb c backslash then String backslash (String backslash (escape rest))
      else if Ascii.eqb c "010"%char then String backslash (String "n"%char (escape rest))
      else String c (escape rest)
  end.

Definition quoted (s : string) : string :=
  (String quote (escape s) ++ String quote EmptyString)%string.

Fixpoint stringify (v : json) : string :=
  match v with
  | JNull => "null"
  | JBool true => "true"
  | JBool false => "false"
  | JNum n => string_of_Z n
  | JStr s => quoted s
  | JArr xs => ("[" ++ String.concat "," (map stringify xs) ++ "]")%string
  | JObj fields =>
      ("{" ++ String.concat ","
                (map (fun kv => (quoted (fst kv) ++ ":" ++ stringify (snd kv))%string) fields)
           ++ "}")%string
  end.

Fixpoint spaces (n : nat) : string :=
  match n with
  | O => EmptyString
  | S n' => String " "%char (spaces n')
  end.

Fixpoint stringify_indent (indent : nat) (v : json) : string :=
  let inner := (newline ++ spaces (indent + 2))%string in
  match v with
  | JArr [] => "[]"
  | JArr xs =>
      ("[" ++ inner
           ++ String.concat ("," ++ inner) (map (stringify_indent (indent + 2)) xs)
           ++ newline ++ spaces indent ++ "]")%string
  | JObj [] => "{}"
  | JObj fields =>
      ("{" ++ inner
           ++ String.concat ("," ++ inner)
                (map (fun kv => (quoted (fst kv) ++ ": "
                                 ++ stringify_indent (indent + 2) (snd kv))%string) fields)
           ++ newline ++ spaces indent ++ "}")%string
  | _ => stringify v
  end.

Definition is_space (c : ascii) : bool :=
  Ascii.eqb c " "%char || Ascii.eqb c "010"%char
  || Ascii.eqb c "009"%char || Ascii.eqb c "013"%char.

Fixpoint skip_ws (s : string) : string :=
  match s with
  | String c rest => if is_space c then skip_ws rest else s
  | EmptyString => s
  end.

Definition digit_value (c : ascii) : option Z :=
  let n := Z.of_nat (nat_of_ascii c) in
  if (48 <=? n) && (n <=? 57) then Some (n - 48) else None.

Fixpoint parse_digits (s : string) (acc : Z) : Z * string :=
  match s with
  | String c rest =>
      match digit_value c with
      | Some d => parse_digits rest (acc * 10 + d)
      | None => (acc, s)
      end
  | EmptyString => (acc, s)
  end.

(** After the opening quote: the text up to the closing quote, and what
    follows it. *)
Fixpoint parse_chars (s : string) (acc : string) : option (string * string) :=
  match s with
  | EmptyString => None
  | String c rest =>
      if Ascii.eqb c quote then Some (acc, rest)
      else if Ascii.eqb c backslash then
        match rest with
        | String e rest' =>
            if Ascii.eqb e "n"%char
            then parse_chars rest' (acc ++ newline)
            else if Ascii.eqb e quote || Ascii.eqb e backslash || Ascii.eqb e "/"%char
            then parse_chars rest' (acc ++ String e EmptyString)
            else None
        | EmptyString => None
        end
      else parse_chars rest (acc ++ String c EmptyString)
  end.

Fixpoint parse_value (fuel : nat) (s : string) {struct fuel} : option (json * string) :=
  match fuel with
  | O => None
  | S fuel' =>
      let elements :=
        fix elements (n : nat) (s : string) (acc : list json) {struct n}
            : option (list json * string) :=
          match n with
          | O => None
          | S n' =>
              match parse_value fuel' s with
              | Some (v, rest) =>
                  match skip_ws rest with
                  | String "," rest' => elements n' rest' (acc ++ [v])%list
                  | String "]" rest' => Some ((acc ++ [v])%list, rest')
                  | _ => None
                  end
              | None => None
              end
          end in
      let members :=
        fix members (n : nat) (s : string) (acc : list (string * json)) {struct n}
            : option (list (string * json) * string) :=
          match n with
          | O => None
          | S n' =>
              match skip_ws s with
              | String q after_quote =>
                  if Ascii.eqb q quote then
                    match parse_chars after_quote EmptyString with
                    | Some (k, rest) =>
                        match skip_ws rest with
                        | String ":" rest' =>
                            match parse_value fuel' rest' with
                            | Some (v, rest'') =>
                                match skip_ws rest'' with
                                | String "," r => members n' r (acc ++ [(k, v)])%list
                                | String "}" r => Some ((acc ++ [(k, v)])%list, r)
                                | _ => None
                                end
                            | None => None
                            end
                        | _ => None
                        end
                    | None => None
                    end
                  else None
              | EmptyString => None
              end
          end in
      match skip_ws s with
      | String "n" (String "u" (String "l" (String "l" rest))) => Some (JNull, rest)
      | String "t" (String "r" (String "u" (String "e" rest))) => Some (JBool true, rest)
      | String "f" (String "a" (String "l" (String "s" (String "e" rest)))) =>
          Some (JBool false, rest)
      | String "[" rest =>
          match skip_ws rest with
          | String "]" rest' => Some (JArr [], rest')
          | _ => match elements (String.length rest) rest [] with
                 | Some (xs, rest') => Some (JArr xs, rest')
                 | None => None
                 end
          end
      | String "{" rest =>
          match skip_ws rest with
          | String "}" rest' => Some (JObj [], rest')
          | _ => match members (String.length rest) rest [] with
                 | Some (fields, rest') => Some (JObj fields, rest')
                 | None => None
                 end
          end
      | String "-" (String d rest) =>
          match digit_value d with
          | Some _ => let (n, rest') := parse_digits (String d rest) 0 in Some (JNum (- n), rest')
          | None => None
          end
      | String c rest =>
          if Ascii.eqb c quote then
            match parse_chars rest EmptyString with
            | Some (text, rest') => Some (JStr text, rest')
            | None => None
            end
          else
            match digit_value c with
            | Some _ => let (n, rest') := parse_digits (String c rest) 0 in Some (JNum n, rest')
            | None => None
            end
      | EmptyString => None
      end
  end.

Definition parse (text : string) : option json :=
  match parse_value (S (String.length text)) text with
  | Some (v, rest) =>
      match skip_ws rest with
      | EmptyString => Some v
      | _ => None
      end
  | None => None
  end.

Definition hex_digit (n : Z) : ascii :=
  ascii_of_nat (Z.to_nat (if n <? 10 then 48 + n else 87 + n)).

Fixpoint hex (digits : nat) (n : Z) : string :=
  match digits with
  | O => EmptyString
  | S d => (hex d (n / 16) ++ String (hex_digit (n mod 16)) EmptyString)%string
  end.

Fixpoint mix (s : string) (acc : Z) : Z :=
  match s with
  | EmptyString => acc
  | String c rest => mix rest ((acc * 31 + Z.of_nat (nat_of_ascii c)) mod 4294967296)
  end.

(** A keyed checksum of the parts, as eight hexadecimal digits. *)
Definition checksum_hex (k : string) (parts : list Buffer) : string :=
  hex 8 (fold_left (fun acc part => mix part acc) parts (mix k 7)).

End Reference.

Definition reference_platform : Platform :=
  {| JSON_stringify := Reference.stringify;
     JSON_stringify_indent2 := Reference.stringify_indent 0;
     JSON_parse := Reference.parse;
     hmac_sha256_hex := Reference.checksum_hex |}.

(** ** Specification vocabulary *)

Section Vocabulary.
Context {P : Platform}.

(** A value that [JSON.stringify] prints as text that [JSON.parse] reads
    back as the same value. *)
Definition json_serializable (v : json) : Prop :=
  JSON_parse (JSON_stringify v) = Some v.

Definition well_formed (msg : JupyterMessage) : Prop :=
  json_serializable (header msg) /\ json_serializable (parent_header msg)
  /\ json_serializable (metadata msg) /\ json_serializable (content msg).

(** [frames] is a status broadcast that the manager [km] reads as
    [execution_state]. *)
Definition status_broadcast (km : KernelManager) (frames : list Buffer)
    (execution_state : string) : Prop :=
  exists p msg,
    protocol km = Some p
    /\ snd (parseMessage p frames) = Normal (Some msg)
    /\ isStatus msg = Normal true
    /\ js_get (Some (content msg)) "execution_state"
       = Normal (Some (JStr execution_state)).

(** The events that move the kernel state, with the state each leads to. *)
Definition edge (a : Action) (km : KernelManager) (new : KernelState) : Prop :=
  match a with
  | Start _ _ =>
      match process km with
      | Some _ => new = dead
      | None => new = starting
      end
  | Start_spawn _ _ => new = starting
  | Start_listen _ _ | Start_handshake _ => new = idle
  | Process_exit | Process_error _ | Shutdown => new = dead
  | Iopub_frames frames =>
      listening km = true
      /\ ((new = busy /\ status_broadcast km frames "busy")
          \/ (new = idle /\ status_broadcast km frames "idle"))
  | Start_connect _ _ _ | Iopub_failure _ | Execute _ _ _ | Execute_reply _
  | Interrupt _ _ | Cleanup_resume => False
  end.

End Vocabulary.

(** A [Record<string, string>], as the object it is at run time. *)
Definition Record_string (data : list (string * string)) : json :=
  JObj (map (fun kv => (fst kv, JStr (snd kv))) data).

(** [interface DisplayDataContent], without the optional [transient]. *)
Definition DisplayDataContent (data : list (string * string)) (md : json) : json :=
  JObj [ ("data", Record_string data); ("metadata", md) ].

(** The representations of a display message in the order of preference. *)
Definition priority : list string :=
  ["image/png"; "image/jpeg"; "text/html"; "application/json"; "text/plain"].

(** A representation counts when its text is not empty. *)
Definition available (data : list (string * string)) (mime : string) : bool :=
  match assoc mime data with
  | Some text => negb (String.eqb text "")
  | None => false
  end.

Definition first_available (data : list (string * string)) : option string :=
  find (available data) priority.

(** The output for the representation [mime] with text [text]; for
    [application/json], [pretty] is the text printed again with an indent of
    two. *)
Definition output_for (mime text pretty : string) : KernelOutput.t :=
  if String.eqb mime "text/plain"
  then mkOutput KernelOutput.result (Some (JStr text)) None
  else if String.eqb mime "application/json"
  then mkOutput KernelOutput.display (Some (JStr pretty)) (Some mime)
  else mkOutput KernelOutput.display (Some (JStr text)) (Some mime).

(** No two neighbours are equal. *)
Fixpoint no_repeat (l : list KernelState) : Prop :=
  match l with
  | a :: (b :: _) as rest => a <> b /\ no_repeat rest
  | _ => True
  end.

(** The last ['stateChange'] event, if any, carried the current state, and no
    two in a row carried the same state. *)
Definition events_consistent (km : KernelManager) : Prop :=
  match last (map Some (stateChanges (trace km))) None with
  | Some s => s = state km
  | None => True
  end
  /\ no_repeat (stateChanges (trace km)).

(** The promise of execution [r] is pending and out of reach:
    [pendingExecutions] holds no reference to its [resolve]. *)
Definition orphaned (r : nat) (km : KernelManager) : Prop :=
  (exists e, nth_error (heap km) r = Some e /\ resolved e = false)
  /\ ~ In r (map snd (pendingExecutions km)).

(** The state is [s0] still, or has become [x]. *)
Definition stays_or (s0 x : KernelState) (km : KernelManager) : Prop :=
  state km = s0 \/ state km = x.

(** The [execution_state] of a status message. *)
Definition status_of (msg : JupyterMessage) : option string :=
  match isStatus msg, js_get (Some (content msg)) "execution_state" with
  | Normal true, Normal (Some (JStr s)) => Some s
  | _, _ => None
  end.

(** The state is [s0] still, or follows the status message [msg]. *)
Definition stays_or_follows (s0 : KernelState) (msg : JupyterMessage)
    (km : KernelManager) : Prop :=
  state km = s0
  \/ (status_of msg = Some "busy" /\ state km = busy)
  \/ (status_of msg = Some "idle" /\ state km = idle).

(** The events that set the kernel state, with the state each leaves.  The
    end of [start()] and a status broadcast are listed for a manager that is
    not [dead]: [start()] has completed, or the listener has read a status
    message whose parent header can be read. *)
Definition sets_state {P : Platform} (a : Action) (km : KernelManager)
    (new : KernelState) : Prop :=
  match a with
  | Start _ _ =>
      match process km with
      | Some _ => new = dead
      | None => new = starting
      end
  | Start_spawn _ _ => new = starting
  | Process_exit | Process_error _ | Shutdown => new = dead
  | Start_listen _ _ =>
      state km <> dead /\ new = idle
      /\ (shellSocket km = None \/ protocol km = None)
  | Start_handshake reply =>
      state km <> dead /\ new = idle
      /\ fst (start_handshake reply km) = Normal tt
  | Iopub_frames frames =>
      state km <> dead /\ listening km = true
      /\ exists p msg k,
           protocol km = Some p
           /\ snd (parseMessage p frames) = Normal (Some msg)
           /\ js_get (Some (parent_header msg)) "msg_id" = Normal k
           /\ ((new = busy /\ status_of msg = Some "busy")
               \/ (new = idle /\ status_of msg = Some "idle"))
  | Start_connect _ _ _ | Iopub_failure _ | Execute _ _ _ | Execute_reply _
  | Interrupt _ _ | Cleanup_resume => False
  end.

(** Running [m] from [km] keeps the property [I]. *)
Definition keeps {A : Type} (I : KernelManager -> Prop) (m : M A) (km : KernelManager)
    : Prop :=
  I km -> I (snd (m km)).

(** ** A concrete session *)
Module Scenario.
#[local] Existing Instance reference_platform.

Definition info : ConnectionInfo.t :=
  {| ConnectionInfo.shell_port := 5001; ConnectionInfo.iopub_port := 5002;
     ConnectionInfo.stdin_port := 5003; ConnectionInfo.control_port := 5004;
     ConnectionInfo.hb_port := 5005; ConnectionInfo.ip := "127.0.0.1";
     ConnectionInfo.key := "secret"; ConnectionInfo.transport := "tcp";
     ConnectionInfo.signature_scheme := "hmac-sha256";
     ConnectionInfo.kernel_name := "python3" |}.

(** The codec on the kernel's side: same key, its own session. *)
Definition kernel : JupyterProtocol := new_JupyterProtocol "kernel-session" "secret".

Definition kernel_message (id type : string) (parent c : json) : JupyterMessage :=
  {| header := JObj [ ("msg_id", JStr id); ("msg_type", JStr type);
                      ("username", JStr "kernel"); ("session", JStr "kernel-session");
                      ("date", JStr "2024-01-01T00:00:00.000Z"); ("version", JStr "5.3") ];
     parent_header := parent;
     metadata := JObj [];
     content := c;
     buffers := None |}.

(** The header of the request the kernel is answering. *)
Definition request_header (id : string) : json := JObj [("msg_id", JStr id)].

Definition status_frames (id parent execution_state : string) : list Buffer :=
  serializeMessage kernel
    (kernel_message id "status" (request_header parent)
       (JObj [("execution_state", JStr execution_state)])).

Definition kernel_info_reply_frames : list Buffer :=
  serializeMessage kernel
    (kernel_message "k0" "kernel_info_reply" (request_header "u1")
       (JObj [("status", JStr "ok"); ("protocol_version", JStr "5.3")])).

Definition execute_reply_frames (count : Z) : list Buffer :=
  serializeMessage kernel
    (kernel_message "k3" "execute_reply" (request_header "u2")
       (JObj [("status", JStr "ok"); ("execution_count", JNum count)])).

Definition display_message (data : list (string * string)) : JupyterMessage :=
  kernel_message "k4" "display_data" (request_header "u2")
    (DisplayDataContent data (JObj [])).

(** A figure with a picture and a caption, and one whose picture is
    empty. *)
Definition figure : list (string * string) :=
  [("text/plain", "<Figure size 640x480>"); ("image/png", "iVBORw0KGgo=")].

Definition figure_without_picture : list (string * string) :=
  [("text/plain", "<Figure size 640x480>"); ("image/png", "")].

Definition broken_json : list (string * string) :=
  [("application/json", "{oops"); ("text/plain", "oops")].

Definition child : ChildProcess := {| pid := Some 4242 |}.

(** [start()] up to the kernel-info request, the reply outstanding. *)
Definition starting_session : KernelManager :=
  run [ Start "/tmp/kernel-1.json" child;
        Start_connect info "session-1" 1000;
        Start_listen "u1" "2024-01-01T00:00:00.000Z" ]
      (new_KernelManager "python3").

(** [start()] completed. *)
Definition started : KernelManager :=
  run [ Start_handshake kernel_info_reply_frames ] starting_session.

(** [execute("1+1")] called, the shell reply received, the idle broadcast
    not yet. *)
Definition executing : KernelManager :=
  run [ Execute "1+1" "u2" "2024-01-01T00:00:01.000Z";
        Iopub_frames (status_frames "k2" "u2" "busy");
        Execute_reply (execute_reply_frames 1) ]
      started.

(** [shutdown()] called then and run to completion. *)
Definition shut_down : KernelManager :=
  run [ Shutdown; Cleanup_resume ] executing.

(** The request sent by [execute("1+1")]. *)
Definition request : JupyterMessage :=
  createExecuteRequest kernel "u2" "2024-01-01T00:00:01.000Z" "1+1" false.

Definition message_with_buffers : JupyterMessage :=
  {| header := JObj [("msg_id", JStr "m1"); ("msg_type", JStr "display_data")];
     parent_header := JObj [];
     metadata := JObj [];
     content := JObj [("data", JObj [])];
     buffers := Some ["BINARY-PAYLOAD"] |}.

End Scenario.

(** ** More of the code: the wait for the connection file *)

Definition maxAttempts : nat := 50.
Definition delay : Z := 100.

(** The loop of [waitForConnectionFile()] from attempt [i] on, [remaining]
    attempts being left: [access i] tells whether [fs.access] succeeds at
    attempt [i].  The result, and the time slept in milliseconds. *)
Fixpoint waitForConnectionFile_loop (access : nat -> bool) (i remaining : nat)
    (slept : Z) : completion unit * Z :=
  match remaining with
  | O => (Throw (Error "Timeout waiting for kernel connection file"), slept)
  | S remaining' =>
      if access i
      then (Normal tt, slept + 100)
      else waitForConnectionFile_loop access (S i) remaining' (slept + delay)
  end.

Definition waitForConnectionFile (access : nat -> bool) : completion unit * Z :=
  waitForConnectionFile_loop access 0 maxAttempts 0.

(** ** More of the code: PythonSetup.ts

    The file system and the interpreters are read through [Host]; they are
    taken not to change while one discovery runs. *)
Module PythonSetup.

Inductive EnvironmentType : Type := venv | conda | system | pyenv | pipenv.

Definition EnvironmentType_eqb (a b : EnvironmentType) : bool :=
  match a, b with
  | venv, venv | conda, conda | system, system | pyenv, pyenv | pipenv, pipenv => true
  | _, _ => false
  end.

Record PythonEnvironment : Type := {
  path : string;
  name : string;
  version : string;
  type : EnvironmentType;
  hasIpykernel : bool
}.

Record Host : Type := {
  (** [process.platform === 'win32'] *)
  win32 : bool;
  (** [path.join(...)] and [path.basename(p)] *)
  path_join : list string -> string;
  path_basename : string -> string;
  (** [os.homedir()], [process.env.PYENV_ROOT], [process.env.CONDA_PREFIX] *)
  homedir : string;
  PYENV_ROOT : option string;
  CONDA_PREFIX : option string;
  (** [fileExists(p)] and [directoryExists(p)]: [fs.stat] succeeds and says
      so *)
  fileExists : string -> bool;
  directoryExists : string -> bool;
  (** [fs.readdir(p)]; [None] when it fails *)
  readdir : string -> option (list string);
  (** [fs.realpath(p)]; [None] when it fails *)
  realpath : string -> option string;
  (** [getPythonVersion(p)]; [None] is [null] *)
  getPythonVersion : string -> option string;
  (** [checkIpykernel(p)] *)
  checkIpykernel : string -> bool;
  (** the first line of what [which] (or [where]) prints for a command;
      [None] when it fails *)
  which : string -> option string
}.

Section Discovery.
Variable host : Host.

Definition findPythonInDir (dir : string) : option string :=
  let candidates :=
    if win32 host then ["python.exe"; "Scripts/python.exe"]
    else ["bin/python3"; "bin/python"] in
  find (fileExists host) (map (fun candidate => path_join host [dir; candidate]) candidates).

(** [fs.realpath(pythonPath).catch(() => pythonPath)] *)
Definition realPath (pythonPath : string) : string :=
  match realpath host pythonPath with
  | Some p => p
  | None => pythonPath
  end.

(** The array [environments] and the set [seen]. *)
Definition Found : Type := (list PythonEnvironment * list string)%type.

Definition seen_has (p : string) (seen : list string) : bool :=
  existsb (String.eqb p) seen.

(** The closure [addEnv] of [discoverEnvironments]. *)
Definition addEnv (pythonPath envName : string) (envType : EnvironmentType)
    (st : Found) : Found :=
  let (environments, seen) := st in
  let real := realPath pythonPath in
  if seen_has real seen then st
  else
    let seen' := (seen ++ [real])%list in
    match getPythonVersion host pythonPath with
    | None => (environments, seen')
    | Some v =>
        if String.eqb v "" then (environments, seen')
        else
          ((environments
            ++ [{| path := pythonPath; name := envName; version := v;
                   type := envType;
                   hasIpykernel := checkIpykernel host pythonPath |}])%list,
           seen')
    end.

(** [findPythonInDir(dir)] followed by [addEnv] under [if (pythonPath)]. *)
Definition addFrom (dir envName : string) (envType : EnvironmentType) (st : Found)
    : Found :=
  match findPythonInDir dir with
  | Some pythonPath =>
      if negb (String.eqb pythonPath "") then addEnv pythonPath envName envType st
      else st
  | None => st
  end.

(** The body shared by the pyenv, conda and pipenv scans: every entry of
    [dir], when it is a directory that can be read. *)
Definition addEntries (dir label : string) (envType : EnvironmentType) (st : Found)
    : Found :=
  if directoryExists host dir then
    match readdir host dir with
    | Some entries =>
        fold_left
          (fun st entry =>
             addFrom (path_join host [dir; entry]) (label ++ entry)%string envType st)
          entries st
    | None => st
    end
  else st.

(** The loop over the system interpreters: the first command that [which]
    resolves to a non-empty path is added, and the loop ends there. *)
Fixpoint addSystem (commands : list string) (st : Found) : Found :=
  match commands with
  | [] => st
  | pythonCmd :: rest =>
      match which host pythonCmd with
      | Some result =>
          if negb (String.eqb result "")
          then addEnv result "System Python" system st
          else addSystem rest st
      | None => addSystem rest st
      end
  end.

Definition discover (workspaceDir : string) : Found :=
  (* 1. Local virtual environments *)
  let st :=
    fold_left
      (fun st venvName =>
         let venvDir := path_join host [workspaceDir; venvName] in
         if directoryExists host venvDir then addFrom venvDir venvName venv st else st)
      ["venv"; ".venv"] (([], []) : Found) in
  (* 2. pyenv environments *)
  let pyenvRoot :=
    match PYENV_ROOT host with
    | Some root => if negb (String.eqb root "") then root
                   else path_join host [homedir host; ".pyenv"]
    | None => path_join host [homedir host; ".pyenv"]
    end in
  let st := addEntries (path_join host [pyenvRoot; "versions"]) "pyenv: " pyenv st in
  (* 3. Conda environments *)
  let condaDirs :=
    [ path_join host [homedir host; "anaconda3"; "envs"];
      path_join host [homedir host; "miniconda3"; "envs"];
      path_join host [homedir host; "miniforge3"; "envs"];
      path_join host [homedir host; "mambaforge"; "envs"] ] in
  let condaDirs :=
    match CONDA_PREFIX host with
    | Some prefix => if negb (String.eqb prefix "")
                     then path_join host [prefix; ".."] :: condaDirs
                     else condaDirs
    | None => condaDirs
    end in
  let st := fold_left (fun st dir => addEntries dir "conda: " conda st) condaDirs st in
  (* Also check conda base environments *)
  let st :=
    fold_left
      (fun st baseDir =>
         addFrom baseDir ("conda: " ++ path_basename host baseDir ++ " (base)")%string
           conda st)
      [ path_join host [homedir host; "anaconda3"];
        path_join host [homedir host; "miniconda3"];
        path_join host [homedir host; "miniforge3"];
        path_join host [homedir host; "mambaforge"] ] st in
  (* 4. pipenv environments *)
  let st :=
    addEntries (path_join host [homedir host; ".local"; "share"; "virtualenvs"])
      "pipenv: " pipenv st in
  (* 5. System Python *)
  addSystem (if win32 host then ["python"; "python3"]
             else ["python3"; "/usr/bin/python3"; "/usr/local/bin/python3"]) st.

Definition discoverEnvironments (workspaceDir : string) : list PythonEnvironment :=
  fst (discover workspaceDir).

(** What [addEnv] keeps: no two environments have the same real path, and
    the real path of each is in [seen]. *)
Definition distinct (st : Found) : Prop :=
  NoDup (map (fun e => realPath (path e)) (fst st))
  /\ forall e, In e (fst st) -> In (realPath (path e)) (snd st).

(** What every environment found says about itself. *)
Definition probed (e : PythonEnvironment) : Prop :=
  getPythonVersion host (path e) = Some (version e)
  /\ version e <> ""
  /\ hasIpykernel e = checkIpykernel host (path e).

Definition is_system (e : PythonEnvironment) : bool := EnvironmentType_eqb (type e) system.

(** No environment found so far is of type [system]. *)
Definition no_system (st : Found) : Prop :=
  Forall (fun e => is_system e = false) (fst st).

(** The paths [findPythonInDir] finds are those of files; the paths of the
    system interpreters are taken from [which] as they are. *)
Definition found_file (e : PythonEnvironment) : Prop :=
  is_system e = false -> fileExists host (path e) = true.

End Discovery.
End PythonSetup.

(** ** More of the code: what the editor does with [execute]

    [handleExecute] of the editor provider, on its static [kernelManager]
    ([None] is [null]): what it posts to the webview, and the manager. *)
Module EditorProvider.

(** The message ['kernel:executeResult']; an absent field is [None]. *)
Record ExecuteResult : Type := {
  cellId : string;
  success : bool;
  error : option string;
  needsEnvironment : option bool;
  msgId : option jsval;
  outputs : option (list KernelOutput.t)
}.

(** [String(err)] *)
Definition String_of_error (err : JsError) : string :=
  match err with
  | TypeError m => "TypeError: " ++ m
  | SyntaxError m => "SyntaxError: " ++ m
  | Error m => "Error: " ++ m
  end.

Definition failure (cell : string) (err : JsError) : ExecuteResult :=
  {| cellId := cell; success := false; error := Some (String_of_error err);
     needsEnvironment := None; msgId := None; outputs := None |}.

Section Handlers.
Context {P : Platform}.

(** [handleExecute] up to the suspension of [execute]: the message posted,
    if any, the manager, and the call that is waiting. *)
Definition handleExecute (kernelManager : option KernelManager)
    (code cell uuid date : string)
    : option ExecuteResult * option KernelManager * option (jsval * nat) :=
  match kernelManager with
  | None =>
      (Some {| cellId := cell; success := false; error := Some "No kernel running";
               needsEnvironment := Some true; msgId := None; outputs := None |},
       None, None)
  | Some km =>
      match execute code uuid date km with
      | (Normal call, km') => (None, Some km', Some call)
      | (Throw err, km') => (Some (failure cell err), Some km', None)
      end
  end.

(** [handleExecute] when the shell reply has come. *)
Definition handleExecute_reply (km : KernelManager) (cell : string)
    (reply : list Buffer) : option ExecuteResult * KernelManager :=
  match execute_reply_received reply km with
  | (Normal _, km') => (None, km')
  | (Throw err, km') => (Some (failure cell err), km')
  end.

(** [handleExecute] when [execute] has returned. *)
Definition handleExecute_done (km : KernelManager) (cell : string)
    (call : jsval * nat) : option ExecuteResult :=
  match execute_returns call km with
  | Some (id, outs) =>
      Some {| cellId := cell; success := true; error := None;
              needsEnvironment := None; msgId := Some id; outputs := Some outs |}
  | None => None
  end.

End Handlers.
End EditorProvider.

(** ** More vocabulary *)

Section MoreVocabulary.
Context {P : Platform}.

(** The tests [handleIopubMessage] and [requestKernelInfo] make on the type
    of a message. *)
Definition kind_tests (msg : JupyterMessage) : list (completion bool) :=
  [ isStatus msg; isStream msg; isDisplayData msg; isError msg;
    isExecuteReply msg; isKernelInfoReply msg ].

Definition holds (c : completion bool) : bool :=
  match c with
  | Normal true => true
  | _ => false
  end.

(** [emitOutput] for each output in turn, all with the same parent id. *)
Fixpoint emitOutputs (parentMsgId : jsval) (os : list KernelOutput.t) : M unit :=
  match os with
  | [] => ret tt
  | o :: rest => emitOutput parentMsgId o ;; emitOutputs parentMsgId rest
  end.

(** The promise of execution [r] exists and is pending. *)
Definition waiting (r : nat) (km : KernelManager) : Prop :=
  exists e, nth_error (heap km) r = Some e /\ resolved e = false.

(** [msg] is a status message that says [idle] in answer to the request
    [k], which is the key of execution [r]. *)
Definition idle_for (msg : JupyterMessage) (k : jsval) (r : nat) (km : KernelManager)
    : Prop :=
  status_of msg = Some "idle"
  /\ js_get (Some (parent_header msg)) "msg_id" = Normal k
  /\ truthy k = true
  /\ Map_get k (pendingExecutions km) = Some r.

(** [shutdown()] run to its end: when [cleanup] was suspended at
    [await fs.unlink(...)], it is resumed. *)
Definition shutdown_completed (km : KernelManager) : KernelManager :=
  match shutdown km with
  | (Normal true, km') => exec cleanup_resume km'
  | (_, km') => km'
  end.

(** The message types that [handleIopubMessage] acts on. *)
Definition handled_types : list string :=
  ["status"; "stream"; "display_data"; "execute_result"; "error"; "execute_reply"].

End MoreVocabulary.

(** ** More concrete data *)
Module Samples.

#[local] Existing Instance reference_platform.

Definition stream_message (channel text : string) : JupyterMessage :=
  Scenario.kernel_message "k6" "stream" (Scenario.request_header "u2")
    (JObj [("name", JStr channel); ("text", JStr text)]).

Definition error_message (lines : list string) : JupyterMessage :=
  Scenario.kernel_message "k7" "error" (Scenario.request_header "u2")
    (JObj [ ("ename", JStr "ZeroDivisionError"); ("evalue", JStr "division by zero");
            ("traceback", JArr (map JStr lines)) ]).

Definition execute_reply_message (count : Z) : JupyterMessage :=
  Scenario.kernel_message "k3" "execute_reply" (Scenario.request_header "u2")
    (JObj [("status", JStr "ok"); ("execution_count", JNum count)]).

Definition status_message (parent execution_state : string) : JupyterMessage :=
  Scenario.kernel_message "k5" "status" (Scenario.request_header parent)
    (JObj [("execution_state", JStr execution_state)]).

Definition execute_input_message : JupyterMessage :=
  Scenario.kernel_message "k8" "execute_input" (Scenario.request_header "u2")
    (JObj [("code", JStr "1+1"); ("execution_count", JNum 1)]).

Definition two_outputs : list KernelOutput.t :=
  [ mkOutput KernelOutput.stdout (Some (JStr "2")) None;
    mkOutput KernelOutput.result (Some (JStr "2")) None ].

(** A machine with a virtual environment in the workspace that is also what
    [which python3] finds, through a link. *)
Definition host : PythonSetup.Host :=
  {| PythonSetup.win32 := false;
     PythonSetup.path_join := String.concat "/";
     PythonSetup.path_basename := fun p => p;
     PythonSetup.homedir := "/home/u";
     PythonSetup.PYENV_ROOT := None;
     PythonSetup.CONDA_PREFIX := None;
     PythonSetup.fileExists :=
       fun p => String.eqb p "/w/.venv/bin/python3" || String.eqb p "/usr/bin/python3";
     PythonSetup.directoryExists := fun p => String.eqb p "/w/.venv";
     PythonSetup.readdir := fun _ => None;
     PythonSetup.realpath :=
       fun p => if String.eqb p "/w/.venv/bin/python3" then Some "/usr/bin/python3.12"
                else if String.eqb p "/usr/bin/python3" then Some "/usr/bin/python3.12"
                else None;
     PythonSetup.getPythonVersion := fun _ => Some "3.12.1";
     PythonSetup.checkIpykernel := fun p => String.eqb p "/w/.venv/bin/python3";
     PythonSetup.which :=
       fun c => if String.eqb c "python3" then Some "/usr/bin/python3" else None |}.

(** [fs.access] fails three times, then succeeds. *)
Definition appears_at_3 (i : nat) : bool := Nat.leb 3 i.

End Samples.

(** * Properties *)

(** ** The codec *)

Section CodecProperties.
Context {P : Platform}.

Lemma delimiter_eqb_refl : String.eqb delimiter delimiter = true.
Proof. apply String.eqb_refl. Qed.

Lemma findDelimiter_absent (frames : list Buffer) (i : Z) :
  ~ In delimiter frames -> findDelimiter frames i = -1.
Proof.
  revert i. induction frames as [|f rest IH]; intros i Hno; cbn [findDelimiter].
  - reflexivity.
  - destruct (String.eqb_spec f delimiter) as [E|_].
    + exfalso. apply Hno. left. exact E.
    + apply IH. intros Hin. apply Hno. right. exact Hin.
Qed.

Lemma findDelimiter_first (pre rest : list Buffer) (i : Z) :
  ~ In delimiter pre ->
  findDelimiter (pre ++ delimiter :: rest) i = i + Z.of_nat (length pre).
Proof.
  revert i. induction pre as [|f pre IH]; intros i Hno;
    cbn [findDelimiter app length].
  - rewrite delimiter_eqb_refl. lia.
  - destruct (String.eqb_spec f delimiter) as [E|_].
    + exfalso. apply Hno. left. exact E.
    + rewrite IH.
      * lia.
      * intros Hin. apply Hno. right. exact Hin.
Qed.

Lemma frame_after (pre rest : list Buffer) (k : nat) :
  frame (pre ++ delimiter :: rest) (0 + Z.of_nat (length pre) + Z.of_nat (S k))
  = match nth_error rest k with
    | Some f => Normal f
    | None => Throw (TypeError "Cannot read properties of undefined")
    end.
Proof.
  unfold frame.
  replace (Z.to_nat (0 + Z.of_nat (length pre) + Z.of_nat (S k)))
    with (length pre + S k)%nat by lia.
  rewrite nth_error_app2 by lia.
  replace (length pre + S k - length pre)%nat with (S k) by lia.
  reflexivity.
Qed.

(** What [parseMessage] computes on a frame sequence whose first delimiter
    is followed by a signature, four parts that parse, and any buffers. *)
Lemma parseMessage_framed (p : JupyterProtocol) (pre bufs : list Buffer)
    (sig fh fp fm fc : Buffer) (h ph m c : json) :
  ~ In delimiter pre ->
  JSON_parse fh = Some h -> JSON_parse fp = Some ph ->
  JSON_parse fm = Some m -> JSON_parse fc = Some c ->
  parseMessage p (pre ++ delimiter :: sig :: fh :: fp :: fm :: fc :: bufs)
  = (if negb (String.eqb (key p) "") && negb (String.eqb sig "")
     then if negb (String.eqb sig (sign p [fh; fp; fm; fc]))
          then [signature_warning] else []
     else [],
     Normal (Some {| header := h; parent_header := ph; metadata := m;
                     content := c; buffers := Some bufs |})).
Proof.
  intros Hno Hh Hp Hm Hc.
  unfold parseMessage.
  rewrite findDelimiter_first by exact Hno.
  assert (Hlen : (0 + Z.of_nat (length pre) =? -1)
                 || (Z.of_nat (length (pre ++ delimiter :: sig :: fh :: fp :: fm :: fc :: bufs))
                     <? 0 + Z.of_nat (length pre) + 6) = false).
  { rewrite length_app. simpl length.
    apply orb_false_iff. split; [apply Z.eqb_neq | apply Z.ltb_ge]; lia. }
  rewrite Hlen.
  unfold JSON_parse_frame.
  change 1 with (Z.of_nat 1). change 2 with (Z.of_nat 2). change 3 with (Z.of_nat 3).
  change 4 with (Z.of_nat 4). change 5 with (Z.of_nat 5).
  rewrite !frame_after. simpl nth_error. cbn [cbind].
  rewrite Hh, Hp, Hm, Hc. cbn [cbind].
  replace (Z.to_nat (0 + Z.of_nat (length pre) + 6)) with (length pre + 6)%nat by lia.
  replace (skipn (length pre + 6) (pre ++ delimiter :: sig :: fh :: fp :: fm :: fc :: bufs))
    with bufs.
  - reflexivity.
  - rewrite skipn_app.
    rewrite skipn_all2 by lia.
    replace (length pre + 6 - length pre)%nat with 6%nat by lia.
    reflexivity.
Qed.

(** C2: [parseMessage(serializeMessage(msg))] gives back the header, the
    parent header, the metadata and the content of every message whose four
    parts are JSON-serializable, whatever the key of the sender [p] and of
    the receiver [q]; with the same key nothing is logged. *)
Theorem parse_serialize_roundtrip (p q : JupyterProtocol) (msg : JupyterMessage) :
  well_formed msg ->
  (exists m', snd (parseMessage q (serializeMessage p msg)) = Normal (Some m')
              /\ header m' = header msg
              /\ parent_header m' = parent_header msg
              /\ metadata m' = metadata msg
              /\ content m' = content msg)
  /\ fst (parseMessage p (serializeMessage p msg)) = [].
Proof.
  intros (Hh & Hp & Hm & Hc).
  cbv beta zeta delta [serializeMessage].
  pose proof (fun r => @parseMessage_framed r [] []
                (sign p [JSON_stringify (header msg); JSON_stringify (parent_header msg);
                         JSON_stringify (metadata msg); JSON_stringify (content msg)])
                _ _ _ _ _ _ _ _ (fun H : In delimiter [] => H) Hh Hp Hm Hc) as Hparse.
  simpl app in Hparse.
  split.
  - rewrite (Hparse q). simpl snd.
    eexists. split; [reflexivity|]. simpl. repeat split; reflexivity.
  - rewrite (Hparse p). simpl fst.
    rewrite String.eqb_refl. simpl.
    destruct (negb (String.eqb (key p) "") && negb (String.eqb _ "")); reflexivity.
Qed.

(** C6: [parseMessage] returns [null], and does not throw, when no frame is
    the delimiter, and when fewer than five frames follow the delimiter. *)
Theorem parseMessage_format_error (p : JupyterProtocol) (frames : list Buffer) :
  (~ In delimiter frames
   \/ exists pre rest, frames = (pre ++ delimiter :: rest)%list
                       /\ ~ In delimiter pre /\ (length rest < 5)%nat) ->
  parseMessage p frames = ([], Normal None).
Proof.
  intros [Habsent | (pre & rest & -> & Hno & Hshort)]; unfold parseMessage.
  - rewrite findDelimiter_absent by exact Habsent. reflexivity.
  - rewrite findDelimiter_first by exact Hno.
    replace (Z.of_nat (length (pre ++ delimiter :: rest))
             <? 0 + Z.of_nat (length pre) + 6) with true.
    + rewrite orb_true_r. reflexivity.
    + symmetry. apply Z.ltb_lt. rewrite length_app. simpl length. lia.
Qed.

(** C7: with a signing key, a non-empty signature frame and a signature
    that differs from the one recomputed over the four parts, [parseMessage]
    writes the warning and returns the message all the same. *)
Theorem signature_mismatch_not_rejected (p : JupyterProtocol)
    (pre bufs : list Buffer) (sig fh fp fm fc : Buffer) (h ph m c : json) :
  ~ In delimiter pre ->
  key p <> "" -> sig <> "" ->
  sig <> sign p [fh; fp; fm; fc] ->
  JSON_parse fh = Some h -> JSON_parse fp = Some ph ->
  JSON_parse fm = Some m -> JSON_parse fc = Some c ->
  parseMessage p (pre ++ delimiter :: sig :: fh :: fp :: fm :: fc :: bufs)
  = ([signature_warning],
     Normal (Some {| header := h; parent_header := ph; metadata := m;
                     content := c; buffers := Some bufs |})).
Proof.
  intros Hno Hkey Hsig Hdiff Hh Hp Hm Hc.
  rewrite (parseMessage_framed p pre bufs sig fh fp fm fc h ph m c Hno Hh Hp Hm Hc).
  apply String.eqb_neq in Hkey, Hsig, Hdiff.
  rewrite Hkey, Hsig, Hdiff. reflexivity.
Qed.

(** The signature frame has no part in what [parseMessage] returns. *)
Lemma parseMessage_signature_irrelevant (p : JupyterProtocol)
    (pre rest : list Buffer) (sig sig' : Buffer) :
  ~ In delimiter pre ->
  snd (parseMessage p (pre ++ delimiter :: sig :: rest))
  = snd (parseMessage p (pre ++ delimiter :: sig' :: rest)).
Proof.
  intros Hno. unfold parseMessage.
  rewrite !findDelimiter_first by exact Hno.
  rewrite !length_app. simpl length.
  destruct ((0 + Z.of_nat (length pre) =? -1)
            || (Z.of_nat (length pre + S (S (length rest)))
                <? 0 + Z.of_nat (length pre) + 6)) eqn:Hguard; [reflexivity|].
  unfold JSON_parse_frame.
  change 1 with (Z.of_nat 1). change 2 with (Z.of_nat 2). change 3 with (Z.of_nat 3).
  change 4 with (Z.of_nat 4). change 5 with (Z.of_nat 5).
  rewrite !frame_after. simpl nth_error. cbn [cbind].
  assert (Hskip : forall s, skipn (Z.to_nat (0 + Z.of_nat (length pre) + 6))
                              (pre ++ delimiter :: s :: rest) = skipn 4 rest).
  { intros s.
    replace (Z.to_nat (0 + Z.of_nat (length pre) + 6)) with (length pre + 6)%nat by lia.
    rewrite skipn_app, skipn_all2 by lia.
    replace (length pre + 6 - length pre)%nat with 6%nat by lia. reflexivity. }
  rewrite !Hskip.
  destruct rest as [|f2 [|f3 [|f4 [|f5 bufs]]]]; cbn [cbind];
    repeat match goal with
           | |- context [JSON_parse ?f] => destruct (JSON_parse f); cbn [cbind]
           end;
    reflexivity.
Qed.

(** C9: [serializeMessage] returns the delimiter, the signature and the four
    JSON parts, six frames in all; [msg.buffers] is not read, so attached
    buffers are not among the frames. *)
Theorem serializeMessage_six_frames (p : JupyterProtocol) (msg : JupyterMessage) :
  serializeMessage p msg
  = [ delimiter;
      sign p [ JSON_stringify (header msg); JSON_stringify (parent_header msg);
               JSON_stringify (metadata msg); JSON_stringify (content msg) ];
      JSON_stringify (header msg); JSON_stringify (parent_header msg);
      JSON_stringify (metadata msg); JSON_stringify (content msg) ]
  /\ forall bs, serializeMessage p
                  {| header := header msg; parent_header := parent_header msg;
                     metadata := metadata msg; content := content msg;
                     buffers := bs |}
                = serializeMessage p msg.
Proof. split; reflexivity. Qed.

End CodecProperties.

(** The round trip of the request that [execute("1+1")] sends, on the
    reference platform. *)
Lemma parse_serialize_roundtrip_witness :
  @well_formed reference_platform Scenario.request
  /\ ((exists m', snd (@parseMessage reference_platform Scenario.kernel
                         (@serializeMessage reference_platform Scenario.kernel
                            Scenario.request))
                  = Normal (Some m')
                  /\ header m' = header Scenario.request
                  /\ parent_header m' = parent_header Scenario.request
                  /\ metadata m' = metadata Scenario.request
                  /\ content m' = content Scenario.request)
      /\ fst (@parseMessage reference_platform Scenario.kernel
                (@serializeMessage reference_platform Scenario.kernel
                   Scenario.request)) = []).
Proof.
  assert (H : @well_formed reference_platform Scenario.request)
    by (split; [|split; [|split]]; vm_compute; reflexivity).
  split.
  - exact H.
  - exact (@parse_serialize_roundtrip reference_platform
             Scenario.kernel Scenario.kernel Scenario.request H).
Defined.

(** Two frame sequences that are dropped: one without a delimiter, one with
    four frames after it. *)
Lemma parseMessage_format_error_witness :
  @parseMessage reference_platform Scenario.kernel ["identity"; "{}"] = ([], Normal None)
  /\ @parseMessage reference_platform Scenario.kernel
       ["identity"; delimiter; "0a1b"; "{}"; "{}"; "{}"] = ([], Normal None).
Proof.
  split.
  - apply (@parseMessage_format_error reference_platform).
    left. intros [H | [H | []]]; discriminate H.
  - apply (@parseMessage_format_error reference_platform).
    right. exists ["identity"], ["0a1b"; "{}"; "{}"; "{}"].
    split; [reflexivity|]. split.
    + intros [H | []]; discriminate H.
    + simpl. lia.
Defined.

(** A status message under a signature that is not the keyed digest of its
    parts. *)
Lemma signature_mismatch_not_rejected_witness :
  @parseMessage reference_platform Scenario.kernel
    ["identity"; delimiter; "0a1b";
     Reference.stringify (JObj [("msg_type", JStr "status")]); "{}"; "{}";
     Reference.stringify (JObj [("execution_state", JStr "idle")]); "BINARY"]
  = ([signature_warning],
     Normal (Some {| header := JObj [("msg_type", JStr "status")];
                     parent_header := JObj [];
                     metadata := JObj [];
                     content := JObj [("execution_state", JStr "idle")];
                     buffers := Some ["BINARY"] |})).
Proof.
  apply (@signature_mismatch_not_rejected reference_platform Scenario.kernel
           ["identity"] ["BINARY"] "0a1b").
  - intros [H | []]; discriminate H.
  - intros H; discriminate H.
  - intros H; discriminate H.
  - intros H; vm_compute in H; discriminate H.
  - vm_compute; reflexivity.
  - vm_compute; reflexivity.
  - vm_compute; reflexivity.
  - vm_compute; reflexivity.
Defined.

(** The failing input of C9: the attached buffer is not among the frames,
    and does not come back. *)
Example serializeMessage_loses_buffers :
  length (@serializeMessage reference_platform Scenario.kernel
            Scenario.message_with_buffers) = 6%nat
  /\ ~ In "BINARY-PAYLOAD"
         (@serializeMessage reference_platform Scenario.kernel
            Scenario.message_with_buffers)
  /\ exists m', snd (@parseMessage reference_platform Scenario.kernel
                       (@serializeMessage reference_platform Scenario.kernel
                          Scenario.message_with_buffers))
                = Normal (Some m')
                /\ buffers m' = Some []
                /\ buffers Scenario.message_with_buffers = Some ["BINARY-PAYLOAD"].
Proof.
  split; [reflexivity|]. split.
  - vm_compute. intros H.
    repeat match goal with H : _ \/ _ |- _ => destruct H as [H | H] end;
      try discriminate H; exact H.
  - eexists. split; [vm_compute; reflexivity|]. split; reflexivity.
Qed.

(** ** Reasoning about method bodies *)

Section Keeps.
Context {P : Platform}.
Variable I : KernelManager -> Prop.

Lemma keeps_ret {A : Type} (a : A) (km : KernelManager) : keeps I (ret a) km.
Proof. intros H. exact H. Qed.

Lemma keeps_throw {A : Type} (e : JsError) (km : KernelManager) :
  keeps I (@throw A e) km.
Proof. intros H. exact H. Qed.

Lemma keeps_lift {A : Type} (c : completion A) (km : KernelManager) :
  keeps I (lift c) km.
Proof. intros H. exact H. Qed.

Lemma keeps_modify (f : KernelManager -> KernelManager) (km : KernelManager) :
  (I km -> I (f km)) -> keeps I (modify f) km.
Proof. intros Hf H. exact (Hf H). Qed.

Lemma keeps_bind {A B : Type} (m : M A) (k : A -> M B) (km : KernelManager) :
  keeps I m km ->
  (forall a km', m km = (Normal a, km') -> keeps I (k a) km') ->
  keeps I (bind m k) km.
Proof.
  unfold keeps, bind. intros Hm Hk H.
  destruct (m km) as [[a | e] km'] eqn:E; simpl in *.
  - apply (Hk a km' eq_refl). apply Hm. exact H.
  - apply Hm. exact H.
Qed.

Lemma keeps_bind_this {B : Type} (k : KernelManager -> M B) (km : KernelManager) :
  keeps I (k km) km -> keeps I (bind this k) km.
Proof. unfold keeps, bind, this. intros Hk H. apply Hk. exact H. Qed.

Lemma keeps_bind_lift {A B : Type} (c : completion A) (k : A -> M B)
    (km : KernelManager) :
  (forall a, c = Normal a -> keeps I (k a) km) -> keeps I (bind (lift c) k) km.
Proof.
  unfold keeps, bind, lift. intros Hk H.
  destruct c as [a | e]; simpl.
  - apply (Hk a eq_refl). exact H.
  - exact H.
Qed.

Lemma keeps_try_catch {A : Type} (body : M A) (handler : JsError -> M A)
    (km : KernelManager) :
  keeps I body km ->
  (forall e km', keeps I (handler e) km') ->
  keeps I (try_catch body handler) km.
Proof.
  unfold keeps, try_catch. intros Hb Hh H.
  destruct (body km) as [[a | e] km'] eqn:E; simpl in *.
  - apply Hb. exact H.
  - apply Hh. apply Hb. exact H.
Qed.

End Keeps.

(** Walks through a method body; [leaf] closes the goals about [setState],
    [emit], [log] and [modify]. *)
Ltac keeps_walk leaf :=
  repeat lazymatch goal with
  | |- keeps _ (ret _) _ => apply keeps_ret
  | |- keeps _ (throw _) _ => apply keeps_throw
  | |- keeps _ (lift _) _ => apply keeps_lift
  | |- keeps _ (bind this _) _ => apply keeps_bind_this
  | |- keeps _ (bind (lift _) _) _ => apply keeps_bind_lift; intros ? ?
  | |- keeps _ (bind _ _) _ => apply keeps_bind; [ | intros ? ? _ ]
  | |- keeps _ (try_catch _ _) _ => apply keeps_try_catch; [ | intros ? ? ]
  | |- keeps _ (match ?x with _ => _ end) _ => destruct x eqn:?
  | |- keeps _ (setState _) _ => leaf
  | |- keeps _ (modify _) _ => leaf
  | |- keeps _ (log _) _ => leaf
  | |- keeps _ (emit _) _ => leaf
  | |- keeps _ _ _ =>
      progress unfold the_protocol, emitOutput, handleIopubMessage, listener_catch,
        listener_frames, startIopubListener, cleanup_rest, cleanup_resume, cleanup,
        shutdown, on_exit, on_error, start_spawn, start, connectSockets,
        requestKernelInfo, start_connect, start_listen, start_handshake, execute,
        execute_reply_received, interrupt, restart
  end.

(** ** Basic facts about the methods *)

Section BasicFacts.
Context {P : Platform}.

Lemma KernelState_eqb_eq (a b : KernelState) : KernelState_eqb a b = true <-> a = b.
Proof. destruct a, b; simpl; split; intros H; try reflexivity; discriminate H. Qed.

Lemma strict_eq_str_true (v : jsval) (lit : string) :
  strict_eq_str v lit = true -> v = Some (JStr lit).
Proof.
  destruct v as [[ | | | s | | ]|]; simpl; intros H; try discriminate H.
  apply String.eqb_eq in H. subst s. reflexivity.
Qed.

(** What [setState] does: the state is the new one, and one ['stateChange']
    event is emitted exactly when it differs from the old one. *)
Lemma setState_spec (newState : KernelState) (km : KernelManager) :
  setState newState km
  = (Normal tt,
     if KernelState_eqb (state km) newState then km
     else set_trace (trace km ++ [Emit (ev_stateChange newState)])
            (set_state newState km)).
Proof.
  unfold setState, bind, this.
  destruct (KernelState_eqb (state km) newState); reflexivity.
Qed.

Lemma the_protocol_spec (km : KernelManager) :
  the_protocol km
  = (match protocol km with
     | Some p => Normal p
     | None => Throw (TypeError "Cannot read properties of null")
     end, km).
Proof. unfold the_protocol, bind, this. destruct (protocol km); reflexivity. Qed.

End BasicFacts.

(** Closes the leaves for a property that reads neither [state] nor
    [trace] and is not touched by the other assignments met. *)
Ltac untouched_leaf :=
  idtac;
  lazymatch goal with
  | |- keeps _ (setState _) _ =>
      unfold keeps, setState, bind, this, emit, log, modify;
      match goal with
      | |- context [KernelState_eqb ?a ?b] => destruct (KernelState_eqb a b)
      end;
      exact (fun H => H)
  | |- _ => unfold emit, log; apply keeps_modify; exact (fun H => H)
  end.

(** ** State-change events (C10) *)

Section StateChangeEvents.
Context {P : Platform}.

Lemma stateChanges_app (t u : list Effect) :
  stateChanges (t ++ u) = (stateChanges t ++ stateChanges u)%list.
Proof.
  induction t as [|e t IH]; simpl.
  - reflexivity.
  - destruct e as [[s | | | ] | | | | | | | | ]; simpl; rewrite IH; reflexivity.
Qed.

Lemma stateChanges_warnings (ws : list string) : stateChanges (map ConsoleWarn ws) = [].
Proof. induction ws as [|w ws IH]; simpl; [reflexivity | exact IH]. Qed.

Lemma last_app_singleton {A : Type} (l : list A) (x d : A) : last (l ++ [x]) d = x.
Proof.
  induction l as [|a l IH]; simpl.
  - reflexivity.
  - destruct (l ++ [x])%list eqn:E.
    + destruct l; discriminate E.
    + exact IH.
Qed.

Lemma no_repeat_snoc (l : list KernelState) (s : KernelState) :
  no_repeat l -> last (map Some l) None <> Some s -> no_repeat (l ++ [s]).
Proof.
  induction l as [|a l IH]; intros Hl Hlast.
  - exact Logic.I.
  - destruct l as [|b l].
    + simpl in *. split; [|exact Logic.I]. intros E. apply Hlast. rewrite E. reflexivity.
    + destruct Hl as [Hab Hl]. split; [exact Hab|].
      apply IH; [exact Hl|]. exact Hlast.
Qed.

Lemma keeps_consistent_setState (s : KernelState) (km : KernelManager) :
  keeps events_consistent (setState s) km.
Proof.
  unfold keeps. rewrite setState_spec. simpl snd.
  destruct (KernelState_eqb (state km) s) eqn:E; [intros H; exact H|].
  intros [Hlast Hrep]. unfold events_consistent. simpl.
  rewrite stateChanges_app. simpl. split.
  - rewrite map_app. simpl. rewrite last_app_singleton. reflexivity.
  - apply no_repeat_snoc; [exact Hrep|].
    destruct (last (map Some (stateChanges (trace km))) None) as [s'|]; [|discriminate].
    intros E'. injection E' as ->. subst s.
    assert (KernelState_eqb (state km) (state km) = true) by (apply KernelState_eqb_eq; reflexivity).
    congruence.
Qed.

Lemma keeps_consistent_log (eff : Effect) (km : KernelManager) :
  stateChanges [eff] = [] -> keeps events_consistent (log eff) km.
Proof.
  intros Hsilent. unfold keeps, log, modify, events_consistent. simpl.
  rewrite stateChanges_app, Hsilent, app_nil_r. intros H. exact H.
Qed.

Lemma keeps_consistent_warnings (ws : list string) (km : KernelManager) :
  keeps events_consistent
    (modify (fun km => set_trace (trace km ++ map ConsoleWarn ws) km)) km.
Proof.
  unfold keeps, modify, events_consistent. simpl.
  rewrite stateChanges_app, stateChanges_warnings, app_nil_r. intros H. exact H.
Qed.

Ltac consistent_leaf :=
  idtac;
  lazymatch goal with
  | |- keeps _ (setState _) _ => apply keeps_consistent_setState
  | |- keeps _ (modify (fun km => set_trace (trace km ++ map ConsoleWarn _) km)) _ =>
      apply keeps_consistent_warnings
  | |- keeps _ (log _) _ => apply keeps_consistent_log; reflexivity
  | |- keeps _ (emit _) _ => unfold emit; apply keeps_consistent_log; reflexivity
  | |- _ => apply keeps_modify; exact (fun H => H)
  end.

Lemma step_consistent (a : Action) (km : KernelManager) :
  events_consistent km -> events_consistent (step a km).
Proof.
  destruct a; unfold step, exec;
    try match goal with |- context [if listening km then _ else _] =>
          destruct (listening km); [|intros H; exact H] end;
    match goal with |- ?I km -> ?I (snd (?m km)) => change (keeps I m km) end;
    keeps_walk consistent_leaf.
Qed.

Lemma run_consistent (acts : list Action) (km : KernelManager) :
  events_consistent km -> events_consistent (run acts km).
Proof.
  revert km. induction acts as [|a acts IH]; intros km H; simpl.
  - exact H.
  - apply IH. apply step_consistent. exact H.
Qed.

(** C10: [setState] emits one ['stateChange'] event when the new state
    differs from the current one and none when it is the same, and leaves
    the new state current; hence, whatever happens to a manager from its
    construction on, no two ['stateChange'] events in a row carry the same
    state. *)
Theorem stateChange_iff_different (newState : KernelState) (km : KernelManager)
    (acts : list Action) (python : string) :
  trace (exec (setState newState) km)
  = (trace km ++ if KernelState_eqb (state km) newState
                 then [] else [Emit (ev_stateChange newState)])%list
  /\ state (exec (setState newState) km) = newState
  /\ no_repeat (stateChanges (trace (run acts (new_KernelManager python)))).
Proof.
  split; [|split].
  - unfold exec. rewrite setState_spec. simpl snd.
    destruct (KernelState_eqb (state km) newState); simpl.
    + rewrite app_nil_r. reflexivity.
    + reflexivity.
  - unfold exec. rewrite setState_spec. simpl snd.
    destruct (KernelState_eqb (state km) newState) eqn:E; simpl.
    + apply KernelState_eqb_eq. exact E.
    + reflexivity.
  - apply (run_consistent acts (new_KernelManager python)).
    split; exact Logic.I.
Qed.

End StateChangeEvents.

(** ** Transitions of the kernel state (C3) *)

Section StateTransitions.
Context {P : Platform}.

Lemma keeps_stays_or_setState (s0 x : KernelState) (km : KernelManager) :
  keeps (stays_or s0 x) (setState x) km.
Proof.
  unfold keeps. rewrite setState_spec. simpl snd.
  destruct (KernelState_eqb (state km) x); intros H.
  - exact H.
  - right. reflexivity.
Qed.

Ltac stays_leaf :=
  idtac;
  first [ apply keeps_stays_or_setState
        | unfold emit, log; apply keeps_modify; exact (fun H => H) ].

(** A method body that calls [setState] with [x] only leaves the state as it
    was or makes it [x]. *)
Ltac stays_or_tac x :=
  match goal with
  | |- state (snd (?m ?km)) = state ?km \/ _ =>
      apply (fun H : keeps (stays_or (state km) x) m km => H (or_introl eq_refl));
      keeps_walk stays_leaf
  end.

Lemma shutdown_state (km : KernelManager) :
  state (snd (shutdown km)) = state km \/ state (snd (shutdown km)) = dead.
Proof. stays_or_tac dead. Qed.

Lemma start_spawn_state (file : string) (child : ChildProcess) (km : KernelManager) :
  state (snd (start_spawn file child km)) = state km
  \/ state (snd (start_spawn file child km)) = starting.
Proof. stays_or_tac starting. Qed.

Lemma start_handshake_state (reply : list Buffer) (km : KernelManager) :
  state (snd (start_handshake reply km)) = state km
  \/ state (snd (start_handshake reply km)) = idle.
Proof. stays_or_tac idle. Qed.

Lemma on_exit_state (km : KernelManager) :
  state (snd (on_exit km)) = state km \/ state (snd (on_exit km)) = dead.
Proof. stays_or_tac dead. Qed.

Lemma on_error_state (err : JsError) (km : KernelManager) :
  state (snd (on_error err km)) = state km \/ state (snd (on_error err km)) = dead.
Proof. stays_or_tac dead. Qed.

Lemma silent_state {A : Type} (m : M A) (km : KernelManager) :
  keeps (stays_or (state km) (state km)) m km -> state (snd (m km)) = state km.
Proof. intros H. destruct (H (or_introl eq_refl)) as [E | E]; exact E. Qed.

Lemma listener_catch_state (err : JsError) (km : KernelManager) :
  state (snd (listener_catch err km)) = state km.
Proof. apply silent_state. keeps_walk stays_leaf. Qed.

Lemma execute_state (code uuid date : string) (km : KernelManager) :
  state (snd (execute code uuid date km)) = state km.
Proof. apply silent_state. keeps_walk stays_leaf. Qed.

Lemma execute_reply_received_state (reply : list Buffer) (km : KernelManager) :
  state (snd (execute_reply_received reply km)) = state km.
Proof. apply silent_state. keeps_walk stays_leaf. Qed.

Lemma interrupt_state (uuid date : string) (km : KernelManager) :
  state (snd (interrupt uuid date km)) = state km.
Proof. apply silent_state. keeps_walk stays_leaf. Qed.

Lemma cleanup_resume_state (km : KernelManager) :
  state (snd (cleanup_resume km)) = state km.
Proof. apply silent_state. keeps_walk stays_leaf. Qed.

Lemma start_connect_state (info : ConnectionInfo.t) (session : string) (now : Z)
    (km : KernelManager) :
  state (snd (start_connect info session now km)) = state km.
Proof. apply silent_state. keeps_walk stays_leaf. Qed.

Lemma start_listen_state (uuid date : string) (km : KernelManager) :
  state (snd (start_listen uuid date km)) = state km
  \/ state (snd (start_listen uuid date km)) = idle.
Proof. stays_or_tac idle. Qed.

Lemma keeps_follows_setState (s0 : KernelState) (msg : JupyterMessage)
    (km : KernelManager) (v : jsval) (x : KernelState) (lit : string) :
  isStatus msg = Normal true ->
  js_get (Some (content msg)) "execution_state" = Normal v ->
  strict_eq_str v lit = true ->
  (lit = "busy" /\ x = busy) \/ (lit = "idle" /\ x = idle) ->
  keeps (stays_or_follows s0 msg) (setState x) km.
Proof.
  intros Hstatus Hget Heq Hcase.
  assert (Hs : status_of msg = Some lit).
  { unfold status_of. rewrite Hstatus, Hget.
    rewrite (strict_eq_str_true v lit Heq). reflexivity. }
  unfold keeps. rewrite setState_spec. simpl snd.
  destruct (KernelState_eqb (state km) x); intros H.
  - exact H.
  - right. destruct Hcase as [[-> ->] | [-> ->]].
    + left. split; [exact Hs | reflexivity].
    + right. split; [exact Hs | reflexivity].
Qed.

Ltac follows_leaf :=
  idtac;
  first [ unfold emit, log; apply keeps_modify; exact (fun H => H)
        | eapply keeps_follows_setState;
          [ eassumption | eassumption | eassumption
          | first [ left; split; reflexivity | right; split; reflexivity ] ] ].

(** [handleIopubMessage] changes the state only to follow a status message. *)
Lemma handleIopubMessage_state (msg : JupyterMessage) (km : KernelManager) :
  stays_or_follows (state km) msg (snd (handleIopubMessage msg km)).
Proof.
  apply (fun H : keeps (stays_or_follows (state km) msg) (handleIopubMessage msg) km =>
           H (or_introl eq_refl)).
  keeps_walk follows_leaf.
Qed.

Lemma status_of_spec (msg : JupyterMessage) (s : string) :
  status_of msg = Some s ->
  isStatus msg = Normal true
  /\ js_get (Some (content msg)) "execution_state" = Normal (Some (JStr s)).
Proof.
  unfold status_of.
  destruct (isStatus msg) as [[|]|]; try discriminate.
  destruct (js_get (Some (content msg)) "execution_state") as [[[ | | | s' | | ]|]|];
    try discriminate.
  intros E. injection E as ->. split; reflexivity.
Qed.

(** One turn of the listener changes the state only to follow a status
    broadcast. *)
Lemma listener_frames_state (frames : list Buffer) (km : KernelManager) :
  state (snd (listener_frames frames km)) = state km
  \/ (state (snd (listener_frames frames km)) = busy
      /\ status_broadcast km frames "busy")
  \/ (state (snd (listener_frames frames km)) = idle
      /\ status_broadcast km frames "idle").
Proof.
  unfold listener_frames, try_catch, bind. rewrite the_protocol_spec.
  destruct (protocol km) as [p|] eqn:Hp.
  2:{ left. apply listener_catch_state. }
  destruct (parseMessage p frames) as [warnings parsed] eqn:Hparse.
  unfold modify, lift.
  destruct parsed as [[m|]|e]; cbn [snd].
  - set (km1 := set_trace (trace km ++ map ConsoleWarn warnings) km).
    assert (Hbroadcast : forall s, status_of m = Some s -> status_broadcast km frames s).
    { intros s Hs. apply status_of_spec in Hs. destruct Hs as [H1 H2].
      exists p, m. rewrite Hparse. repeat split; assumption. }
    pose proof (handleIopubMessage_state m km1) as Hm.
    change (state km1) with (state km) in Hm.
    destruct (handleIopubMessage m km1) as [[[]|e] km2]; simpl in *.
    + destruct Hm as [E | [[Hs E] | [Hs E]]]; auto.
    + rewrite listener_catch_state.
      destruct Hm as [E | [[Hs E] | [Hs E]]]; auto.
  - left. reflexivity.
  - left. rewrite listener_catch_state. reflexivity.
Qed.

Lemma setState_untouched (s : KernelState) (km : KernelManager) :
  heap (snd (setState s km)) = heap km
  /\ pendingExecutions (snd (setState s km)) = pendingExecutions km
  /\ protocol (snd (setState s km)) = protocol km.
Proof.
  rewrite setState_spec. simpl snd.
  destruct (KernelState_eqb (state km) s); repeat split; reflexivity.
Qed.

Lemma setState_state (s : KernelState) (km : KernelManager) :
  state (snd (setState s km)) = s.
Proof.
  rewrite setState_spec. simpl snd.
  destruct (KernelState_eqb (state km) s) eqn:E; [|reflexivity].
  apply KernelState_eqb_eq. exact E.
Qed.

(** [handleIopubMessage] on a status message. *)
Lemma handleIopubMessage_status (msg : JupyterMessage) (km : KernelManager)
    (p : JupyterProtocol) (k v : jsval) :
  protocol km = Some p ->
  isStatus msg = Normal true ->
  js_get (Some (parent_header msg)) "msg_id" = Normal k ->
  js_get (Some (content msg)) "execution_state" = Normal v ->
  handleIopubMessage msg km
  = (Normal tt,
     if strict_eq_str v "busy" then snd (setState busy km)
     else if strict_eq_str v "idle" then
       let km1 := snd (setState idle km) in
       if truthy k && Map_has k (pendingExecutions km1)
       then match Map_get k (pendingExecutions km1) with
            | Some r =>
                set_pendingExecutions (Map_delete k (pendingExecutions km1))
                  (set_heap (resolve r (heap km1)) km1)
            | None => km1
            end
       else km1
     else km).
Proof.
  intros Hp Hstatus Hparent Hv.
  unfold handleIopubMessage, bind, lift.
  rewrite Hparent, the_protocol_spec, Hp, Hstatus, Hv.
  destruct (strict_eq_str v "busy").
  - rewrite setState_spec. reflexivity.
  - destruct (strict_eq_str v "idle"); [|reflexivity].
    rewrite setState_spec. cbn [snd this].
    destruct (truthy k && Map_has k _); [|reflexivity].
    destruct (Map_get k _); reflexivity.
Qed.

Lemma set_trace_same (km : KernelManager) : set_trace (trace km) km = km.
Proof. destruct km; reflexivity. Qed.

(** [execute] resumed with a shell reply that [parseMessage] does not throw
    on: the warning apart, nothing changes. *)
Lemma execute_reply_received_spec (km : KernelManager) (p : JupyterProtocol)
    (reply : list Buffer) (parsed : option JupyterMessage) :
  protocol km = Some p ->
  snd (parseMessage p reply) = Normal parsed ->
  execute_reply_received reply km
  = (Normal tt,
     set_trace (trace km ++ map ConsoleWarn (fst (parseMessage p reply))) km).
Proof.
  intros Hp Hparse. unfold execute_reply_received, bind, lift.
  rewrite the_protocol_spec, Hp.
  destruct (parseMessage p reply) as [warnings parsed'].
  cbn [fst snd] in *. subst parsed'. reflexivity.
Qed.

(** ** What each event leaves *)

Lemma shutdown_sets_state (km : KernelManager) : state (snd (shutdown km)) = dead.
Proof.
  destruct km as [proc proto file info sh io ctl st cnt py pend hp lis tr].
  cbv [shutdown cleanup cleanup_rest setState bind this emit log modify ret
    state shellSocket iopubSocket controlSocket process connectionFile trace
    connectionInfo protocol pendingExecutions heap listening executionCount pythonPath
    set_state set_trace set_shellSocket set_iopubSocket set_controlSocket set_process
    set_connectionFile set_connectionInfo set_protocol set_pendingExecutions
    KernelState_eqb negb snd fst Map_clear].
  destruct st, sh, io, ctl, proc, file as [f|]; cbv beta iota;
    try destruct (String.eqb f ""); reflexivity.
Qed.

Lemma on_exit_sets_state (km : KernelManager) : state (snd (on_exit km)) = dead.
Proof.
  destruct km as [proc proto file info sh io ctl st cnt py pend hp lis tr].
  cbv [on_exit cleanup cleanup_rest setState bind this emit log modify ret
    state shellSocket iopubSocket controlSocket process connectionFile trace
    connectionInfo protocol pendingExecutions heap listening executionCount pythonPath
    set_state set_trace set_shellSocket set_iopubSocket set_controlSocket set_process
    set_connectionFile set_connectionInfo set_protocol set_pendingExecutions
    KernelState_eqb negb snd fst Map_clear].
  destruct st, file as [f|]; cbv beta iota;
    try destruct (String.eqb f ""); reflexivity.
Qed.

Lemma on_error_sets_state (err : JsError) (km : KernelManager) :
  state (snd (on_error err km)) = dead.
Proof.
  pose proof (setState_state dead km) as H.
  unfold on_error, bind, emit, log, modify. rewrite setState_spec in *.
  cbn [fst snd] in *. cbn beta iota. cbn [state set_trace snd]. exact H.
Qed.

Lemma start_spawn_sets_state (file : string) (child : ChildProcess)
    (km : KernelManager) :
  state (snd (start_spawn file child km)) = starting.
Proof.
  pose proof (setState_state starting km) as H.
  unfold start_spawn, bind, this, log, modify. rewrite setState_spec in *.
  cbn [fst snd] in *. cbn beta iota.
  cbn [state set_trace set_connectionFile set_process snd]. exact H.
Qed.

Lemma start_listen_sets_state (uuid date : string) (km : KernelManager) :
  shellSocket km = None \/ protocol km = None ->
  state (snd (start_listen uuid date km)) = idle.
Proof.
  intros Hno. destruct km as [proc proto file info sh io ctl st cnt py pend hp lis tr].
  cbn [shellSocket protocol] in Hno.
  unfold start_listen, startIopubListener, requestKernelInfo, bind, this, modify, ret.
  cbn [iopubSocket protocol shellSocket].
  destruct Hno as [-> | ->]; destruct io; try destruct proto; try destruct sh;
    cbn [set_listening iopubSocket protocol shellSocket]; cbn beta iota;
    apply setState_state.
Qed.

(** [isKernelInfoReply] throws on a message whose header is [null], and on
    no other. *)
Lemma isKernelInfoReply_header (m : JupyterMessage) :
  (header m = JNull
   /\ isKernelInfoReply m = Throw (TypeError "Cannot read properties of null"))
  \/ (header m <> JNull /\ exists b, isKernelInfoReply m = Normal b).
Proof.
  unfold isKernelInfoReply, msg_type_is, js_get.
  destruct (header m); cbn [cbind];
    try (right; split; [discriminate | eexists; reflexivity]).
  left. split; reflexivity.
Qed.

(** [start()] resumed with the reply, case by case. *)
Lemma start_handshake_spec (reply : list Buffer) (km : KernelManager)
    (p : JupyterProtocol) :
  protocol km = Some p ->
  start_handshake reply km
  = let km1 := set_trace (trace km ++ map ConsoleWarn (fst (parseMessage p reply))) km in
    match snd (parseMessage p reply) with
    | Throw e => (Throw e, km1)
    | Normal None => setState idle km1
    | Normal (Some m) =>
        match isKernelInfoReply m with
        | Throw e => (Throw e, km1)
        | Normal true =>
            setState idle
              (set_trace (trace km1 ++ [Emit (ev_kernelInfo (content m))]) km1)
        | Normal false => setState idle km1
        end
    end.
Proof.
  intros Hp. unfold start_handshake, bind, lift. rewrite the_protocol_spec, Hp.
  destruct (parseMessage p reply) as [warnings parsed]. cbn [fst snd].
  unfold modify. cbn beta iota zeta.
  destruct parsed as [[m|]|e]; [|reflexivity|reflexivity].
  destruct (isKernelInfoReply m) as [[|]|e]; reflexivity.
Qed.

Lemma start_handshake_sets_state (reply : list Buffer) (km : KernelManager) :
  fst (start_handshake reply km) = Normal tt ->
  state (snd (start_handshake reply km)) = idle.
Proof.
  destruct (protocol km) as [p|] eqn:Hp.
  - rewrite (start_handshake_spec reply km p Hp). cbv zeta.
    destruct (snd (parseMessage p reply)) as [[m|]|e];
      [destruct (isKernelInfoReply m) as [[|]|e]| |]; intros H;
      try discriminate H; apply setState_state.
  - unfold start_handshake, bind. rewrite the_protocol_spec, Hp.
    intros H. discriminate H.
Qed.

Lemma listener_frames_sets_state (frames : list Buffer) (km : KernelManager)
    (p : JupyterProtocol) (msg : JupyterMessage) (k : jsval) (s : string)
    (new : KernelState) :
  protocol km = Some p ->
  snd (parseMessage p frames) = Normal (Some msg) ->
  js_get (Some (parent_header msg)) "msg_id" = Normal k ->
  status_of msg = Some s ->
  (s = "busy" /\ new = busy) \/ (s = "idle" /\ new = idle) ->
  state (snd (listener_frames frames km)) = new.
Proof.
  intros Hp Hparse Hparent Hs Hcase.
  apply status_of_spec in Hs. destruct Hs as [Hstatus Hv].
  unfold listener_frames, try_catch, bind. rewrite the_protocol_spec, Hp.
  destruct (parseMessage p frames) as [warnings parsed].
  cbn [snd] in Hparse. subst parsed.
  unfold modify, lift. cbn beta iota.
  set (km1 := set_trace (trace km ++ map ConsoleWarn warnings) km).
  assert (Hp1 : protocol km1 = Some p) by exact Hp.
  rewrite (handleIopubMessage_status msg km1 p k _ Hp1 Hstatus Hparent Hv).
  cbn [snd].
  destruct Hcase as [[-> ->] | [-> ->]];
    cbn [strict_eq_str String.eqb Ascii.eqb Bool.eqb].
  - apply setState_state.
  - cbv zeta.
    destruct (truthy k && Map_has k (pendingExecutions (snd (setState idle km1))));
      [destruct (Map_get k (pendingExecutions (snd (setState idle km1))))|];
      cbn [state set_pendingExecutions set_heap]; apply setState_state.
Qed.

(** C3, as the code has it.  Each event leaves the state it names:
    [start()] leaves [starting] (with a process running it first shuts down,
    which leaves [dead]); the exit and the error of the process and
    [shutdown()] leave [dead]; and, on a manager that is not [dead],
    [start()] completing leaves [idle], a busy broadcast read by the listener
    leaves [busy] and an idle one [idle], whatever state they find.  On a
    manager that is not [dead] the state changes by these events only, and
    an event that is none of them changes the state in no case. *)
Theorem state_changes_by_event (a : Action) (km : KernelManager) :
  (forall new, sets_state a km new -> state (step a km) = new)
  /\ (state km <> dead ->
      state (step a km) <> state km -> edge a km (state (step a km)))
  /\ ((forall new, ~ edge a km new) -> state (step a km) = state km).
Proof.
  assert (Honly : state (step a km) <> state km -> edge a km (state (step a km))).
  { destruct a; unfold step, exec, edge; intros Hne.
  - unfold start, bind, this in *. simpl in *.
    destruct (process km) as [proc|].
    + destruct (shutdown km) as [[b|e] km'] eqn:E; simpl in *;
        pose proof (shutdown_state km) as Hs; rewrite E in Hs; simpl in Hs;
        destruct Hs as [Hs | Hs]; [contradiction | exact Hs | contradiction | exact Hs].
    + destruct (start_spawn_state file child km) as [Hs | Hs];
        [contradiction | exact Hs].
  - destruct (start_spawn_state file child km) as [Hs | Hs]; [contradiction | exact Hs].
  - apply Hne. apply start_connect_state.
  - destruct (start_listen_state uuid date km) as [Hs | Hs]; [contradiction | exact Hs].
  - destruct (start_handshake_state reply km) as [Hs | Hs]; [contradiction | exact Hs].
  - destruct (on_exit_state km) as [Hs | Hs]; [contradiction | exact Hs].
  - destruct (on_error_state err km) as [Hs | Hs]; [contradiction | exact Hs].
  - destruct (listening km); [|contradiction Hne; reflexivity].
    split; [reflexivity|].
    destruct (listener_frames_state frames km) as [Hs | [[Hs Hb] | [Hs Hb]]].
    + contradiction.
    + left. split; assumption.
    + right. split; assumption.
  - apply Hne. destruct (listening km); [apply listener_catch_state | reflexivity].
  - apply Hne. apply execute_state.
  - apply Hne. apply execute_reply_received_state.
  - apply Hne. apply interrupt_state.
  - destruct (shutdown_state km) as [Hs | Hs]; [contradiction | exact Hs].
  - apply Hne. apply cleanup_resume_state. }
  split; [|split].
  - intros new Hsets. destruct a; unfold step, exec; cbn [sets_state] in Hsets;
      try contradiction.
    + unfold start, bind, this.
      destruct (process km) as [proc|]; subst new.
      * pose proof (shutdown_sets_state km) as Hs.
        destruct (shutdown km) as [[b|e] km']; exact Hs.
      * apply start_spawn_sets_state.
    + subst new. apply start_spawn_sets_state.
    + destruct Hsets as (_ & -> & Hno). apply start_listen_sets_state. exact Hno.
    + destruct Hsets as (_ & -> & Hdone). apply start_handshake_sets_state. exact Hdone.
    + subst new. apply on_exit_sets_state.
    + subst new. apply on_error_sets_state.
    + destruct Hsets as (_ & Hl & p & msg & k & Hp & Hparse & Hparent & Hcase).
      rewrite Hl.
      destruct Hcase as [[-> Hs] | [-> Hs]].
      * apply (listener_frames_sets_state frames km p msg k "busy" busy); auto.
      * apply (listener_frames_sets_state frames km p msg k "idle" idle); auto.
    + subst new. apply shutdown_sets_state.
  - intros _. exact Honly.
  - intros Hnone.
    destruct (KernelState_eqb (state (step a km)) (state km)) eqn:E.
    + apply KernelState_eqb_eq. exact E.
    + exfalso. apply (Hnone (state (step a km))). apply Honly.
      intros Heq. apply KernelState_eqb_eq in Heq. rewrite Heq in E. discriminate E.
Qed.

End StateTransitions.

(** C3 as stated fails: while [start()] waits for the kernel-info reply the
    listener is already running, and a busy broadcast takes the state from
    [starting] to [busy]. *)
Lemma busy_entered_from_starting :
  state Scenario.starting_session = starting
  /\ listening Scenario.starting_session = true
  /\ state (@step reference_platform
              (Iopub_frames (Scenario.status_frames "k1" "u1" "busy"))
              Scenario.starting_session) = busy.
Proof. split; [|split]; vm_compute; reflexivity. Qed.

(** Left out of C3 as corrected: the handler of the process error, unlike
    the exit handler with its [cleanup()] and [shutdown()], leaves the
    sockets, the codec and the listener in place, so a broadcast that still
    comes is handled and takes the state out of [dead]. *)
Example broadcast_after_process_error :
  state (@run reference_platform
           [ Process_error (Error "kill EPERM") ] Scenario.started) = dead
  /\ listening (@run reference_platform
                  [ Process_error (Error "kill EPERM") ] Scenario.started) = true
  /\ state (@run reference_platform
              [ Process_error (Error "kill EPERM");
                Iopub_frames (Scenario.status_frames "k1" "u1" "busy") ]
              Scenario.started) = busy
  /\ state (@run reference_platform
              [ Process_exit; Cleanup_resume;
                Iopub_frames (Scenario.status_frames "k1" "u1" "busy") ]
              Scenario.started) = dead.
Proof. split; [|split; [|split]]; vm_compute; reflexivity. Qed.

(** The busy broadcast during the handshake: it is among the events that
    set the state, it leaves [busy], and it is an edge of the code. *)
Lemma state_changes_by_event_witness :
  state (@step reference_platform
           (Iopub_frames (Scenario.status_frames "k1" "u1" "busy"))
           Scenario.starting_session) = busy
  /\ @edge reference_platform
       (Iopub_frames (Scenario.status_frames "k1" "u1" "busy"))
       Scenario.starting_session busy.
Proof.
  pose proof (@state_changes_by_event reference_platform
                (Iopub_frames (Scenario.status_frames "k1" "u1" "busy"))
                Scenario.starting_session) as (Hsets & Honly & _).
  assert (Hbusy : state (@step reference_platform
                           (Iopub_frames (Scenario.status_frames "k1" "u1" "busy"))
                           Scenario.starting_session) = busy).
  { apply Hsets. cbn [sets_state].
    split; [vm_compute; intros E; discriminate E|].
    split; [vm_compute; reflexivity|].
    eexists _, _, _.
    split; [vm_compute; reflexivity|].
    split; [vm_compute; reflexivity|].
    split; [vm_compute; reflexivity|].
    left. split; [reflexivity | vm_compute; reflexivity]. }
  split; [exact Hbusy|].
  rewrite <- Hbusy. apply Honly; vm_compute; intros E; discriminate E.
Defined.

(** The other events that set the state, on the same session: the end of the
    handshake, the exit of the process, [shutdown()], and [start()] on a
    manager that was shut down. *)
Example events_set_state :
  @sets_state reference_platform
    (Start_handshake Scenario.kernel_info_reply_frames) Scenario.starting_session idle
  /\ state Scenario.started = idle
  /\ @sets_state reference_platform Process_exit Scenario.executing dead
  /\ state (@step reference_platform Process_exit Scenario.executing) = dead
  /\ state Scenario.shut_down = dead
  /\ @sets_state reference_platform
       (Start "/tmp/kernel-2.json" Scenario.child) Scenario.shut_down starting
  /\ state (@run reference_platform
              [ Start "/tmp/kernel-2.json" Scenario.child ] Scenario.shut_down)
     = starting.
Proof.
  split; [|split; [|split; [|split; [|split; [|split]]]]].
  - cbn [sets_state]. split; [vm_compute; intros E; discriminate E|].
    split; [reflexivity | vm_compute; reflexivity].
  - vm_compute; reflexivity.
  - reflexivity.
  - vm_compute; reflexivity.
  - vm_compute; reflexivity.
  - vm_compute; reflexivity.
  - vm_compute; reflexivity.
Qed.

(** ** Display messages (C4) *)

Section DisplayMessages.
Context {P : Platform}.

Lemma assoc_map_JStr (k : string) (data : list (string * string)) :
  assoc k (map (fun kv => (fst kv, JStr (snd kv))) data)
  = option_map JStr (assoc k data).
Proof.
  induction data as [|[k' v] data IH]; simpl.
  - reflexivity.
  - destruct (String.eqb k k'); [reflexivity | exact IH].
Qed.

Lemma truthy_JStr (o : option string) :
  truthy (option_map JStr o)
  = match o with Some text => negb (String.eqb text "") | None => false end.
Proof. destruct o; reflexivity. Qed.

(** [emitOutput] publishes exactly one ['output'] event; besides, it may
    append the output to the array of a pending execution. *)
Lemma emitOutput_spec (parentMsgId : jsval) (o : KernelOutput.t) (km : KernelManager) :
  exists h, emitOutput parentMsgId o km
            = (Normal tt, set_trace (trace km ++ [Emit (ev_output o parentMsgId)])
                            (set_heap h km)).
Proof.
  unfold emitOutput, bind, this, emit, log, modify, ret.
  destruct (truthy parentMsgId && Map_has parentMsgId (pendingExecutions km)).
  - destruct (Map_get parentMsgId (pendingExecutions km)); simpl.
    + eexists. reflexivity.
    + exists (heap km). destruct km; reflexivity.
  - exists (heap km). destruct km; reflexivity.
Qed.

(** C4, as the code has it: for a [display_data] or [execute_result]
    message the handler goes through image/png, image/jpeg, text/html,
    application/json, text/plain in this order and emits exactly one output,
    for the first representation whose text is not empty, whatever the others
    are: a [display] output with the MIME type for the first four (for
    application/json, when the text parses, the text printed again with an
    indent of two), a [result] output for text/plain. *)
Theorem display_emits_first_available (msg : JupyterMessage) (km : KernelManager)
    (p : JupyterProtocol) (ty : string) (parentMsgId : jsval)
    (data : list (string * string)) (mime text pretty : string) :
  protocol km = Some p ->
  js_get (Some (header msg)) "msg_type" = Normal (Some (JStr ty)) ->
  ty = "display_data" \/ ty = "execute_result" ->
  js_get (Some (parent_header msg)) "msg_id" = Normal parentMsgId ->
  js_get (Some (content msg)) "data" = Normal (Some (Record_string data)) ->
  first_available data = Some mime ->
  assoc mime data = Some text ->
  (mime = "application/json" ->
   exists parsed, JSON_parse text = Some parsed /\ pretty = JSON_stringify_indent2 parsed) ->
  handleIopubMessage msg km = emitOutput parentMsgId (output_for mime text pretty) km
  /\ trace (snd (handleIopubMessage msg km))
     = (trace km ++ [Emit (ev_output (output_for mime text pretty) parentMsgId)])%list.
Proof.
  intros Hp Hty Hkind Hparent Hdata Hfirst Htext Hjson.
  assert (Hstatus : isStatus msg = Normal false).
  { unfold isStatus, msg_type_is. rewrite Hty. destruct Hkind; subst ty; reflexivity. }
  assert (Hstream : isStream msg = Normal false).
  { unfold isStream, msg_type_is. rewrite Hty. destruct Hkind; subst ty; reflexivity. }
  assert (Hdisplay : isDisplayData msg = Normal true).
  { unfold isDisplayData, msg_type_is. rewrite Hty. destruct Hkind; subst ty; reflexivity. }
  assert (Hhandle : handleIopubMessage msg km
                    = emitOutput parentMsgId (output_for mime text pretty) km).
  { unfold handleIopubMessage, bind, lift.
    rewrite Hparent, the_protocol_spec, Hp, Hstatus, Hstream, Hdisplay.
    rewrite Hdata. cbn [js_get Record_string].
    repeat (rewrite the_protocol_spec, Hp; cbn iota beta).
    rewrite !assoc_map_JStr, !truthy_JStr.
    unfold first_available, priority in Hfirst. cbn [find] in Hfirst.
    unfold available in Hfirst.
    repeat match type of Hfirst with
    | context [assoc ?k data] =>
        let t := fresh "t" in let E := fresh "E" in
        destruct (assoc k data) as [t|] eqn:E; cbn [option_map];
        [ let N := fresh "N" in destruct (String.eqb t "") eqn:N; cbn [negb] in * | ]
    end.
    all: try (injection Hfirst as <-).
    all: try discriminate Hfirst.
    all: match goal with
         | E' : assoc _ _ = Some _ |- _ => rewrite Htext in E'; injection E' as ->
         end.
    all: try (destruct (Hjson eq_refl) as (parsed & Hparse & ->);
              cbn [js_ToString]; rewrite Hparse).
    all: reflexivity. }
  split; [exact Hhandle|].
  rewrite Hhandle.
  destruct (emitOutput_spec parentMsgId (output_for mime text pretty) km) as [h Hh].
  rewrite Hh. reflexivity.
Qed.

End DisplayMessages.

(** A figure with a picture and a caption: the picture is the output. *)
Lemma display_emits_first_available_witness :
  @handleIopubMessage reference_platform (Scenario.display_message Scenario.figure)
    Scenario.executing
  = emitOutput (Some (JStr "u2"))
      (mkOutput KernelOutput.display (Some (JStr "iVBORw0KGgo=")) (Some "image/png"))
      Scenario.executing
  /\ trace (snd (@handleIopubMessage reference_platform
                   (Scenario.display_message Scenario.figure) Scenario.executing))
     = (trace Scenario.executing
        ++ [Emit (ev_output
                    (mkOutput KernelOutput.display (Some (JStr "iVBORw0KGgo="))
                       (Some "image/png"))
                    (Some (JStr "u2")))])%list.
Proof.
  apply (@display_emits_first_available reference_platform
           (Scenario.display_message Scenario.figure) Scenario.executing
           (new_JupyterProtocol "session-1" "secret") "display_data" (Some (JStr "u2"))
           Scenario.figure "image/png" "iVBORw0KGgo=" "").
  - vm_compute; reflexivity.
  - vm_compute; reflexivity.
  - left; reflexivity.
  - vm_compute; reflexivity.
  - vm_compute; reflexivity.
  - vm_compute; reflexivity.
  - vm_compute; reflexivity.
  - intros H; discriminate H.
Defined.

(** C4 as stated fails: a message that contains both image/png and
    text/plain, the picture being the empty string, yields the [result]
    output of the text, not a [display] output of the picture. *)
Lemma display_empty_png_yields_text :
  assoc "image/png" Scenario.figure_without_picture = Some ""
  /\ assoc "text/plain" Scenario.figure_without_picture = Some "<Figure size 640x480>"
  /\ trace (snd (@handleIopubMessage reference_platform
                   (Scenario.display_message Scenario.figure_without_picture)
                   Scenario.executing))
     = (trace Scenario.executing
        ++ [Emit (ev_output
                    (mkOutput KernelOutput.result
                       (Some (JStr "<Figure size 640x480>")) None)
                    (Some (JStr "u2")))])%list.
Proof. split; [|split]; vm_compute; reflexivity. Qed.

(** An application/json representation that does not parse: the handler
    throws, no output is emitted, and the listener stops. *)
Example display_broken_json_throws :
  fst (@handleIopubMessage reference_platform
         (Scenario.display_message Scenario.broken_json) Scenario.executing)
  = Throw (SyntaxError "Unexpected token in JSON")
  /\ trace (snd (@handleIopubMessage reference_platform
                   (Scenario.display_message Scenario.broken_json) Scenario.executing))
     = trace Scenario.executing
  /\ listening (@step reference_platform
                  (Iopub_frames (@serializeMessage reference_platform Scenario.kernel
                                   (Scenario.display_message Scenario.broken_json)))
                  Scenario.executing) = false.
Proof. split; [|split]; vm_compute; reflexivity. Qed.

(** ** The execution counter (C5) *)

Section ExecutionCounter.
Context {P : Platform}.

(** C5: the reply that [execute] receives on the shell channel is parsed and
    dropped: neither the call nor the arrival of the reply changes
    [executionCount], whatever the reply says. *)
Theorem shell_reply_leaves_executionCount (km : KernelManager)
    (code uuid date : string) (reply : list Buffer) :
  executionCount (step (Execute code uuid date) km) = executionCount km
  /\ executionCount (step (Execute_reply reply) km) = executionCount km.
Proof.
  split; unfold step, exec.
  - unfold execute, bind, this.
    destruct (shellSocket km); [|reflexivity].
    destruct (protocol km); reflexivity.
  - unfold execute_reply_received, bind. rewrite the_protocol_spec.
    destruct (protocol km) as [p|]; [|reflexivity].
    destruct (parseMessage p reply) as [warnings [parsed|e]]; reflexivity.
Qed.

(** Of all the events, only a message read by the iopub listener can change
    the counter. *)
Lemma executionCount_changes_only_by_listener (a : Action) (km : KernelManager) :
  executionCount (step a km) <> executionCount km ->
  exists frames, a = Iopub_frames frames.
Proof.
  intros Hne.
  destruct a; try (eexists; reflexivity); exfalso; apply Hne; unfold step, exec;
    try match goal with |- context [if listening km then _ else _] =>
          destruct (listening km); [|reflexivity] end;
    match goal with
    | |- executionCount (snd (?m km)) = _ =>
        apply (fun H : keeps (fun k => executionCount k = executionCount km) m km =>
                 H eq_refl)
    end;
    keeps_walk untouched_leaf.
Qed.

End ExecutionCounter.

(** The failing input of C5: [execute("1+1")] and a shell reply with
    [execution_count] 1 leave the counter at 0; the same frames read by the
    iopub listener would have set it to 1. *)
Example executionCount_after_execute :
  executionCount Scenario.started = JNum 0
  /\ executionCount Scenario.executing = JNum 0
  /\ executionCount (@step reference_platform
                       (Iopub_frames (Scenario.execute_reply_frames 1))
                       Scenario.started) = JNum 1.
Proof. split; [|split]; vm_compute; reflexivity. Qed.

(** ** Calls without a session (C8) *)

Section NoSession.
Context {P : Platform}.

(** C8, as the code has it: without a shell socket or without a codec,
    [execute] throws [Error('Kernel not started')] and changes nothing;
    without a process, [interrupt] returns normally and does nothing. *)
Theorem calls_without_session (km : KernelManager) (code uuid date : string) :
  (shellSocket km = None \/ protocol km = None ->
   execute code uuid date km = (Throw (Error "Kernel not started"), km))
  /\ (process km = None -> interrupt uuid date km = (Normal tt, km)).
Proof.
  split.
  - intros [H | H]; unfold execute, bind, this; rewrite H.
    + reflexivity.
    + destruct (shellSocket km); reflexivity.
  - intros H. unfold interrupt, bind, this. rewrite H. reflexivity.
Qed.

End NoSession.

(** Both calls on a manager that was never started. *)
Lemma calls_without_session_witness :
  @execute reference_platform "1+1" "u2" "2024-01-01T00:00:01.000Z"
    (new_KernelManager "python3")
  = (Throw (Error "Kernel not started"), new_KernelManager "python3")
  /\ @interrupt reference_platform "u3" "2024-01-01T00:00:02.000Z"
       (new_KernelManager "python3")
     = (Normal tt, new_KernelManager "python3").
Proof.
  split.
  - apply (proj1 (@calls_without_session reference_platform
                    (new_KernelManager "python3") "1+1" "u2" "2024-01-01T00:00:01.000Z")).
    left. reflexivity.
  - apply (proj2 (@calls_without_session reference_platform
                    (new_KernelManager "python3") "1+1" "u3" "2024-01-01T00:00:02.000Z")).
    reflexivity.
Defined.

(** C8 as stated fails for [interrupt]: on a manager that was never
    started, and on one that has been shut down, it returns normally, with no
    error and no effect. *)
Lemma interrupt_without_session_succeeds :
  fst (@interrupt reference_platform "u3" "2024-01-01T00:00:02.000Z"
         (new_KernelManager "python3")) = Normal tt
  /\ process Scenario.shut_down = None
  /\ @interrupt reference_platform "u3" "2024-01-01T00:00:02.000Z" Scenario.shut_down
     = (Normal tt, Scenario.shut_down).
Proof. split; [|split]; vm_compute; reflexivity. Qed.

(** ** Shutdown during an execution (C1) *)

Section ShutdownDuringExecute.
Context {P : Platform}.

Lemma nth_error_update_at {A : Type} (n m : nat) (f : A -> A) (l : list A) :
  nth_error (update_at n f l) m
  = if Nat.eqb n m then option_map f (nth_error l m) else nth_error l m.
Proof.
  revert n m. induction l as [|x l IH]; intros n m.
  - destruct n, m; simpl; try reflexivity; destruct (Nat.eqb n m); reflexivity.
  - destruct n as [|n], m as [|m]; simpl; try reflexivity. apply IH.
Qed.

Lemma Map_get_In {V : Type} (k : jsval) (m : JsMap V) (v : V) :
  Map_get k m = Some v -> In v (map snd m).
Proof.
  induction m as [|[k' v'] m IH]; simpl; intros H.
  - discriminate H.
  - destruct (sameValueZero k k').
    + injection H as ->. left. reflexivity.
    + right. apply IH. exact H.
Qed.

Lemma Map_delete_values {V : Type} (k : jsval) (m : JsMap V) (v : V) :
  In v (map snd (Map_delete k m)) -> In v (map snd m).
Proof.
  induction m as [|[k' v'] m IH]; simpl; intros H.
  - exact H.
  - destruct (sameValueZero k k').
    + right. exact H.
    + destruct H as [H | H]; [left; exact H | right; apply IH; exact H].
Qed.

Lemma Map_set_values {V : Type} (k : jsval) (x : V) (m : JsMap V) (v : V) :
  In v (map snd (Map_set k x m)) -> v = x \/ In v (map snd m).
Proof.
  induction m as [|[k' v'] m IH]; simpl; intros H.
  - destruct H as [H | []]. left. symmetry. exact H.
  - destruct (sameValueZero k k'); simpl in H.
    + destruct H as [H | H]; [left; symmetry; exact H | right; right; exact H].
    + destruct H as [H | H]; [right; left; exact H |].
      destruct (IH H) as [E | Hin]; [left; exact E | right; right; exact Hin].
Qed.

Lemma keeps_orphaned_setState (r : nat) (s : KernelState) (km : KernelManager) :
  keeps (orphaned r) (setState s) km.
Proof.
  unfold keeps. rewrite setState_spec. simpl snd.
  destruct (KernelState_eqb (state km) s); intros H; exact H.
Qed.

Lemma keeps_orphaned_push (r n : nat) (o : KernelOutput.t) (km : KernelManager) :
  keeps (orphaned r) (modify (fun km => set_heap (push_output n o (heap km)) km)) km.
Proof.
  unfold keeps, modify, orphaned. simpl. intros [(e & He & Hres) Hout].
  split; [|exact Hout].
  unfold push_output. rewrite nth_error_update_at, He.
  destruct (Nat.eqb n r); simpl; eexists; (split; [reflexivity|]); exact Hres.
Qed.

Lemma keeps_orphaned_resolve (r n : nat) (k : jsval) (km : KernelManager) :
  Map_get k (pendingExecutions km) = Some n ->
  keeps (orphaned r) (modify (fun km => set_heap (resolve n (heap km)) km)) km.
Proof.
  intros Hget. unfold keeps, modify, orphaned. simpl. intros [(e & He & Hres) Hout].
  split; [|exact Hout].
  unfold resolve. rewrite nth_error_update_at.
  destruct (Nat.eqb_spec n r) as [-> | _].
  - exfalso. apply Hout. apply (Map_get_In k _ _ Hget).
  - exists e. split; assumption.
Qed.

Lemma keeps_orphaned_delete (r : nat) (k : jsval) (km : KernelManager) :
  keeps (orphaned r)
    (modify (fun km =>
       set_pendingExecutions (Map_delete k (pendingExecutions km)) km)) km.
Proof.
  unfold keeps, modify, orphaned. simpl. intros [Hcell Hout].
  split; [exact Hcell|]. intros Hin. apply Hout. apply (Map_delete_values k _ _ Hin).
Qed.

Lemma keeps_orphaned_clear (r : nat) (km : KernelManager) :
  keeps (orphaned r)
    (modify (fun km =>
       set_pendingExecutions (Map_clear (pendingExecutions km)) km)) km.
Proof.
  unfold keeps, modify, orphaned. simpl. intros [Hcell _].
  split; [exact Hcell|]. intros [].
Qed.

(** A new [execute] call allocates a promise of its own. *)
Lemma keeps_orphaned_execute (r : nat) (code uuid date : string) (km : KernelManager) :
  keeps (orphaned r) (execute code uuid date) km.
Proof.
  unfold keeps, execute, bind, this.
  destruct (shellSocket km); [|intros H; exact H].
  destruct (protocol km); [|intros H; exact H].
  unfold orphaned. simpl. intros [(e & He & Hres) Hout].
  assert (Hlt : (r < length (heap km))%nat)
    by (apply nth_error_Some; rewrite He; discriminate).
  split.
  - exists e. split; [|exact Hres].
    rewrite nth_error_app1 by exact Hlt. exact He.
  - intros Hin. apply Map_set_values in Hin. destruct Hin as [E | Hin].
    + lia.
    + apply Hout. exact Hin.
Qed.

Ltac orphaned_leaf :=
  idtac;
  lazymatch goal with
  | |- keeps _ (setState _) _ => apply keeps_orphaned_setState
  | |- keeps _ (modify (fun km => set_heap (push_output _ _ _) km)) _ =>
      apply keeps_orphaned_push
  | |- keeps _ (modify (fun km => set_heap (resolve _ _) km)) _ =>
      eapply keeps_orphaned_resolve; eassumption
  | |- keeps _ (modify (fun km => set_pendingExecutions (Map_delete _ _) km)) _ =>
      apply keeps_orphaned_delete
  | |- keeps _ (modify (fun km => set_pendingExecutions (Map_clear _) km)) _ =>
      apply keeps_orphaned_clear
  | |- _ => unfold emit, log; apply keeps_modify; exact (fun H => H)
  end.

Lemma step_orphaned (r : nat) (a : Action) (km : KernelManager) :
  orphaned r km -> orphaned r (step a km).
Proof.
  destruct a; unfold step, exec;
    try match goal with |- context [if listening km then _ else _] =>
          destruct (listening km); [|intros H; exact H] end;
    match goal with |- ?I km -> ?I (snd (?m km)) => change (keeps I m km) end;
    try apply keeps_orphaned_execute;
    keeps_walk orphaned_leaf.
Qed.

Lemma run_orphaned (r : nat) (acts : list Action) (km : KernelManager) :
  orphaned r km -> orphaned r (run acts km).
Proof.
  revert km. induction acts as [|a acts IH]; intros km H; simpl.
  - exact H.
  - apply IH. apply step_orphaned. exact H.
Qed.

Lemma shutdown_heap (km : KernelManager) : heap (snd (shutdown km)) = heap km.
Proof.
  apply (fun H : keeps (fun k => heap k = heap km) shutdown km => H eq_refl).
  keeps_walk untouched_leaf.
Qed.

(** C1 on the code: when [shutdown()] has completed, the promise that an
    [execute] call in flight is waiting for is still pending and nothing
    refers to its [resolve] any more, so whatever happens later the call
    never returns. *)
Theorem shutdown_leaves_execute_waiting (km : KernelManager) (call : jsval * nat)
    (acts : list Action) :
  (exists e, nth_error (heap km) (snd call) = Some e /\ resolved e = false) ->
  pendingExecutions (step Cleanup_resume (step Shutdown km)) = []
  /\ execute_returns call (run acts (step Cleanup_resume (step Shutdown km))) = None.
Proof.
  intros Hpending.
  assert (Hclear : pendingExecutions (step Cleanup_resume (step Shutdown km)) = [])
    by reflexivity.
  split; [exact Hclear|].
  assert (Horphan : orphaned (snd call) (step Cleanup_resume (step Shutdown km))).
  { split.
    - change (heap (step Cleanup_resume (step Shutdown km)))
        with (heap (snd (shutdown km))).
      rewrite shutdown_heap. exact Hpending.
    - rewrite Hclear. intros []. }
  destruct (run_orphaned (snd call) acts _ Horphan) as [(e & He & Hres) _].
  unfold execute_returns. rewrite He, Hres. reflexivity.
Qed.

End ShutdownDuringExecute.

(** The session that is shut down while [execute("1+1")] waits: the idle
    broadcast that comes too late and a new [start()] do not wake the call. *)
Lemma shutdown_leaves_execute_waiting_witness :
  pendingExecutions (@step reference_platform Cleanup_resume
                       (@step reference_platform Shutdown Scenario.executing)) = []
  /\ execute_returns (Some (JStr "u2"), 0%nat)
       (@run reference_platform
          [ Iopub_frames (Scenario.status_frames "k5" "u2" "idle");
            Start "/tmp/kernel-2.json" Scenario.child ]
          (@step reference_platform Cleanup_resume
             (@step reference_platform Shutdown Scenario.executing))) = None.
Proof.
  apply (@shutdown_leaves_execute_waiting reference_platform Scenario.executing
           (Some (JStr "u2"), 0%nat)).
  eexists. split; vm_compute; reflexivity.
Defined.

(** The failing input of C1: the call is waiting before [shutdown()]; had
    the idle broadcast come instead, it would have returned. *)
Example execute_in_flight :
  Map_get (Some (JStr "u2")) (pendingExecutions Scenario.executing) = Some 0%nat
  /\ execute_returns (Some (JStr "u2"), 0%nat) Scenario.executing = None
  /\ execute_returns (Some (JStr "u2"), 0%nat)
       (@step reference_platform
          (Iopub_frames (Scenario.status_frames "k5" "u2" "idle")) Scenario.executing)
     = Some (Some (JStr "u2"), [])
  /\ execute_returns (Some (JStr "u2"), 0%nat) Scenario.shut_down = None.
Proof. split; [|split; [|split]]; vm_compute; reflexivity. Qed.

(** * Further properties of the code *)

(** ** The codec: frames before the delimiter, unsigned messages, parts
    that are not JSON, message types *)

Section MoreCodec.
Context {P : Platform}.

Lemma findDelimiter_next (frames : list Buffer) (i : Z) :
  0 <= i ->
  (findDelimiter frames i = -1 /\ findDelimiter frames (i + 1) = -1)
  \/ (i <= findDelimiter frames i < i + Z.of_nat (length frames)
      /\ findDelimiter frames (i + 1) = findDelimiter frames i + 1).
Proof.
  revert i. induction frames as [|f rest IH]; intros i Hi; cbn [findDelimiter length].
  - left. split; reflexivity.
  - destruct (String.eqb f delimiter).
    + right. split; lia.
    + destruct (IH (i + 1) ltac:(lia)) as [[H1 H2] | [H1 H2]].
      * left. split; assumption.
      * right. split; [lia | exact H2].
Qed.

Lemma parseMessage_cons (p : JupyterProtocol) (f : Buffer) (frames : list Buffer) :
  f <> delimiter -> parseMessage p (f :: frames) = parseMessage p frames.
Proof.
  intros Hf. unfold parseMessage. cbn [findDelimiter].
  apply String.eqb_neq in Hf. rewrite Hf.
  destruct (findDelimiter_next frames 0 ltac:(lia)) as [[H1 H2] | [H1 H2]];
    rewrite H2.
  - rewrite H1. reflexivity.
  - set (d := findDelimiter frames 0) in *.
    assert (Hd : 0 <= d) by lia. clearbody d.
    replace (d + 1 =? -1) with (d =? -1)
      by (destruct (Z.eqb_spec d (-1)), (Z.eqb_spec (d + 1) (-1)); try reflexivity; lia).
    cbn [length].
    replace (Z.of_nat (S (length frames)) <? d + 1 + 6)
      with (Z.of_nat (length frames) <? d + 6)
      by (destruct (Z.ltb_spec (Z.of_nat (length frames)) (d + 6)),
                   (Z.ltb_spec (Z.of_nat (S (length frames))) (d + 1 + 6));
          try reflexivity; lia).
    destruct ((d =? -1) || (Z.of_nat (length frames) <? d + 6)); [reflexivity|].
    assert (Hframe : forall k, 0 <= k -> frame (f :: frames) (d + 1 + k) = frame frames (d + k)).
    { intros k Hk. unfold frame.
      replace (Z.to_nat (d + 1 + k)) with (S (Z.to_nat (d + k))) by lia. reflexivity. }
    unfold JSON_parse_frame.
    rewrite !Hframe by lia.
    replace (Z.to_nat (d + 1 + 6)) with (S (Z.to_nat (d + 6))) by lia.
    reflexivity.
Qed.

(** X1: Frames that come before the delimiter (the routing identities of the
    transport) have no part in the result. *)
Theorem parseMessage_skips_identities (p : JupyterProtocol) (pre frames : list Buffer) :
  ~ In delimiter pre -> parseMessage p (pre ++ frames) = parseMessage p frames.
Proof.
  induction pre as [|f pre IH]; intros Hno.
  - reflexivity.
  - cbn [app]. rewrite parseMessage_cons.
    + apply IH. intros Hin. apply Hno. right. exact Hin.
    + intros E. apply Hno. left. exact E.
Qed.

(** X2: Without a key, and also with a key when the signature frame is empty,
    nothing is verified: the message is returned and nothing is logged. *)
Theorem parseMessage_unverified (p : JupyterProtocol)
    (pre bufs : list Buffer) (sig fh fp fm fc : Buffer) (h ph m c : json) :
  ~ In delimiter pre ->
  key p = "" \/ sig = "" ->
  JSON_parse fh = Some h -> JSON_parse fp = Some ph ->
  JSON_parse fm = Some m -> JSON_parse fc = Some c ->
  parseMessage p (pre ++ delimiter :: sig :: fh :: fp :: fm :: fc :: bufs)
  = ([], Normal (Some {| header := h; parent_header := ph; metadata := m;
                         content := c; buffers := Some bufs |})).
Proof.
  intros Hno Hor Hh Hp Hm Hc.
  rewrite (parseMessage_framed p pre bufs sig fh fp fm fc h ph m c Hno Hh Hp Hm Hc).
  destruct Hor as [-> | ->]; simpl.
  - reflexivity.
  - rewrite andb_false_r. reflexivity.
Qed.

(** X3: When the delimiter, a signature and four parts are there but one of the
    parts is not JSON, [parseMessage] throws a [SyntaxError]; it does not
    return [null]. *)
Theorem parseMessage_throws_on_bad_json (p : JupyterProtocol)
    (pre bufs : list Buffer) (sig fh fp fm fc : Buffer) :
  ~ In delimiter pre ->
  JSON_parse fh = None \/ JSON_parse fp = None
  \/ JSON_parse fm = None \/ JSON_parse fc = None ->
  exists m,
    parseMessage p (pre ++ delimiter :: sig :: fh :: fp :: fm :: fc :: bufs)
    = ([], Throw (SyntaxError m)).
Proof.
  intros Hno Hbad.
  unfold parseMessage.
  rewrite findDelimiter_first by exact Hno.
  assert (Hlen : (0 + Z.of_nat (length pre) =? -1)
                 || (Z.of_nat (length (pre ++ delimiter :: sig :: fh :: fp :: fm :: fc :: bufs))
                     <? 0 + Z.of_nat (length pre) + 6) = false).
  { rewrite length_app. simpl length.
    apply orb_false_iff. split; [apply Z.eqb_neq | apply Z.ltb_ge]; lia. }
  rewrite Hlen.
  unfold JSON_parse_frame.
  change 1 with (Z.of_nat 1). change 2 with (Z.of_nat 2). change 3 with (Z.of_nat 3).
  change 4 with (Z.of_nat 4). change 5 with (Z.of_nat 5).
  rewrite !frame_after. simpl nth_error. cbn [cbind].
  destruct (JSON_parse fh); cbn [cbind]; [|eexists; reflexivity].
  destruct (JSON_parse fp); cbn [cbind]; [|eexists; reflexivity].
  destruct (JSON_parse fm); cbn [cbind]; [|eexists; reflexivity].
  destruct (JSON_parse fc); cbn [cbind]; [|eexists; reflexivity].
  destruct Hbad as [H | [H | [H | H]]]; discriminate H.
Qed.

(** X4: At most one of the tests on the message type holds of a message, so the
    order in which [handleIopubMessage] makes them does not matter. *)
Theorem message_kinds_exclusive (msg : JupyterMessage) :
  (length (filter holds (kind_tests msg)) <= 1)%nat.
Proof.
  unfold kind_tests, isStatus, isStream, isDisplayData, isError, isExecuteReply,
    isKernelInfoReply, msg_type_is.
  destruct (js_get (Some (header msg)) "msg_type") as [ty | e]; cbn [cbind].
  2:{ simpl. lia. }
  destruct ty as [[ | b | n | s | xs | fields]|]; try (simpl; lia).
  cbn [strict_eq_str MessageType_string].
  repeat match goal with
         | |- context [String.eqb s ?lit] =>
             destruct (String.eqb_spec s lit) as [-> | ?]; [vm_compute; lia |]
         end.
  simpl. lia.
Qed.

End MoreCodec.

(** Two routing identities in front of a status message. *)
Lemma parseMessage_skips_identities_witness :
  @parseMessage reference_platform Scenario.kernel
    (["iopub-subscriber"; "kernel.status"] ++ Scenario.status_frames "k1" "u1" "busy")
  = @parseMessage reference_platform Scenario.kernel
      (Scenario.status_frames "k1" "u1" "busy").
Proof.
  apply (@parseMessage_skips_identities reference_platform).
  intros [H | [H | []]]; discriminate H.
Defined.

(** A message with an empty signature frame, read by a codec that has a
    key. *)
Lemma parseMessage_unverified_witness :
  @parseMessage reference_platform Scenario.kernel
    [delimiter; ""; "{}"; "{}"; "{}"; "{}"]
  = ([], Normal (Some {| header := JObj []; parent_header := JObj [];
                         metadata := JObj []; content := JObj [];
                         buffers := Some [] |})).
Proof.
  apply (@parseMessage_unverified reference_platform Scenario.kernel [] [] "").
  - intros [].
  - right. reflexivity.
  - vm_compute; reflexivity.
  - vm_compute; reflexivity.
  - vm_compute; reflexivity.
  - vm_compute; reflexivity.
Defined.

(** A content frame that is cut short. *)
Lemma parseMessage_throws_on_bad_json_witness :
  exists m,
    @parseMessage reference_platform Scenario.kernel
      [delimiter; ""; "{}"; "{}"; "{}"; "{oops"]
    = ([], Throw (SyntaxError m)).
Proof.
  apply (@parseMessage_throws_on_bad_json reference_platform Scenario.kernel [] [] "").
  - intros [].
  - right. right. right. vm_compute; reflexivity.
Defined.

(** ** The handler of the broadcasts, kind by kind *)

Section MoreHandler.
Context {P : Platform}.

(** The tests on a message whose type is the string [ty]. *)
Lemma kind_of_type (msg : JupyterMessage) (ty : jsval) (t : MessageType) :
  js_get (Some (header msg)) "msg_type" = Normal ty ->
  msg_type_is msg t = Normal (strict_eq_str ty (MessageType_string t)).
Proof. intros H. unfold msg_type_is. rewrite H. reflexivity. Qed.

Lemma isDisplayData_of_type (msg : JupyterMessage) (ty : jsval) :
  js_get (Some (header msg)) "msg_type" = Normal ty ->
  isDisplayData msg
  = Normal (strict_eq_str ty "display_data" || strict_eq_str ty "execute_result").
Proof.
  intros H. unfold isDisplayData. rewrite !(kind_of_type msg ty _ H). cbn [cbind].
  cbn [MessageType_string]. destruct (strict_eq_str ty "display_data"); reflexivity.
Qed.

(** Runs [handleIopubMessage] on a message whose type, parent id and
    fields are given by hypotheses. *)
Ltac handler_run Hp Hparent Hty :=
  unfold handleIopubMessage, bind, lift;
  rewrite Hparent;
  unfold isStatus, isStream, isError, isExecuteReply;
  rewrite ?(isDisplayData_of_type _ _ Hty), ?(kind_of_type _ _ _ Hty);
  cbn [MessageType_string];
  repeat first
    [ rewrite the_protocol_spec, Hp
    | match goal with H : strict_eq_str _ _ = _ |- _ => rewrite H end
    | match goal with H : js_get _ _ = Normal _ |- _ => rewrite H end
    | progress cbn [strict_eq_str String.eqb Ascii.eqb Bool.eqb orb]
    | progress cbn iota beta ].

(** X5: A stream message yields exactly one output, with the text as it is:
    [stdout] when its name is exactly ['stdout'], [stderr] for any other
    name, a missing one included. *)
Theorem stream_output (msg : JupyterMessage) (km : KernelManager)
    (p : JupyterProtocol) (k name text : jsval) :
  protocol km = Some p ->
  js_get (Some (header msg)) "msg_type" = Normal (Some (JStr "stream")) ->
  js_get (Some (parent_header msg)) "msg_id" = Normal k ->
  js_get (Some (content msg)) "name" = Normal name ->
  js_get (Some (content msg)) "text" = Normal text ->
  handleIopubMessage msg km
  = emitOutput k
      (mkOutput (if strict_eq_str name "stdout"
                 then KernelOutput.stdout else KernelOutput.stderr) text None) km
  /\ trace (snd (handleIopubMessage msg km))
     = (trace km
        ++ [Emit (ev_output
                    (mkOutput (if strict_eq_str name "stdout"
                               then KernelOutput.stdout else KernelOutput.stderr)
                       text None) k)])%list.
Proof.
  intros Hp Hty Hparent Hname Htext.
  assert (Hhandle : handleIopubMessage msg km
                    = emitOutput k
                        (mkOutput (if strict_eq_str name "stdout"
                                   then KernelOutput.stdout else KernelOutput.stderr)
                           text None) km).
  { handler_run Hp Hparent Hty. reflexivity. }
  split; [exact Hhandle|]. rewrite Hhandle.
  destruct (emitOutput_spec k
              (mkOutput (if strict_eq_str name "stdout"
                         then KernelOutput.stdout else KernelOutput.stderr) text None)
              km) as [h Hh].
  rewrite Hh. reflexivity.
Qed.

Lemma js_join_strings (sep : string) (lines : list string) :
  js_join sep (map JStr lines) = String.concat sep lines.
Proof.
  unfold js_join. rewrite map_map. cbn [js_ToString].
  f_equal. induction lines as [|l lines IH]; simpl; [reflexivity | rewrite IH; reflexivity].
Qed.

(** X6: An error message yields exactly one [error] output: the lines of the
    traceback joined by newlines. *)
Theorem error_output (msg : JupyterMessage) (km : KernelManager)
    (p : JupyterProtocol) (k : jsval) (lines : list string) :
  protocol km = Some p ->
  js_get (Some (header msg)) "msg_type" = Normal (Some (JStr "error")) ->
  js_get (Some (parent_header msg)) "msg_id" = Normal k ->
  js_get (Some (content msg)) "traceback" = Normal (Some (JArr (map JStr lines))) ->
  handleIopubMessage msg km
  = emitOutput k
      (mkOutput KernelOutput.error (Some (JStr (String.concat newline lines))) None) km
  /\ trace (snd (handleIopubMessage msg km))
     = (trace km
        ++ [Emit (ev_output
                    (mkOutput KernelOutput.error
                       (Some (JStr (String.concat newline lines))) None) k)])%list.
Proof.
  intros Hp Hty Hparent Htb.
  assert (Hhandle : handleIopubMessage msg km
                    = emitOutput k
                        (mkOutput KernelOutput.error
                           (Some (JStr (String.concat newline lines))) None) km).
  { handler_run Hp Hparent Hty. rewrite js_join_strings. reflexivity. }
  split; [exact Hhandle|]. rewrite Hhandle.
  destruct (emitOutput_spec k
              (mkOutput KernelOutput.error
                 (Some (JStr (String.concat newline lines))) None) km) as [h Hh].
  rewrite Hh. reflexivity.
Qed.

(** X7: An [execute_reply] read by the listener sets the counter to its
    [execution_count] when that is truthy, and changes nothing when it is
    [0] or missing; nothing else changes and nothing is emitted. *)
Theorem execute_reply_on_iopub (msg : JupyterMessage) (km : KernelManager)
    (p : JupyterProtocol) (k count : jsval) :
  protocol km = Some p ->
  js_get (Some (header msg)) "msg_type" = Normal (Some (JStr "execute_reply")) ->
  js_get (Some (parent_header msg)) "msg_id" = Normal k ->
  js_get (Some (content msg)) "execution_count" = Normal count ->
  handleIopubMessage msg km
  = (Normal tt,
     match count with
     | Some (JNum n) => if n =? 0 then km else set_executionCount (JNum n) km
     | Some v => if truthy count then set_executionCount v km else km
     | None => km
     end).
Proof.
  intros Hp Hty Hparent Hcount.
  handler_run Hp Hparent Hty.
  destruct count as [[ | b | n | s | xs | fields]|]; cbn [truthy]; try reflexivity.
  - destruct b; reflexivity.
  - destruct (n =? 0); reflexivity.
  - destruct (String.eqb s ""); reflexivity.
Qed.

(** X8: A message of a type the handler has no branch for, and a status message
    that says neither [busy] nor [idle], have no effect at all. *)
Theorem unhandled_messages_ignored (msg : JupyterMessage) (km : KernelManager)
    (p : JupyterProtocol) (k ty : jsval) :
  protocol km = Some p ->
  js_get (Some (header msg)) "msg_type" = Normal ty ->
  js_get (Some (parent_header msg)) "msg_id" = Normal k ->
  Forall (fun lit => strict_eq_str ty lit = false) handled_types
  \/ (exists v, strict_eq_str ty "status" = true
                /\ js_get (Some (content msg)) "execution_state" = Normal v
                /\ strict_eq_str v "busy" = false
                /\ strict_eq_str v "idle" = false) ->
  handleIopubMessage msg km = (Normal tt, km).
Proof.
  intros Hp Hty Hparent [Hnone | (v & Hstatus & Hv & Hbusy & Hidle)].
  - unfold handled_types in Hnone.
    repeat match goal with
           | H : Forall _ (_ :: _) |- _ => inversion H; subst; clear H
           end.
    handler_run Hp Hparent Hty. reflexivity.
  - handler_run Hp Hparent Hty. reflexivity.
Qed.

End MoreHandler.

(** ** Requests and their completion *)

Section MoreCorrelation.
Context {P : Platform}.




(** [handleIopubMessage] on the idle broadcast for a pending request. *)
Lemma handleIopubMessage_idle (msg : JupyterMessage) (km : KernelManager)
    (p : JupyterProtocol) (k : jsval) (r : nat) (e : Execution) :
  protocol km = Some p ->
  idle_for msg k r km ->
  nth_error (heap km) r = Some e ->
  fst (handleIopubMessage msg km) = Normal tt
  /\ state (snd (handleIopubMessage msg km)) = idle
  /\ pendingExecutions (snd (handleIopubMessage msg km))
     = Map_delete k (pendingExecutions km)
  /\ execute_returns (k, r) (snd (handleIopubMessage msg km)) = Some (k, outputs e)
  /\ forall r', r' <> r ->
       nth_error (heap (snd (handleIopubMessage msg km))) r' = nth_error (heap km) r'.
Proof.
  intros Hp (Hidle & Hparent & Htruthy & Hget) He.
  apply status_of_spec in Hidle. destruct Hidle as [Hstatus Hv].
  rewrite (handleIopubMessage_status msg km p k _ Hp Hstatus Hparent Hv).
  cbn [strict_eq_str String.eqb Ascii.eqb Bool.eqb fst snd].
  destruct (setState_untouched idle km) as (Hheap & Hpending & _).
  cbv zeta. rewrite Hpending, Hheap, Htruthy.
  unfold Map_has. rewrite Hget. cbn [andb].
  split; [reflexivity|]. split; [apply setState_state|]. split; [reflexivity|].
  split.
  - unfold execute_returns. cbn [snd fst heap set_pendingExecutions set_heap].
    unfold resolve. rewrite nth_error_update_at, Nat.eqb_refl, He. reflexivity.
  - intros r' Hne. cbn [heap set_pendingExecutions set_heap].
    unfold resolve. rewrite nth_error_update_at.
    destruct (Nat.eqb_spec r r') as [E | _]; [congruence | reflexivity].
Qed.

(** X9: An idle broadcast in answer to a pending request completes it: its
    promise is resolved with the outputs collected so far, its entry is
    removed, the state is [idle], and the other executions are as they
    were. *)
Theorem idle_completes_execution (msg : JupyterMessage) (km : KernelManager)
    (p : JupyterProtocol) (k : jsval) (r : nat) (e : Execution) :
  protocol km = Some p ->
  idle_for msg k r km ->
  nth_error (heap km) r = Some e ->
  fst (handleIopubMessage msg km) = Normal tt
  /\ state (snd (handleIopubMessage msg km)) = idle
  /\ pendingExecutions (snd (handleIopubMessage msg km))
     = Map_delete k (pendingExecutions km)
  /\ execute_returns (k, r) (snd (handleIopubMessage msg km)) = Some (k, outputs e)
  /\ forall r', r' <> r ->
       nth_error (heap (snd (handleIopubMessage msg km))) r' = nth_error (heap km) r'.
Proof.
  intros Hp Hfor He. exact (handleIopubMessage_idle msg km p k r e Hp Hfor He).
Qed.

Lemma emitOutput_matching (k : jsval) (r : nat) (o : KernelOutput.t)
    (km : KernelManager) :
  truthy k = true ->
  Map_get k (pendingExecutions km) = Some r ->
  emitOutput k o km
  = (Normal tt, set_trace (trace km ++ [Emit (ev_output o k)])
                  (set_heap (push_output r o (heap km)) km)).
Proof.
  intros Ht Hget. unfold emitOutput, bind, this, emit, log, modify.
  unfold Map_has. rewrite Ht, Hget. reflexivity.
Qed.

Lemma emitOutput_unmatched (k : jsval) (o : KernelOutput.t) (km : KernelManager) :
  truthy k = false \/ Map_get k (pendingExecutions km) = None ->
  emitOutput k o km
  = (Normal tt, set_trace (trace km ++ [Emit (ev_output o k)]) km).
Proof.
  intros H. unfold emitOutput, bind, this, emit, log, modify, ret.
  unfold Map_has. destruct H as [-> | ->].
  - reflexivity.
  - rewrite andb_false_r. reflexivity.
Qed.

(** [emitOutput] run for a list of outputs of a pending request. *)
Lemma emitOutputs_matching (k : jsval) (r : nat) (e : Execution)
    (os : list KernelOutput.t) (km : KernelManager) :
  truthy k = true ->
  Map_get k (pendingExecutions km) = Some r ->
  nth_error (heap km) r = Some e ->
  fst (emitOutputs k os km) = Normal tt
  /\ nth_error (heap (snd (emitOutputs k os km))) r
     = Some {| outputs := outputs e ++ os; resolved := resolved e |}
  /\ trace (snd (emitOutputs k os km))
     = (trace km ++ map (fun o => Emit (ev_output o k)) os)%list
  /\ pendingExecutions (snd (emitOutputs k os km)) = pendingExecutions km
  /\ protocol (snd (emitOutputs k os km)) = protocol km.
Proof.
  intros Ht. revert e km.
  induction os as [|o os IH]; intros e km Hget He; cbn [emitOutputs].
  - cbn. rewrite !app_nil_r. destruct e. repeat split; assumption.
  - unfold bind. rewrite (emitOutput_matching k r o km Ht Hget).
    set (km1 := set_trace _ _).
    assert (He1 : nth_error (heap km1) r
                  = Some {| outputs := outputs e ++ [o]; resolved := resolved e |}).
    { subst km1. cbn [heap set_trace set_heap]. unfold push_output.
      rewrite nth_error_update_at, Nat.eqb_refl, He. reflexivity. }
    destruct (IH _ km1 Hget He1) as (H1 & H2 & H3 & H4 & H5).
    split; [exact H1|]. split.
    + rewrite H2. cbn [outputs resolved]. rewrite <- app_assoc. reflexivity.
    + split; [|split; assumption].
      rewrite H3. subst km1. cbn [trace set_trace map]. rewrite <- app_assoc. reflexivity.
Qed.

(** X10: The outputs that name a pending request as their parent are appended to
    its array in the order of arrival, and each is also published. *)
Theorem outputs_collected_in_order (k : jsval) (r : nat) (e : Execution)
    (os : list KernelOutput.t) (km : KernelManager) :
  truthy k = true ->
  Map_get k (pendingExecutions km) = Some r ->
  nth_error (heap km) r = Some e ->
  fst (emitOutputs k os km) = Normal tt
  /\ nth_error (heap (snd (emitOutputs k os km))) r
     = Some {| outputs := outputs e ++ os; resolved := resolved e |}
  /\ trace (snd (emitOutputs k os km))
     = (trace km ++ map (fun o => Emit (ev_output o k)) os)%list
  /\ pendingExecutions (snd (emitOutputs k os km)) = pendingExecutions km.
Proof.
  intros Ht Hget He.
  destruct (emitOutputs_matching k r e os km Ht Hget He) as (H1 & H2 & H3 & H4 & _).
  split; [exact H1|]. split; [exact H2|]. split; [exact H3 | exact H4].
Qed.

(** X11: An output whose parent is no pending request, or that names none, is
    published and stored nowhere. *)
Theorem outputs_without_execution_published (k : jsval) (os : list KernelOutput.t)
    (km : KernelManager) :
  truthy k = false \/ Map_get k (pendingExecutions km) = None ->
  emitOutputs k os km
  = (Normal tt, set_trace (trace km ++ map (fun o => Emit (ev_output o k)) os) km).
Proof.
  intros H. revert km H.
  induction os as [|o os IH]; intros km H; cbn [emitOutputs].
  - cbn. rewrite app_nil_r. destruct km; reflexivity.
  - unfold bind. rewrite (emitOutput_unmatched k o km H).
    rewrite IH by exact H.
    cbn [trace set_trace map]. rewrite <- app_assoc. destruct km; reflexivity.
Qed.

Lemma Map_get_set_same {V : Type} (k : jsval) (v : V) (m : JsMap V) :
  sameValueZero k k = true -> Map_get k (Map_set k v m) = Some v.
Proof.
  intros Hk. induction m as [|[k' v'] m IH]; simpl.
  - rewrite Hk. reflexivity.
  - destruct (sameValueZero k k') eqn:E; simpl; rewrite E; [reflexivity | exact IH].
Qed.

(** What [execute] does when there is a session. *)
Lemma execute_spec (code uuid date : string) (km : KernelManager)
    (s : Socket) (p : JupyterProtocol) :
  shellSocket km = Some s -> protocol km = Some p ->
  execute code uuid date km
  = (Normal (Some (JStr uuid), length (heap km)),
     set_trace (trace km
                ++ [Send shell (serializeMessage p
                                  (createExecuteRequest p uuid date code false))])
       (set_pendingExecutions
          (Map_set (Some (JStr uuid)) (length (heap km)) (pendingExecutions km))
          (set_heap (heap km ++ [{| outputs := []; resolved := false |}]) km))).
Proof.
  intros Hs Hp. unfold execute, bind, this. rewrite Hs, Hp. reflexivity.
Qed.



End MoreCorrelation.

(** ** Who resolves a promise, and when the listener stops *)

Section MoreListener.
Context {P : Platform}.

Lemma keeps_waiting_push (r n : nat) (o : KernelOutput.t) (km : KernelManager) :
  keeps (waiting r) (modify (fun km => set_heap (push_output n o (heap km)) km)) km.
Proof.
  unfold keeps, modify, waiting. simpl. intros (e & He & Hres).
  unfold push_output. rewrite nth_error_update_at, He.
  destruct (Nat.eqb n r); simpl; eexists; (split; [reflexivity|]); exact Hres.
Qed.

Lemma keeps_waiting_alloc (r : nat) (x : Execution) (km : KernelManager) :
  keeps (waiting r) (modify (fun km => set_heap (heap km ++ [x]) km)) km.
Proof.
  unfold keeps, modify, waiting. simpl. intros (e & He & Hres).
  exists e. split; [|exact Hres].
  rewrite nth_error_app1; [exact He|].
  apply nth_error_Some. rewrite He. discriminate.
Qed.

Ltac waiting_leaf :=
  idtac;
  lazymatch goal with
  | |- keeps _ (modify (fun km => set_heap (push_output _ _ _) km)) _ =>
      apply keeps_waiting_push
  | |- keeps _ (modify (fun km => set_heap (heap km ++ _) km)) _ =>
      apply keeps_waiting_alloc
  | |- keeps _ (modify (fun km => set_heap (resolve _ _) km)) _ =>
      exfalso; congruence
  | H : ?x = Normal true, H' : ?x = Normal false |- _ => exfalso; congruence
  | H : ?x = Normal true, H' : ?x = Throw _ |- _ => exfalso; congruence
  | |- _ => untouched_leaf
  end.

(** What [handleIopubMessage] does to a pending promise: nothing, unless
    the message is the idle broadcast for it. *)
Lemma handleIopubMessage_waiting (msg : JupyterMessage) (km : KernelManager)
    (p : JupyterProtocol) (r : nat) :
  protocol km = Some p ->
  waiting r km ->
  waiting r (snd (handleIopubMessage msg km)) \/ exists k, idle_for msg k r km.
Proof.
  intros Hp Hw.
  destruct (isStatus msg) as [[|]|e] eqn:Hstatus.
  - destruct (js_get (Some (parent_header msg)) "msg_id") as [k|e] eqn:Hparent.
    2:{ left. unfold handleIopubMessage, bind, lift. rewrite Hparent. exact Hw. }
    destruct (js_get (Some (content msg)) "execution_state") as [v|e] eqn:Hv.
    2:{ left. unfold handleIopubMessage, bind, lift.
        rewrite Hparent, the_protocol_spec, Hp, Hstatus, Hv. exact Hw. }
    rewrite (handleIopubMessage_status msg km p k v Hp Hstatus Hparent Hv).
    cbn [snd].
    destruct (setState_untouched busy km) as (Hb & _ & _).
    destruct (setState_untouched idle km) as (Hi & Hpi & _).
    destruct (strict_eq_str v "busy").
    { left. unfold waiting. rewrite Hb. exact Hw. }
    destruct (strict_eq_str v "idle") eqn:Hidle; [|left; exact Hw].
    cbv zeta. rewrite Hpi.
    destruct (truthy k && Map_has k (pendingExecutions km)) eqn:Hkey.
    2:{ left. unfold waiting. rewrite Hi. exact Hw. }
    destruct (Map_get k (pendingExecutions km)) as [r0|] eqn:Hget.
    2:{ left. unfold waiting. rewrite Hi. exact Hw. }
    destruct (Nat.eq_dec r0 r) as [-> | Hne].
    + right. exists k. apply andb_true_iff in Hkey. destruct Hkey as [Ht _].
      repeat split; try assumption.
      unfold status_of. rewrite Hstatus, Hv.
      rewrite (strict_eq_str_true v "idle" Hidle). reflexivity.
    + left. unfold waiting. cbn [heap set_pendingExecutions set_heap].
      rewrite Hi. unfold resolve. rewrite nth_error_update_at.
      destruct (Nat.eqb_spec r0 r) as [E | _]; [contradiction | exact Hw].
  - left. revert Hw. change (keeps (waiting r) (handleIopubMessage msg) km).
    keeps_walk waiting_leaf.
  - left. revert Hw. change (keeps (waiting r) (handleIopubMessage msg) km).
    keeps_walk waiting_leaf.
Qed.

Lemma listener_catch_waiting (r : nat) (err : JsError) (km : KernelManager) :
  waiting r km -> waiting r (snd (listener_catch err km)).
Proof. change (keeps (waiting r) (listener_catch err) km). keeps_walk waiting_leaf. Qed.

(** X13: The promise of an [execute] call is resolved by nothing but the idle
    broadcast, read by the listener, whose parent id is the key of that
    call. *)
Theorem resolved_only_by_matching_idle (a : Action) (km : KernelManager) (r : nat) :
  waiting r km ->
  ~ waiting r (step a km) ->
  exists frames p msg k,
    a = Iopub_frames frames
    /\ listening km = true
    /\ protocol km = Some p
    /\ snd (parseMessage p frames) = Normal (Some msg)
    /\ idle_for msg k r km.
Proof.
  intros Hw Hnot.
  destruct a;
    try solve
      [ exfalso; apply Hnot; revert Hw; unfold step, exec;
        try match goal with |- context [if listening km then _ else _] =>
              destruct (listening km); [|exact (fun H => H)] end;
        match goal with |- ?I km -> ?I (snd (?m km)) => change (keeps I m km) end;
        keeps_walk waiting_leaf ].
  unfold step, exec in Hnot.
  destruct (listening km) eqn:Hl; [|contradiction].
  unfold listener_frames, try_catch, bind in Hnot. rewrite the_protocol_spec in Hnot.
  destruct (protocol km) as [p|] eqn:Hp.
  2:{ exfalso. apply Hnot. apply listener_catch_waiting. exact Hw. }
  destruct (parseMessage p frames) as [warnings parsed] eqn:Hparse.
  unfold modify, lift in Hnot.
  destruct parsed as [[m|]|e]; cbn [snd] in Hnot.
  - set (km1 := set_trace (trace km ++ map ConsoleWarn warnings) km) in *.
    assert (Hstill : waiting r (snd (handleIopubMessage m km1)) -> False).
    { intros H. apply Hnot.
      destruct (handleIopubMessage m km1) as [[[]|e] km2]; cbn [snd] in *.
      - exact H.
      - apply listener_catch_waiting. exact H. }
    destruct (handleIopubMessage_waiting m km1 p r Hp Hw) as [H | [k Hk]];
      [contradiction|].
    exists frames, p, m, k. rewrite Hparse. repeat split; try reflexivity; apply Hk.
  - exfalso. apply Hnot. exact Hw.
  - exfalso. apply Hnot. apply listener_catch_waiting. exact Hw.
Qed.

Lemma parseMessage_throw_silent (p : JupyterProtocol) (frames : list Buffer)
    (e : JsError) :
  snd (parseMessage p frames) = Throw e -> fst (parseMessage p frames) = [].
Proof.
  unfold parseMessage.
  destruct ((findDelimiter frames 0 =? -1)
            || (Z.of_nat (length frames) <? findDelimiter frames 0 + 6)).
  - reflexivity.
  - match goal with
    | |- context [match ?c with Normal _ => _ | Throw _ => _ end] =>
        destruct c as [[[[[sig [f2 h]] [f3 ph]] [f4 m]] [f5 c']] | e']
    end.
    + intros H. discriminate H.
    + reflexivity.
Qed.

(** X14: Frames that [parseMessage] throws on end the listener: an ['error']
    event is emitted, unless the state is [dead] or [disconnected], and every
    later broadcast is lost. *)
Theorem listener_stops_on_throw (km : KernelManager) (p : JupyterProtocol)
    (frames : list Buffer) (e : JsError) :
  listening km = true ->
  protocol km = Some p ->
  snd (parseMessage p frames) = Throw e ->
  listening (step (Iopub_frames frames) km) = false
  /\ trace (step (Iopub_frames frames) km)
     = (trace km
        ++ if negb (KernelState_eqb (state km) dead)
              && negb (KernelState_eqb (state km) disconnected)
           then [Emit (ev_error e)] else [])%list
  /\ state (step (Iopub_frames frames) km) = state km
  /\ forall frames',
       step (Iopub_frames frames') (step (Iopub_frames frames) km)
       = step (Iopub_frames frames) km.
Proof.
  intros Hl Hp Hthrow.
  pose proof (parseMessage_throw_silent p frames e Hthrow) as Hsilent.
  assert (Hstep : step (Iopub_frames frames) km
                  = snd (listener_catch e
                           (set_trace (trace km ++ map ConsoleWarn []) km))).
  { unfold step, exec. rewrite Hl.
    unfold listener_frames, try_catch, bind. rewrite the_protocol_spec, Hp.
    destruct (parseMessage p frames) as [warnings parsed].
    cbn [fst snd] in *. subst warnings parsed. reflexivity. }
  assert (Hlistening : listening (step (Iopub_frames frames) km) = false).
  { rewrite Hstep. unfold listener_catch, bind, this, emit, log, modify, ret.
    cbn [state set_trace].
    destruct (negb (KernelState_eqb (state km) dead)
              && negb (KernelState_eqb (state km) disconnected)); reflexivity. }
  split; [exact Hlistening|]. split; [|split].
  - rewrite Hstep. unfold listener_catch, bind, this, emit, log, modify, ret.
    cbn [state set_trace map].
    destruct (negb (KernelState_eqb (state km) dead)
              && negb (KernelState_eqb (state km) disconnected));
      cbn; rewrite !app_nil_r; reflexivity.
  - rewrite Hstep. unfold listener_catch, bind, this, emit, log, modify, ret.
    cbn [state set_trace].
    destruct (negb (KernelState_eqb (state km) dead)
              && negb (KernelState_eqb (state km) disconnected)); reflexivity.
  - intros frames'. unfold step at 1. rewrite Hlistening. reflexivity.
Qed.

Lemma shutdown_on_cleared (k : KernelManager) :
  state k = dead -> shellSocket k = None -> iopubSocket k = None ->
  controlSocket k = None -> process k = None ->
  (forall f, connectionFile k = Some f -> f = "") ->
  connectionInfo k = None -> protocol k = None -> pendingExecutions k = [] ->
  shutdown_completed k = k.
Proof.
  destruct k as [proc proto file info sh io ctl st cnt py pend hp lis tr].
  cbn [state shellSocket iopubSocket controlSocket process connectionFile
       connectionInfo protocol pendingExecutions].
  intros -> -> -> -> -> Hfile -> -> ->.
  destruct file as [f|]; [rewrite (Hfile f eq_refl)|]; reflexivity.
Qed.

Lemma shutdown_completed_fields (km : KernelManager) :
  state (shutdown_completed km) = dead
  /\ shellSocket (shutdown_completed km) = None
  /\ iopubSocket (shutdown_completed km) = None
  /\ controlSocket (shutdown_completed km) = None
  /\ process (shutdown_completed km) = None
  /\ (forall f, connectionFile (shutdown_completed km) = Some f -> f = "")
  /\ connectionInfo (shutdown_completed km) = None
  /\ protocol (shutdown_completed km) = None
  /\ pendingExecutions (shutdown_completed km) = [].
Proof.
  destruct km as [proc proto file info sh io ctl st cnt py pend hp lis tr].
  cbv [shutdown_completed exec shutdown cleanup_resume cleanup cleanup_rest
    setState bind this emit log modify ret
    state shellSocket iopubSocket controlSocket process connectionFile trace
    connectionInfo protocol pendingExecutions heap listening executionCount pythonPath
    set_state set_trace set_shellSocket set_iopubSocket set_controlSocket set_process
    set_connectionFile set_connectionInfo set_protocol set_pendingExecutions
    KernelState_eqb negb snd fst Map_clear].
  destruct st, sh, io, ctl, proc, file as [f|]; cbv beta iota;
    try (destruct (String.eqb f "") eqn:Hf; cbv beta iota).
  all: repeat (split; [first [reflexivity | intros f' Hf'; try discriminate Hf';
                              injection Hf' as <-; apply String.eqb_eq; exact Hf]|]).
  all: reflexivity.
Qed.

(** X15: [shutdown()] run to its end leaves a manager that is [dead] and holds
    nothing: no socket, no process, no connection file to remove, no
    descriptor, no codec, no pending execution.  Called once more it changes
    nothing and has no effect. *)
Theorem shutdown_completes (km : KernelManager) :
  state (shutdown_completed km) = dead
  /\ shellSocket (shutdown_completed km) = None
  /\ iopubSocket (shutdown_completed km) = None
  /\ controlSocket (shutdown_completed km) = None
  /\ process (shutdown_completed km) = None
  /\ (forall f, connectionFile (shutdown_completed km) = Some f -> f = "")
  /\ connectionInfo (shutdown_completed km) = None
  /\ protocol (shutdown_completed km) = None
  /\ pendingExecutions (shutdown_completed km) = []
  /\ shutdown_completed (shutdown_completed km) = shutdown_completed km.
Proof.
  destruct (shutdown_completed_fields km)
    as (Hst & Hsh & Hio & Hctl & Hproc & Hfile & Hinfo & Hproto & Hpend).
  do 9 (split; [assumption|]).
  apply shutdown_on_cleared; assumption.
Qed.

Lemma cleanup_resume_fields (k : KernelManager) :
  state (exec cleanup_resume k) = state k
  /\ shellSocket (exec cleanup_resume k) = shellSocket k
  /\ iopubSocket (exec cleanup_resume k) = iopubSocket k
  /\ controlSocket (exec cleanup_resume k) = controlSocket k
  /\ process (exec cleanup_resume k) = process k
  /\ connectionFile (exec cleanup_resume k) = None
  /\ connectionInfo (exec cleanup_resume k) = None
  /\ protocol (exec cleanup_resume k) = None
  /\ pendingExecutions (exec cleanup_resume k) = [].
Proof.
  destruct k as [proc proto file info sh io ctl st cnt py pend hp lis tr].
  do 8 (split; [reflexivity|]). reflexivity.
Qed.

Lemma on_exit_fields (km : KernelManager) :
  state (exec on_exit km) = dead
  /\ shellSocket (exec on_exit km) = shellSocket km
  /\ iopubSocket (exec on_exit km) = iopubSocket km
  /\ controlSocket (exec on_exit km) = controlSocket km
  /\ process (exec on_exit km) = process km
  /\ ((forall f, connectionFile km = Some f -> f = "") ->
      protocol (exec on_exit km) = None /\ pendingExecutions (exec on_exit km) = []).
Proof.
  destruct km as [proc proto file info sh io ctl st cnt py pend hp lis tr].
  cbv [exec on_exit cleanup cleanup_rest
    setState bind this emit log modify ret
    state shellSocket iopubSocket controlSocket process connectionFile trace
    connectionInfo protocol pendingExecutions heap listening executionCount pythonPath
    set_state set_trace set_shellSocket set_iopubSocket set_controlSocket set_process
    set_connectionFile set_connectionInfo set_protocol set_pendingExecutions
    KernelState_eqb negb snd fst Map_clear].
  destruct st, file as [f|]; cbv beta iota;
    try (destruct (String.eqb f "") eqn:Hf; cbv beta iota).
  all: do 5 (split; [reflexivity|]).
  all: intros Hfile; try (split; reflexivity).
  all: rewrite (Hfile f eq_refl) in Hf; discriminate Hf.
Qed.

(** X16: The handler of the process exit makes the manager [dead] and, once its
    [cleanup] is over, has cleared the session, so that [execute] fails; it
    closes no socket and keeps the process object.  Without a connection
    file to remove the session is cleared by the handler itself. *)
Theorem exit_keeps_sockets (km : KernelManager) (code uuid date : string) :
  state (step Process_exit km) = dead
  /\ state (run [Process_exit; Cleanup_resume] km) = dead
  /\ protocol (run [Process_exit; Cleanup_resume] km) = None
  /\ pendingExecutions (run [Process_exit; Cleanup_resume] km) = []
  /\ shellSocket (run [Process_exit; Cleanup_resume] km) = shellSocket km
  /\ iopubSocket (run [Process_exit; Cleanup_resume] km) = iopubSocket km
  /\ controlSocket (run [Process_exit; Cleanup_resume] km) = controlSocket km
  /\ process (run [Process_exit; Cleanup_resume] km) = process km
  /\ execute code uuid date (run [Process_exit; Cleanup_resume] km)
     = (Throw (Error "Kernel not started"), run [Process_exit; Cleanup_resume] km)
  /\ ((forall f, connectionFile km = Some f -> f = "") ->
      protocol (step Process_exit km) = None
      /\ pendingExecutions (step Process_exit km) = []).
Proof.
  destruct (on_exit_fields km) as (Hst & Hsh & Hio & Hctl & Hproc & Hnone).
  change (run [Process_exit; Cleanup_resume] km)
    with (exec cleanup_resume (exec on_exit km)).
  change (step Process_exit km) with (exec on_exit km).
  destruct (cleanup_resume_fields (exec on_exit km))
    as (Hst' & Hsh' & Hio' & Hctl' & Hproc' & _ & _ & Hproto' & Hpend').
  split; [exact Hst|].
  split; [rewrite Hst'; exact Hst|].
  split; [exact Hproto'|].
  split; [exact Hpend'|].
  split; [rewrite Hsh'; exact Hsh|].
  split; [rewrite Hio'; exact Hio|].
  split; [rewrite Hctl'; exact Hctl|].
  split; [rewrite Hproc'; exact Hproc|].
  split; [|exact Hnone].
  unfold execute, bind, this, throw. rewrite Hproto'.
  destruct (shellSocket (exec cleanup_resume (exec on_exit km))); reflexivity.
Qed.

End MoreListener.

(** ** The wait for the connection file *)

Section MoreStart.
Context {P : Platform}.

Lemma waitForConnectionFile_loop_fails (access : nat -> bool) (n i : nat) (slept : Z) :
  (forall j, (i <= j < i + n)%nat -> access j = false) ->
  waitForConnectionFile_loop access i n slept
  = (Throw (Error "Timeout waiting for kernel connection file"),
     slept + delay * Z.of_nat n).
Proof.
  revert i slept. induction n as [|n IH]; intros i slept Hfail.
  - cbn [waitForConnectionFile_loop]. f_equal. unfold delay. lia.
  - cbn [waitForConnectionFile_loop]. rewrite (Hfail i) by lia.
    rewrite IH by (intros j Hj; apply Hfail; lia).
    f_equal. unfold delay. lia.
Qed.

Lemma waitForConnectionFile_loop_finds (access : nat -> bool) (k n i : nat) (slept : Z) :
  (k < n)%nat ->
  (forall j, (i <= j < i + k)%nat -> access j = false) ->
  access (i + k)%nat = true ->
  waitForConnectionFile_loop access i n slept
  = (Normal tt, slept + delay * Z.of_nat k + 100).
Proof.
  revert n i slept. induction k as [|k IH]; intros n i slept Hk Hfail Hfound.
  - destruct n as [|n]; [lia|]. cbn [waitForConnectionFile_loop].
    rewrite Nat.add_0_r in Hfound. rewrite Hfound. f_equal. unfold delay. lia.
  - destruct n as [|n]; [lia|]. cbn [waitForConnectionFile_loop].
    rewrite (Hfail i) by lia.
    rewrite (IH n (S i) (slept + delay)).
    + f_equal. unfold delay. lia.
    + lia.
    + intros j Hj. apply Hfail. lia.
    + replace (S i + k)%nat with (i + S k)%nat by lia. exact Hfound.
Qed.

(** X17: When the connection file does not appear in fifty attempts, the wait
    ends with the timeout error, after fifty delays of 100 ms. *)
Theorem waitForConnectionFile_times_out (access : nat -> bool) :
  (forall j, (j < 50)%nat -> access j = false) ->
  waitForConnectionFile access
  = (Throw (Error "Timeout waiting for kernel connection file"), 5000).
Proof.
  intros Hfail. unfold waitForConnectionFile.
  rewrite waitForConnectionFile_loop_fails.
  - reflexivity.
  - intros j Hj. apply Hfail. unfold maxAttempts in Hj. lia.
Qed.

(** X18: When the file is first there at attempt [k], one of the fifty, the wait
    returns normally after [k] delays and the extra 100 ms; later attempts
    are not made. *)
Theorem waitForConnectionFile_returns (access : nat -> bool) (k : nat) :
  (k < 50)%nat ->
  (forall j, (j < k)%nat -> access j = false) ->
  access k = true ->
  waitForConnectionFile access = (Normal tt, 100 * Z.of_nat k + 100).
Proof.
  intros Hk Hfail Hfound. unfold waitForConnectionFile.
  rewrite (waitForConnectionFile_loop_finds access k).
  - unfold delay. rewrite Z.add_0_l. reflexivity.
  - exact Hk.
  - intros j Hj. apply Hfail. lia.
  - exact Hfound.
Qed.

Lemma setState_kernelInfo (s : KernelState) (km : KernelManager) (c : json) :
  In (Emit (ev_kernelInfo c)) (trace (snd (setState s km))) ->
  In (Emit (ev_kernelInfo c)) (trace km).
Proof.
  rewrite setState_spec. cbn [snd].
  destruct (KernelState_eqb (state km) s); [exact (fun H => H)|].
  cbn [trace set_trace set_state]. intros Hin.
  apply in_app_or in Hin. destruct Hin as [Hin | [Hin | []]];
    [exact Hin | discriminate Hin].
Qed.

(** X19: The handshake of [start()] checks nothing of a reply that
    [parseMessage] does not throw on, but for the reading of its header: with
    a [null] result, and with a message of any type whose header is not
    [null], [start()] completes and the state becomes [idle]; a message whose
    header is [null] makes [start()] fail with the [TypeError] of the type
    test, and the state stays as it was.  Only a [kernel_info_reply] is
    published. *)
Theorem handshake_reply_unchecked (km : KernelManager) (p : JupyterProtocol)
    (reply : list Buffer) (parsed : option JupyterMessage) :
  protocol km = Some p ->
  snd (parseMessage p reply) = Normal parsed ->
  (parsed = None \/ (exists m, parsed = Some m /\ header m <> JNull) ->
   fst (start_handshake reply km) = Normal tt
   /\ state (snd (start_handshake reply km)) = idle)
  /\ (forall m, parsed = Some m -> header m = JNull ->
      fst (start_handshake reply km)
      = Throw (TypeError "Cannot read properties of null")
      /\ state (snd (start_handshake reply km)) = state km)
  /\ (forall c, In (Emit (ev_kernelInfo c)) (trace (snd (start_handshake reply km))) ->
      In (Emit (ev_kernelInfo c)) (trace km)
      \/ exists m, parsed = Some m /\ isKernelInfoReply m = Normal true
                   /\ c = content m).
Proof.
  intros Hp Hparse.
  rewrite (start_handshake_spec reply km p Hp). cbv zeta. rewrite Hparse.
  set (km1 := set_trace (trace km ++ map ConsoleWarn (fst (parseMessage p reply))) km).
  assert (Hwarn : forall c, In (Emit (ev_kernelInfo c)) (trace km1) ->
                            In (Emit (ev_kernelInfo c)) (trace km)).
  { intros c Hin. subst km1. cbn [trace set_trace] in Hin.
    apply in_app_or in Hin. destruct Hin as [Hin | Hin]; [exact Hin|].
    apply in_map_iff in Hin. destruct Hin as (w & Hw & _). discriminate Hw. }
  assert (Hidle : forall k, fst (setState idle k) = Normal tt
                            /\ state (snd (setState idle k)) = idle).
  { intros k. split; [rewrite setState_spec; reflexivity | apply setState_state]. }
  destruct parsed as [m|].
  - destruct (isKernelInfoReply_header m) as [[Hnull Hthrow] | [Hobj [b Hb]]].
    + rewrite Hthrow. split; [|split].
      * intros [H | (m' & Hm' & Hne)]; [discriminate H|].
        injection Hm' as <-. contradiction.
      * intros m' Hm' _. split; reflexivity.
      * intros c Hin. left. apply Hwarn. exact Hin.
    + rewrite Hb. split; [|split].
      * intros _. destruct b; apply Hidle.
      * intros m' Hm' Hnull. injection Hm' as <-. contradiction.
      * intros c Hin. destruct b.
        -- apply setState_kernelInfo in Hin. cbn [trace set_trace] in Hin.
           apply in_app_or in Hin. destruct Hin as [Hin | [Hin | []]].
           ++ left. apply Hwarn. exact Hin.
           ++ right. exists m. injection Hin as <-. repeat split. exact Hb.
        -- left. apply Hwarn. apply (setState_kernelInfo idle). exact Hin.
  - split; [|split].
    + intros _. apply Hidle.
    + intros m' Hm'. discriminate Hm'.
    + intros c Hin. left. apply Hwarn. apply (setState_kernelInfo idle). exact Hin.
Qed.

End MoreStart.

(** ** The discovery of the Python environments *)

Section MoreDiscovery.
Import PythonSetup.
Variable host : Host.

Lemma fold_left_keeps {A : Type} (I : Found -> Prop) (f : Found -> A -> Found)
    (l : list A) (st : Found) :
  (forall st a, I st -> I (f st a)) -> I st -> I (fold_left f l st).
Proof.
  intros Hf. revert st. induction l as [|a l IH]; intros st Hst; cbn [fold_left].
  - exact Hst.
  - apply IH. apply Hf. exact Hst.
Qed.

Lemma findPythonInDir_file (dir p : string) :
  findPythonInDir host dir = Some p -> fileExists host p = true.
Proof.
  unfold findPythonInDir. intros H. apply find_some in H. apply H.
Qed.

Section Preserved.
Variable I : Found -> Prop.
Variable allowed : string -> EnvironmentType -> Prop.
Hypothesis addEnv_keeps :
  forall p n t st, allowed p t -> I st -> I (addEnv host p n t st).
Hypothesis found_allowed :
  forall p t, t <> system -> fileExists host p = true -> allowed p t.

Lemma addFrom_keeps (dir n : string) (t : EnvironmentType) (st : Found) :
  t <> system -> I st -> I (addFrom host dir n t st).
Proof.
  intros Ht Hst. unfold addFrom.
  destruct (findPythonInDir host dir) as [p|] eqn:Hfind; [|exact Hst].
  destruct (negb (String.eqb p "")); [|exact Hst].
  apply addEnv_keeps; [|exact Hst].
  apply found_allowed; [exact Ht|]. apply (findPythonInDir_file dir). exact Hfind.
Qed.

Lemma addEntries_keeps (dir label : string) (t : EnvironmentType) (st : Found) :
  t <> system -> I st -> I (addEntries host dir label t st).
Proof.
  intros Ht Hst. unfold addEntries.
  destruct (directoryExists host dir); [|exact Hst].
  destruct (readdir host dir) as [entries|]; [|exact Hst].
  apply fold_left_keeps; [|exact Hst].
  intros st' entry Hst'. apply addFrom_keeps; assumption.
Qed.

Lemma addSystem_keeps (commands : list string) (st : Found) :
  (forall p, allowed p system) -> I st -> I (addSystem host commands st).
Proof.
  intros Hsys Hst. induction commands as [|c rest IH]; cbn [addSystem].
  - exact Hst.
  - destruct (which host c) as [result|]; [|exact IH].
    destruct (negb (String.eqb result "")); [|exact IH].
    apply addEnv_keeps; [apply Hsys | exact Hst].
Qed.

(** The scans that come before the system interpreters. *)
Lemma scans_keep (workspaceDir : string) (J : Found -> Prop) :
  I ([], []) ->
  (forall commands st, I st -> J (addSystem host commands st)) ->
  J (discover host workspaceDir).
Proof.
  intros Hinit HJ. unfold discover. cbv zeta. apply HJ.
  assert (Hvenv : venv <> system) by discriminate.
  assert (Hpyenv : pyenv <> system) by discriminate.
  assert (Hconda : conda <> system) by discriminate.
  assert (Hpipenv : pipenv <> system) by discriminate.
  apply addEntries_keeps; [exact Hpipenv|].
  apply fold_left_keeps; [intros st a Hst; apply addFrom_keeps; assumption|].
  apply fold_left_keeps; [intros st a Hst; apply addEntries_keeps; assumption|].
  apply addEntries_keeps; [exact Hpyenv|].
  apply fold_left_keeps; [|exact Hinit].
  intros st a Hst.
  destruct (directoryExists host (path_join host [workspaceDir; a])); [|exact Hst].
  apply addFrom_keeps; assumption.
Qed.

Lemma discover_keeps (workspaceDir : string) :
  (forall p, allowed p system) -> I ([], []) -> I (discover host workspaceDir).
Proof.
  intros Hsys Hinit. apply scans_keep; [exact Hinit|].
  intros commands st Hst. apply addSystem_keeps; assumption.
Qed.

End Preserved.

Lemma seen_has_In (p : string) (seen : list string) :
  seen_has p seen = true <-> In p seen.
Proof.
  unfold seen_has. rewrite existsb_exists. split.
  - intros (x & Hin & Heq). apply String.eqb_eq in Heq. subst x. exact Hin.
  - intros Hin. exists p. split; [exact Hin | apply String.eqb_refl].
Qed.

Lemma addEnv_distinct (p n : string) (t : EnvironmentType) (st : Found) :
  distinct host st -> distinct host (addEnv host p n t st).
Proof.
  destruct st as [environments seen]. unfold distinct, addEnv. cbn [fst snd].
  intros [Hnodup Hseen].
  destruct (seen_has (realPath host p) seen) eqn:Hhas; cbn [fst snd].
  - split; assumption.
  - assert (Hfresh : ~ In (realPath host p)
                       (map (fun e => realPath host (path e)) environments)).
    { intros Hin. apply in_map_iff in Hin. destruct Hin as (e & He & Hin).
      apply Hseen in Hin. rewrite He in Hin. apply seen_has_In in Hin.
      rewrite Hin in Hhas. discriminate Hhas. }
    assert (Hmore : forall e, In e environments ->
                      In (realPath host (path e)) (seen ++ [realPath host p])).
    { intros e He. apply in_or_app. left. apply Hseen. exact He. }
    destruct (getPythonVersion host p) as [v|]; cbn [fst snd]; [|split; assumption].
    destruct (String.eqb v ""); cbn [fst snd]; [split; assumption|].
    split.
    + rewrite map_app. cbn [map path].
      apply NoDup_app; [exact Hnodup | constructor; [intros [] | constructor] |].
      intros x Hx [Hx' | []]. subst x. apply Hfresh. exact Hx.
    + intros e He. apply in_app_or in He. destruct He as [He | [He | []]].
      * apply Hmore. exact He.
      * subst e. cbn [path]. apply in_or_app. right. left. reflexivity.
Qed.

(** X20: No interpreter is listed twice, also when it is reached by several
    paths: the real paths of the environments are pairwise different. *)
Theorem discover_lists_each_interpreter_once (workspaceDir : string) :
  NoDup (map (fun e => realPath host (path e))
           (discoverEnvironments host workspaceDir)).
Proof.
  unfold discoverEnvironments.
  apply (discover_keeps (distinct host) (fun _ _ => True)).
  - intros p n t st _. apply addEnv_distinct.
  - intros p t _ _. exact Logic.I.
  - intros p. exact Logic.I.
  - split; [constructor | intros e []].
Qed.

Lemma addEnv_adds (p n : string) (t : EnvironmentType) (st : Found) :
  fst (addEnv host p n t st) = fst st
  \/ exists v,
       getPythonVersion host p = Some v /\ v <> ""
       /\ fst (addEnv host p n t st)
          = (fst st ++ [{| path := p; name := n; version := v; type := t;
                           hasIpykernel := checkIpykernel host p |}])%list.
Proof.
  destruct st as [environments seen]. unfold addEnv. cbn [fst snd].
  destruct (seen_has (realPath host p) seen); [left; reflexivity|].
  destruct (getPythonVersion host p) as [v|]; [|left; reflexivity].
  destruct (String.eqb_spec v "") as [-> | Hv]; [left; reflexivity|].
  right. exists v. repeat split; [exact Hv].
Qed.

Lemma addEnv_Forall (Q : PythonEnvironment -> Prop) (p n : string)
    (t : EnvironmentType) (st : Found) :
  (forall v, getPythonVersion host p = Some v -> v <> "" ->
     Q {| path := p; name := n; version := v; type := t;
          hasIpykernel := checkIpykernel host p |}) ->
  Forall Q (fst st) -> Forall Q (fst (addEnv host p n t st)).
Proof.
  intros Hnew Hst.
  destruct (addEnv_adds p n t st) as [-> | (v & Hv & Hne & ->)]; [exact Hst|].
  apply Forall_app. split; [exact Hst|]. constructor; [|constructor].
  apply Hnew; assumption.
Qed.

(** X21: Every environment listed carries the version its interpreter printed,
    which is not empty, and the result of the ipykernel check on it. *)
Theorem discover_lists_probed_interpreters (workspaceDir : string) :
  Forall (probed host) (discoverEnvironments host workspaceDir).
Proof.
  unfold discoverEnvironments.
  apply (discover_keeps (fun st => Forall (probed host) (fst st)) (fun _ _ => True)).
  - intros p n t st _. apply addEnv_Forall.
    intros v Hv Hne. unfold probed. cbn [path version hasIpykernel].
    repeat split; assumption.
  - intros p t _ _. exact Logic.I.
  - intros p. exact Logic.I.
  - constructor.
Qed.

(** X22: Every environment that is not the system interpreter is an existing
    file found in its directory. *)
Theorem discover_lists_existing_files (workspaceDir : string) :
  Forall (found_file host) (discoverEnvironments host workspaceDir).
Proof.
  unfold discoverEnvironments.
  apply (discover_keeps (fun st => Forall (found_file host) (fst st))
           (fun p t => t = system \/ fileExists host p = true)).
  - intros p n t st Hallowed. apply addEnv_Forall.
    intros v _ _. unfold found_file, is_system. cbn [path type].
    destruct Hallowed as [-> | Hfile]; [discriminate | intros _; exact Hfile].
  - intros p t _ Hfile. right. exact Hfile.
  - intros p. left. reflexivity.
  - constructor.
Qed.

Lemma addSystem_adds (commands : list string) (st : Found) :
  fst (addSystem host commands st) = fst st
  \/ exists e, is_system e = true /\ name e = "System Python"
               /\ fst (addSystem host commands st) = (fst st ++ [e])%list.
Proof.
  induction commands as [|c rest IH]; cbn [addSystem].
  - left. reflexivity.
  - destruct (which host c) as [result|]; [|exact IH].
    destruct (negb (String.eqb result "")); [|exact IH].
    destruct (addEnv_adds result "System Python" system st)
      as [-> | (v & _ & _ & ->)]; [left; reflexivity|].
    right. eexists. split; [|split; [|reflexivity]]; reflexivity.
Qed.

(** X23: At most one system interpreter is listed, and it comes last: all the
    environments before it are of the other kinds. *)
Theorem discover_lists_one_system_last (workspaceDir : string) :
  no_system (discover host workspaceDir)
  \/ exists pre e,
       discoverEnvironments host workspaceDir = (pre ++ [e])%list
       /\ is_system e = true
       /\ name e = "System Python"
       /\ Forall (fun e' => is_system e' = false) pre.
Proof.
  unfold discoverEnvironments.
  apply (scans_keep no_system (fun _ t => t <> system)).
  - intros p n t st Ht. unfold no_system. apply addEnv_Forall.
    intros v _ _. unfold is_system. cbn [type]. destruct t; try reflexivity.
    contradiction Ht. reflexivity.
  - intros p t Ht _. exact Ht.
  - constructor.
  - intros commands st Hst.
    destruct (addSystem_adds commands st) as [E | (e & He & Hname & E)].
    + left. unfold no_system. rewrite E. exact Hst.
    + right. exists (fst st), e. repeat split; assumption.
Qed.

End MoreDiscovery.

(** On a machine where [which python3] gives the interpreter that the
    workspace's [.venv] links to, the interpreter is listed once, as the
    virtual environment. *)
Example discover_linked_interpreter :
  PythonSetup.discoverEnvironments Samples.host "/w"
  = [ {| PythonSetup.path := "/w/.venv/bin/python3";
         PythonSetup.name := ".venv";
         PythonSetup.version := "3.12.1";
         PythonSetup.type := PythonSetup.venv;
         PythonSetup.hasIpykernel := true |} ].
Proof. vm_compute. reflexivity. Qed.

(** ** What the editor posts for an execution *)

Section MoreEditor.
Context {P : Platform}.



(** X24: With a manager that has no session (never started, or shut down), the
    editor posts the failure of [execute] as a string, without
    [needsEnvironment], and the manager is as it was. *)
Theorem handleExecute_not_started (km : KernelManager) (code cell uuid date : string) :
  shellSocket km = None \/ protocol km = None ->
  EditorProvider.handleExecute (Some km) code cell uuid date
  = (Some {| EditorProvider.cellId := cell;
             EditorProvider.success := false;
             EditorProvider.error := Some "Error: Kernel not started";
             EditorProvider.needsEnvironment := None;
             EditorProvider.msgId := None;
             EditorProvider.outputs := None |},
     Some km, None).
Proof.
  intros Hno. unfold EditorProvider.handleExecute, execute, bind, this, throw.
  destruct Hno as [-> | ->]; [reflexivity|].
  destruct (shellSocket km); reflexivity.
Qed.

(** X25: The whole exchange seen from the editor: nothing is posted when the
    request is sent, when the outputs come or when the shell reply comes;
    the idle broadcast for the request makes the editor post the success
    with the message id and the outputs collected, in order. *)
Theorem handleExecute_posts_collected_outputs (code cell uuid date : string)
    (km : KernelManager) (s : Socket) (p : JupyterProtocol)
    (os : list KernelOutput.t) (reply : list Buffer)
    (parsed : option JupyterMessage) (msg : JupyterMessage) :
  shellSocket km = Some s -> protocol km = Some p ->
  uuid <> "" ->
  snd (parseMessage p reply) = Normal parsed ->
  status_of msg = Some "idle" ->
  js_get (Some (parent_header msg)) "msg_id" = Normal (Some (JStr uuid)) ->
  exists km1 km3 call,
    EditorProvider.handleExecute (Some km) code cell uuid date
    = (None, Some km1, Some call)
    /\ EditorProvider.handleExecute_reply
         (snd (emitOutputs (Some (JStr uuid)) os km1)) cell reply
       = (None, km3)
    /\ EditorProvider.handleExecute_done km3 cell call = None
    /\ EditorProvider.handleExecute_done (snd (handleIopubMessage msg km3)) cell call
       = Some {| EditorProvider.cellId := cell;
                 EditorProvider.success := true;
                 EditorProvider.error := None;
                 EditorProvider.needsEnvironment := None;
                 EditorProvider.msgId := Some (Some (JStr uuid));
                 EditorProvider.outputs := Some os |}.
Proof.
  intros Hs Hp Hu Hparse Hidle Hparent.
  unfold EditorProvider.handleExecute.
  rewrite (execute_spec code uuid date km s p Hs Hp).
  set (km1 := set_trace _ _).
  set (r := length (heap km)).
  assert (Ht : truthy (Some (JStr uuid)) = true).
  { cbn [truthy]. apply String.eqb_neq in Hu. rewrite Hu. reflexivity. }
  assert (Hget : Map_get (Some (JStr uuid)) (pendingExecutions km1) = Some r).
  { subst km1. cbn [pendingExecutions set_trace set_pendingExecutions].
    apply Map_get_set_same. cbn [sameValueZero]. apply String.eqb_refl. }
  assert (He : nth_error (heap km1) r = Some {| outputs := []; resolved := false |}).
  { subst km1 r. cbn [heap set_trace set_pendingExecutions set_heap].
    rewrite nth_error_app2 by lia. rewrite Nat.sub_diag. reflexivity. }
  destruct (emitOutputs_matching _ _ _ os km1 Ht Hget He)
    as (_ & He2 & _ & Hpending2 & Hp2).
  set (km2 := snd (emitOutputs (Some (JStr uuid)) os km1)) in *.
  assert (Hp2' : protocol km2 = Some p).
  { rewrite Hp2. subst km1. exact Hp. }
  pose proof (execute_reply_received_spec km2 p reply parsed Hp2' Hparse) as Hreply.
  set (km3 := set_trace (trace km2 ++ map ConsoleWarn (fst (parseMessage p reply))) km2)
    in *.
  exists km1, km3, (Some (JStr uuid), r). fold km2.
  split; [reflexivity|]. split.
  { unfold EditorProvider.handleExecute_reply. rewrite Hreply. reflexivity. }
  assert (He3 : nth_error (heap km3) r = Some {| outputs := os; resolved := false |}).
  { subst km3. cbn [heap set_trace]. exact He2. }
  split.
  { unfold EditorProvider.handleExecute_done, execute_returns. cbn [fst snd].
    rewrite He3. reflexivity. }
  assert (Hfor : idle_for msg (Some (JStr uuid)) r km3).
  { repeat split; try assumption.
    subst km3. cbn [pendingExecutions set_trace]. rewrite Hpending2. exact Hget. }
  assert (Hp3 : protocol km3 = Some p) by exact Hp2'.
  destruct (handleIopubMessage_idle msg km3 p _ _ _ Hp3 Hfor He3)
    as (_ & _ & _ & Hret & _).
  unfold EditorProvider.handleExecute_done.
  replace (execute_returns (Some (JStr uuid), r) (snd (handleIopubMessage msg km3)))
    with (Some (Some (JStr uuid), os)) by (symmetry; exact Hret).
  reflexivity.
Qed.

(** X26: A shell reply that [parseMessage] throws on makes [execute] fail: the
    editor posts the error, and the manager is left as it was, the request
    still registered. *)
Theorem handleExecute_fails_on_bad_reply (km : KernelManager) (p : JupyterProtocol)
    (cell : string) (reply : list Buffer) (e : JsError) :
  protocol km = Some p ->
  snd (parseMessage p reply) = Throw e ->
  EditorProvider.handleExecute_reply km cell reply
  = (Some (EditorProvider.failure cell e), km).
Proof.
  intros Hp Hthrow.
  pose proof (parseMessage_throw_silent p reply e Hthrow) as Hsilent.
  unfold EditorProvider.handleExecute_reply, execute_reply_received, bind, lift.
  rewrite the_protocol_spec, Hp.
  destruct (parseMessage p reply) as [warnings parsed].
  cbn [fst snd] in *. subst warnings parsed.
  unfold modify. cbn [map]. rewrite app_nil_r, set_trace_same. reflexivity.
Qed.

End MoreEditor.

(** ** Examples on the reference platform *)

Lemma stream_output_witness :
  trace (snd (@handleIopubMessage reference_platform
                (Samples.stream_message "stdout" "2") Scenario.executing))
  = (trace Scenario.executing
     ++ [Emit (ev_output (mkOutput KernelOutput.stdout (Some (JStr "2")) None)
                (Some (JStr "u2")))])%list.
Proof.
  refine (proj2 (@stream_output reference_platform
                   (Samples.stream_message "stdout" "2") Scenario.executing _
                   (Some (JStr "u2")) (Some (JStr "stdout")) (Some (JStr "2"))
                   _ _ _ _ _)).
  all: vm_compute; reflexivity.
Defined.

Lemma error_output_witness :
  trace (snd (@handleIopubMessage reference_platform
                (Samples.error_message ["Traceback"; "ZeroDivisionError"])
                Scenario.executing))
  = (trace Scenario.executing
     ++ [Emit (ev_output
                 (mkOutput KernelOutput.error
                    (Some (JStr (String.concat newline ["Traceback"; "ZeroDivisionError"])))
                    None)
                 (Some (JStr "u2")))])%list.
Proof.
  refine (proj2 (@error_output reference_platform
                   (Samples.error_message ["Traceback"; "ZeroDivisionError"])
                   Scenario.executing _ (Some (JStr "u2"))
                   ["Traceback"; "ZeroDivisionError"] _ _ _ _)).
  all: vm_compute; reflexivity.
Defined.

Lemma execute_reply_on_iopub_witness :
  @handleIopubMessage reference_platform (Samples.execute_reply_message 7)
    Scenario.executing
  = (Normal tt, set_executionCount (JNum 7) Scenario.executing).
Proof.
  refine (@execute_reply_on_iopub reference_platform (Samples.execute_reply_message 7)
            Scenario.executing _ (Some (JStr "u2")) (Some (JNum 7)) _ _ _ _).
  all: vm_compute; reflexivity.
Defined.

Lemma unhandled_messages_ignored_witness :
  @handleIopubMessage reference_platform Samples.execute_input_message
    Scenario.executing
  = (Normal tt, Scenario.executing).
Proof.
  refine (@unhandled_messages_ignored reference_platform Samples.execute_input_message
            Scenario.executing _ (Some (JStr "u2")) (Some (JStr "execute_input"))
            _ _ _ _).
  - vm_compute; reflexivity.
  - vm_compute; reflexivity.
  - vm_compute; reflexivity.
  - left. repeat constructor.
Defined.

Lemma idle_completes_execution_witness :
  execute_returns (Some (JStr "u2"), 0%nat)
    (snd (@handleIopubMessage reference_platform (Samples.status_message "u2" "idle")
            Scenario.executing))
  = Some (Some (JStr "u2"), []).
Proof.
  refine (proj1 (proj2 (proj2 (proj2
            (@idle_completes_execution reference_platform
               (Samples.status_message "u2" "idle") Scenario.executing _
               (Some (JStr "u2")) 0%nat {| outputs := []; resolved := false |}
               _ _ _))))).
  - vm_compute; reflexivity.
  - split; [|split; [|split]]; vm_compute; reflexivity.
  - vm_compute; reflexivity.
Defined.

Lemma outputs_collected_in_order_witness :
  nth_error
    (heap (snd (emitOutputs (Some (JStr "u2")) Samples.two_outputs
                  Scenario.executing))) 0
  = Some {| outputs := Samples.two_outputs; resolved := false |}.
Proof.
  refine (proj1 (proj2
            (outputs_collected_in_order (Some (JStr "u2")) 0%nat
               {| outputs := []; resolved := false |} Samples.two_outputs
               Scenario.executing _ _ _))).
  all: vm_compute; reflexivity.
Defined.

Lemma outputs_without_execution_published_witness :
  emitOutputs (Some (JStr "u7")) Samples.two_outputs Scenario.started
  = (Normal tt,
     set_trace (trace Scenario.started
                ++ map (fun o => Emit (ev_output o (Some (JStr "u7")))) Samples.two_outputs)
       Scenario.started).
Proof.
  refine (outputs_without_execution_published (Some (JStr "u7"))
            Samples.two_outputs Scenario.started _).
  right. vm_compute; reflexivity.
Defined.


Lemma resolved_only_by_matching_idle_witness :
  exists frames p msg k,
    Iopub_frames (Scenario.status_frames "k9" "u2" "idle") = Iopub_frames frames
    /\ listening Scenario.executing = true
    /\ protocol Scenario.executing = Some p
    /\ snd (@parseMessage reference_platform p frames) = Normal (Some msg)
    /\ idle_for msg k 0 Scenario.executing.
Proof.
  apply (@resolved_only_by_matching_idle reference_platform
           (Iopub_frames (Scenario.status_frames "k9" "u2" "idle"))
           Scenario.executing 0%nat).
  - eexists. split; vm_compute; reflexivity.
  - intros (e & He & Hres). vm_compute in He. injection He as <-. discriminate Hres.
Defined.

Lemma listener_stops_on_throw_witness :
  listening (@step reference_platform
               (Iopub_frames [delimiter; ""; "{}"; "{}"; "{}"; "{oops"])
               Scenario.started) = false.
Proof.
  refine (proj1 (@listener_stops_on_throw reference_platform Scenario.started _
                   [delimiter; ""; "{}"; "{}"; "{}"; "{oops"] _ _ _ _)).
  - vm_compute; reflexivity.
  - vm_compute; reflexivity.
  - vm_compute; reflexivity.
Defined.

Lemma waitForConnectionFile_times_out_witness :
  waitForConnectionFile (fun _ => false)
  = (Throw (Error "Timeout waiting for kernel connection file"), 5000).
Proof.
  apply (waitForConnectionFile_times_out (fun _ => false)).
  intros j Hj. reflexivity.
Defined.

Lemma waitForConnectionFile_returns_witness :
  waitForConnectionFile Samples.appears_at_3 = (Normal tt, 400).
Proof.
  apply (waitForConnectionFile_returns Samples.appears_at_3 3).
  - lia.
  - intros j Hj. unfold Samples.appears_at_3. apply Nat.leb_gt. exact Hj.
  - reflexivity.
Defined.

(** A busy broadcast taken for the reply to the kernel-info request. *)
Lemma handshake_reply_unchecked_witness :
  fst (@start_handshake reference_platform (Scenario.status_frames "k1" "u1" "busy")
         Scenario.starting_session) = Normal tt
  /\ state (snd (@start_handshake reference_platform
                   (Scenario.status_frames "k1" "u1" "busy")
                   Scenario.starting_session)) = idle.
Proof.
  refine (proj1 (@handshake_reply_unchecked reference_platform
                   Scenario.starting_session _
                   (Scenario.status_frames "k1" "u1" "busy") _ _ _) _).
  - vm_compute; reflexivity.
  - vm_compute; reflexivity.
  - right. eexists. split; [reflexivity|]. vm_compute. intros E. discriminate E.
Defined.

(** A reply whose header frame is [null]: [start()] fails, and the state
    stays [starting]. *)
Example handshake_null_header :
  snd (@parseMessage reference_platform
         (new_JupyterProtocol "session-1" "secret")
         [delimiter; ""; "null"; "{}"; "{}"; "{}"])
  = Normal (Some {| header := JNull; parent_header := JObj []; metadata := JObj [];
                    content := JObj []; buffers := Some [] |})
  /\ fst (@start_handshake reference_platform
            [delimiter; ""; "null"; "{}"; "{}"; "{}"] Scenario.starting_session)
     = Throw (TypeError "Cannot read properties of null")
  /\ state (snd (@start_handshake reference_platform
                   [delimiter; ""; "null"; "{}"; "{}"; "{}"]
                   Scenario.starting_session)) = starting.
Proof. split; [|split]; vm_compute; reflexivity. Qed.

Lemma handleExecute_not_started_witness :
  @EditorProvider.handleExecute reference_platform (Some (new_KernelManager "python3"))
    "1+1" "cell-1" "u2" "2024-01-01T00:00:01.000Z"
  = (Some {| EditorProvider.cellId := "cell-1";
             EditorProvider.success := false;
             EditorProvider.error := Some "Error: Kernel not started";
             EditorProvider.needsEnvironment := None;
             EditorProvider.msgId := None;
             EditorProvider.outputs := None |},
     Some (new_KernelManager "python3"), None).
Proof.
  apply (@handleExecute_not_started reference_platform).
  left. reflexivity.
Defined.

Lemma handleExecute_posts_collected_outputs_witness :
  exists km1 km3 call,
    @EditorProvider.handleExecute reference_platform (Some Scenario.started)
      "1+1" "cell-1" "u2" "2024-01-01T00:00:01.000Z"
    = (None, Some km1, Some call)
    /\ @EditorProvider.handleExecute_reply reference_platform
         (snd (emitOutputs (Some (JStr "u2")) Samples.two_outputs km1))
         "cell-1" (Scenario.execute_reply_frames 1)
       = (None, km3)
    /\ EditorProvider.handleExecute_done km3 "cell-1" call = None
    /\ EditorProvider.handleExecute_done
         (snd (@handleIopubMessage reference_platform
                 (Samples.status_message "u2" "idle") km3)) "cell-1" call
       = Some {| EditorProvider.cellId := "cell-1";
                 EditorProvider.success := true;
                 EditorProvider.error := None;
                 EditorProvider.needsEnvironment := None;
                 EditorProvider.msgId := Some (Some (JStr "u2"));
                 EditorProvider.outputs := Some Samples.two_outputs |}.
Proof.
  refine (@handleExecute_posts_collected_outputs reference_platform "1+1" "cell-1" "u2"
            "2024-01-01T00:00:01.000Z" Scenario.started _ _ Samples.two_outputs
            (Scenario.execute_reply_frames 1) _ (Samples.status_message "u2" "idle")
            _ _ _ _ _ _).
  - vm_compute; reflexivity.
  - vm_compute; reflexivity.
  - discriminate.
  - vm_compute; reflexivity.
  - vm_compute; reflexivity.
  - vm_compute; reflexivity.
Defined.

Lemma handleExecute_fails_on_bad_reply_witness :
  exists e,
    @EditorProvider.handleExecute_reply reference_platform Scenario.started "cell-1"
      [delimiter; ""; "{}"; "{}"; "{}"; "{oops"]
    = (Some (EditorProvider.failure "cell-1" e), Scenario.started).
Proof.
  eexists.
  refine (@handleExecute_fails_on_bad_reply reference_platform Scenario.started _
            "cell-1" [delimiter; ""; "{}"; "{}"; "{}"; "{oops"] _ _ _).
  - vm_compute; reflexivity.
  - vm_compute; reflexivity.
Defined.
